(** * Token lifecycle, authenticated requests, request deduplication and
      cache-aside fetchers of the Sankhya proxy

    Shallow embedding of [src/lib/sankhya-api.ts] and
    [src/lib/produtos-service.ts], and of the route handlers that call
    their fetchers.

    - [Normalizacao]: the positional-to-named demangling loops
      ([mapearEntidades], [mapearParceiros]).
    - [Async]: asynchronous code as trees of operations; every [await] of
      the source is a node, so the same definition is run to completion by
      one caller ([run]) or interleaved with other callers ([retomar]).
    - [TokenManager]: [obterToken] and [invalidarToken].
    - [Executor]: [fazerRequisicaoAutenticada] of [sankhya-api.ts].
    - [Dedup]: [dedupedRequest] with its in-flight handle table.
    - [Fetchers]: the cache-aside data fetchers.
    - [TokenAtual]: [obterTokenAtual].
    - [Consultas]: [consultarComplementoParceiro] and
      [consultarDadosModeloNota].
    - [Rotas]: the handlers of [tipos-negociacao/route.ts] and the partner
      listing.
    - [Produtos]: [getSankhyaToken] and [fazerRequisicaoAutenticada] of
      [produtos-service.ts]. *)

From stdpp Require Import gmap strings list fin_maps pretty.
From Stdlib Require Import ZArith Lia.

Local Open Scope Z_scope.

(** ** JavaScript values used by the code *)

(** Truthiness of a string: only the empty string is falsy. *)
Definition truthy (s : string) : bool := negb (String.eqb s "").

(** A property read: [undefined], [null] or a string. *)
Inductive Scalar :=
| SUndefined
| SNull
| SStr (s : string).

#[global] Instance Scalar_eq_dec : EqDecision Scalar.
Proof. solve_decision. Defined.

Definition scalar_truthy (v : Scalar) : bool :=
  match v with
  | SStr s => truthy s
  | _ => false
  end.

(** [a || b] on strings that may be undefined. *)
Definition ou (a : Scalar) (b : string) : string :=
  match a with
  | SStr s => if truthy s then s else b
  | _ => b
  end.

(** ** Positional encoding and its normalization *)

Module Normalizacao.

(** A value found under a positional key [f<i>] of a raw row.  The ERP sends
    objects [{"$": v}] (or [{}]); anything falsy is skipped by the loop. *)
Inductive RawSlot :=
| SlotObj (dollar : Scalar)   (* an object; [dollar] is its [$] property *)
| SlotFalsy.                  (* null, empty string, 0, false *)

Definition slot_truthy (s : RawSlot) : bool :=
  match s with
  | SlotObj _ => true
  | SlotFalsy => false
  end.

(** [rawEntity[fieldKey].$] *)
Definition slot_dollar (s : RawSlot) : Scalar :=
  match s with
  | SlotObj d => d
  | SlotFalsy => SUndefined
  end.

(** A raw row is a JS object keyed by ["f0"], ["f1"], ... *)
Abbreviation RawEntity := (gmap string RawSlot).

(** A normalized record: a JS object from field names to scalars. *)
Abbreviation Registro := (gmap string Scalar).

(** [entities.entity] is a single object or an array of objects. *)
Inductive EntityField :=
| EntityOne (rawEntity : RawEntity)
| EntityMany (rawEntities : list RawEntity).

(** [entities]: [fieldNames] stands for
    [entities.metadata.fields.field.map(f => f.name)]; [total] is the
    [total] property when it is truthy, already read by [parseInt]. *)
Record Entities := {
  fieldNames : list string;
  entity : option EntityField;
  total : option Z
}.

(** [`f${i}`] *)
Definition fieldKey (i : nat) : string := "f" +:+ pretty i.

(** One turn of
    [for (let i = 0; i < fieldNames.length; i++) { ... }]. *)
Definition passo (fieldNames : list string) (rawEntity : RawEntity)
    (cleanObject : Registro) (i : nat) : Registro :=
  match fieldNames !! i with
  | Some fieldName =>
      match rawEntity !! fieldKey i with
      | Some slot =>
          if slot_truthy slot
          then <[fieldName := slot_dollar slot]> cleanObject
          else cleanObject
      | None => cleanObject
      end
  | None => cleanObject
  end.

(** The whole loop, starting from [cleanObject = {}]. *)
Definition normalizar (fieldNames : list string) (rawEntity : RawEntity)
    : Registro :=
  foldl (passo fieldNames rawEntity) ∅ (seq 0 (length fieldNames)).

(** [Array.isArray(entities.entity) ? entities.entity : [entities.entity]] *)
Definition entityArray (e : EntityField) : list RawEntity :=
  match e with
  | EntityOne r => [r]
  | EntityMany rs => rs
  end.

(** [cleanObject._id = cleanObject.<pk> ? String(cleanObject.<pk>) : String(index)] *)
Definition comId (pk : string) (index : nat) (cleanObject : Registro)
    : Registro :=
  let id :=
    match cleanObject !! pk with
    | Some (SStr s) => if truthy s then s else pretty index
    | _ => pretty index
    end in
  <["_id" := SStr id]> cleanObject.

(** [mapearEntidades] of [produtos-service.ts]; called only when
    [entities.entity] is truthy, so it receives that field. *)
Definition mapearEntidades (fieldNames : list string) (e : EntityField)
    : list Registro :=
  imap (λ index rawEntity, comId "CODPROD" index (normalizar fieldNames rawEntity))
       (entityArray e).

(** [mapearParceiros] of [sankhya-api.ts]. *)
Definition mapearParceiros (fieldNames : list string) (e : EntityField)
    : list Registro :=
  imap (λ index rawEntity, comId "CODPARC" index (normalizar fieldNames rawEntity))
       (entityArray e).

(** The inline loops of [consultarTiposOperacao] and
    [consultarTiposNegociacao]: no [_id]. *)
Definition mapearSimples (fieldNames : list string) (e : EntityField)
    : list Registro :=
  map (normalizar fieldNames) (entityArray e).

(** What the loop assigns at position [i]: the [$] of slot [f<i>] when the
    slot is there and truthy. *)
Definition valor_slot (rawEntity : RawEntity) (i : nat) : option Scalar :=
  match rawEntity !! fieldKey i with
  | Some slot => if slot_truthy slot then Some (slot_dollar slot) else None
  | None => None
  end.

(** The row of the specification's example. *)
Definition linha_exemplo : RawEntity :=
  <["f0" := SlotObj (SStr "10")]> (<["f1" := SlotObj (SStr "Widget")]> ∅).

End Normalizacao.

(** ** Errors, results and cached values *)

(** [erro.response] of an axios error: the status and the two properties of
    [erro.response.data] that the code reads. *)
Record ErroResponse := {
  status : Z;
  statusMessage : Scalar;   (* erro.response.data.statusMessage *)
  dataError : Scalar        (* erro.response.data.error *)
}.

(** A caught value: an axios error ([response] and/or [code]) or a plain
    [Error] (only [message]). *)
Record Erro := {
  response : option ErroResponse;
  code : option string;
  message : string
}.

(** [new Error(msg)] *)
Definition Error (msg : string) : Erro :=
  {| response := None; code := None; message := msg |}.

(** How an awaited call ends. *)
Inductive Outcome (A : Type) :=
| Returned (a : A)
| Thrown (e : Erro).
Arguments Returned {A} a.
Arguments Thrown {A} e.

(** [erro.response?.status === n] *)
Definition status_eq (e : Erro) (n : Z) : bool :=
  match response e with
  | Some r => status r =? n
  | None => false
  end.

(** [erro.response?.status >= n]; [undefined >= n] is false. *)
Definition status_ge (e : Erro) (n : Z) : bool :=
  match response e with
  | Some r => n <=? status r
  | None => false
  end.

(** [erro.code === c] *)
Definition code_eq (e : Erro) (c : string) : bool :=
  match code e with
  | Some c' => String.eqb c' c
  | None => false
  end.

(** The value under the token key. *)
Record TokenCache := {
  token : string;
  expiresAt : Z;     (* milliseconds *)
  geradoEm : Z       (* the instant rendered by [toISOString] *)
}.

(** What [consultarProdutos] and [consultarParceiros] build. *)
Record Pagina := {
  itens : list Normalizacao.Registro;   (* [produtos] / [parceiros] *)
  pg_total : Z;
  pg_page : Z;
  pg_pageSize : Z;
  pg_totalPages : option Z   (* [None]: not a finite number *)
}.

(** What [consultarEstoqueProduto] builds.  [estoqueParcelas] lists the
    strings [estoque.ESTOQUE || '0'] that [parseFloat] reads and the
    reduction adds up; the floating-point sum itself is not modelled. *)
Record EstoqueResultado := {
  estoques : list Normalizacao.Registro;
  est_total : nat;
  estoqueParcelas : list string
}.

(** Values kept in the Shared Cache Store. *)
Inductive CacheValue :=
| CvToken (t : TokenCache)
| CvLock (carimbo : Z)      (* [`${Date.now()}-${Math.random()}`]; only its truthiness is read *)
| CvPagina (p : Pagina)
| CvLista (l : list Normalizacao.Registro)
| CvRegistro (r : Normalizacao.Registro)
| CvEstoque (e : EstoqueResultado).

(** ** The Shared Cache Store *)

Module Cache.

(** Modelled from the spec: the cache service ([redis-cache-wrapper],
    [redis-cache-service]) is not among the sources.  Section 6 gives its
    interface, [get(key) -> value|null], [set(key, value, ttlSeconds)],
    [delete(key)], and section 2 says every key has its own expiration. *)
Record Entry := {
  valor : CacheValue;
  expira : Z   (* instant, in milliseconds, from which the key is gone *)
}.

(** Modelled from the spec: [get(key) -> value|null]; a key whose time
    has run out reads as absent. *)
Definition get (s : gmap string Entry) (agora : Z) (key : string)
    : option CacheValue :=
  match s !! key with
  | Some e => if agora <? expira e then Some (valor e) else None
  | None => None
  end.

(** Modelled from the spec: [set(key, value, ttlSeconds)]. *)
Definition set (s : gmap string Entry) (agora : Z) (key : string)
    (v : CacheValue) (ttlSeconds : Z) : gmap string Entry :=
  <[key := {| valor := v; expira := agora + ttlSeconds * 1000 |}]> s.

(** Modelled from the spec: [delete(key)]. *)
Definition delete (s : gmap string Entry) (key : string) : gmap string Entry :=
  base.delete key s.

End Cache.

(** ** Asynchronous code as trees of operations *)

Module Async.

(** [resposta.data] of the login call: the two properties the code reads. *)
Record LoginData := {
  bearerToken : Scalar;
  ld_token : Scalar
}.

(** The [dataSet] of a [loadRecords] request body. *)
Record Payload := {
  rootEntity : string;
  offsetPage : option string;
  limit : option string;
  disableRowsLimit : bool;
  fieldset : string;
  criteria : option string;
  orderBy : option string
}.

(** [response.data] of a data call, as far as the fetchers read it. *)
Record ResponseBody := {
  entities : option Normalizacao.Entities
}.

Record Resposta := {
  responseBody : option ResponseBody
}.

(** A fulfilled axios response: [response.status] and [response.data]. *)
Record AxiosResponse := {
  r_status : Z;
  r_data : Resposta
}.

(** Operations of the code on its surroundings.  The index is the type of
    the value the code gets back.  The cache service, the timers and the
    two loggers ([addApiLog], [logApiRequest], which section 6 of the
    specification describes as never propagating a failure) always
    complete; only the two HTTP calls may end in an error. *)
Inductive Op : Type → Type :=
| GetCacheService : Op unit                                  (* await getCacheService() *)
| CacheGet (key : string) : Op (option CacheValue)           (* await cache.get(key) *)
| CacheSet (key : string) (v : CacheValue) (ttl : Z) : Op unit
| CacheDelete (key : string) : Op unit
| DateNow : Op Z                                             (* Date.now() *)
| SetTimeout (ms : Z) : Op unit                              (* await new Promise(r => setTimeout(r, ms)) *)
| LoginPost : Op (Outcome LoginData)                         (* await axiosInstance.post(ENDPOINT_LOGIN, ...) *)
| AxiosRequest (tok url method : string) (data : Payload)
    : Op (Outcome AxiosResponse)                             (* await axiosInstance(config) *)
| AddApiLog (st : Z) (tokenUsed : bool) : Op unit            (* addApiLog({...}) inside its try/catch *)
| LogApiRequest (falhou : bool) : Op unit                    (* await logApiRequest({...}) *)
| GetTokenPromise : Op (option nat)                          (* read of the module variable *)
| SetTokenPromise (p : option nat) : Op unit                 (* write of the module variable *)
| NewPromise : Op nat                                        (* the promise of the async arrow function *)
| SettlePromise (p : nat) (r : Outcome string) : Op unit
| AwaitPromise (p : nat) : Op (Outcome string)               (* return tokenPromise, awaited by the caller *)
| PendingGet (key : string) : Op (option nat)                (* pendingRequests.has(key), pendingRequests.get(key) *)
| PendingSet (key : string) (p : nat) : Op unit              (* pendingRequests.set(key, promise) *)
| PendingDelete (key : string) : Op unit                     (* pendingRequests.delete(key) *)
| SettlePending (p : nat) (r : Outcome CacheValue) : Op unit (* the promise of a fetcher settles *)
| AwaitPending (p : nat) : Op (Outcome CacheValue)           (* the promise of a fetcher, awaited by the caller *)
| SettleResposta (p : nat) (r : Outcome Resposta) : Op unit  (* the promise of a data request settles *)
| AwaitResposta (p : nat) : Op (Outcome Resposta).           (* the promise of a data request, awaited by the caller *)

(** Operations that complete without giving up control. *)
Definition sincrona {R} (op : Op R) : bool :=
  match op with
  | DateNow | GetTokenPromise | SetTokenPromise _ | NewPromise
  | SettlePromise _ _ | PendingGet _ | PendingSet _ _ | PendingDelete _
  | SettlePending _ _ | SettleResposta _ _ => true
  | _ => false
  end.

(** A piece of asynchronous code.  [Diverge] marks the end of the unfolding
    budget of a loop or of a recursion. *)
Inductive Prog (A : Type) : Type :=
| Ret (a : A)
| Vis {R : Type} (op : Op R) (k : R → Prog A)
| Diverge.
Arguments Ret {A} a.
Arguments Vis {A R} op k.
Arguments Diverge {A}.

Fixpoint bind {A B} (p : Prog A) (f : A → Prog B) : Prog B :=
  match p with
  | Ret a => f a
  | Vis op k => Vis op (λ r, bind (k r) f)
  | Diverge => Diverge
  end.

#[global] Instance Prog_ret : MRet Prog := @Ret.
#[global] Instance Prog_bind : MBind Prog := λ A B f p, bind p f.

Definition perform {R} (op : Op R) : Prog R := Vis op Ret.

(** What is observed of a run. *)
Inductive Evento :=
| EvLogin
| EvRequest (tok url method : string) (data : Payload)
| EvTimeout (ms : Z)
| EvCacheSet (key : string) (v : CacheValue) (ttl : Z)
| EvCacheDelete (key : string)
| EvApiLog (st : Z) (tokenUsed : bool)
| EvLogApiRequest (falhou : bool).

(** The delays of the timers of a trace, and the tokens of its data
    requests, in order. *)
Definition temporizadores (tr : list Evento) : list Z :=
  omap (λ ev, match ev with EvTimeout ms => Some ms | _ => None end) tr.

Definition tokensUsados (tr : list Evento) : list string :=
  omap (λ ev, match ev with EvRequest tok _ _ _ => Some tok | _ => None end) tr.

(** The downstream: the reply to the [n]-th login and to the [n]-th data
    request (which may depend on the token and on the request). *)
Record Ambiente := {
  loginResposta : nat → Outcome LoginData;
  httpResposta : nat → string → Payload → Outcome AxiosResponse
}.

(** The state the code runs in: clock, Shared Cache Store, the module
    variables [tokenPromise] and [pendingRequests], the settled promises,
    counters of the outbound calls and the trace.  Promises are named by
    numbers.  [pendingRequests] is the [Map] of [produtos-service.ts],
    from a key to the promise stored under it.  [dedupedRequest] is
    generic: the promises it stores for a fetcher carry what the fetcher
    returns, those it stores for [fazerRequisicaoAutenticada] the [data]
    of a response.  [liquidadas] has the promises of the first kind that
    have settled, each with its outcome, and [respondidas] those of the
    second kind. *)
Record Mundo := {
  relogio : Z;
  cache : gmap string Cache.Entry;
  tokenPromise : option nat;
  promessas : gmap nat (Outcome string);
  proxima : nat;
  pendingRequests : gmap string nat;
  liquidadas : gmap nat (Outcome CacheValue);
  respondidas : gmap nat (Outcome Resposta);
  logins : nat;
  chamadas : nat;
  rastro : list Evento
}.

Definition com_cache (c : gmap string Cache.Entry) (ev : list Evento) (m : Mundo) : Mundo :=
  {| relogio := relogio m; cache := c; tokenPromise := tokenPromise m;
     promessas := promessas m; proxima := proxima m;
     pendingRequests := pendingRequests m; liquidadas := liquidadas m;
     respondidas := respondidas m; logins := logins m;
     chamadas := chamadas m; rastro := rastro m ++ ev |}.

Definition registar (ev : Evento) (m : Mundo) : Mundo :=
  com_cache (cache m) [ev] m.

Definition com_relogio (t : Z) (m : Mundo) : Mundo :=
  {| relogio := t; cache := cache m; tokenPromise := tokenPromise m;
     promessas := promessas m; proxima := proxima m;
     pendingRequests := pendingRequests m; liquidadas := liquidadas m;
     respondidas := respondidas m; logins := logins m;
     chamadas := chamadas m; rastro := rastro m |}.

Definition com_tokenPromise (p : option nat) (m : Mundo) : Mundo :=
  {| relogio := relogio m; cache := cache m; tokenPromise := p;
     promessas := promessas m; proxima := proxima m;
     pendingRequests := pendingRequests m; liquidadas := liquidadas m;
     respondidas := respondidas m; logins := logins m;
     chamadas := chamadas m; rastro := rastro m |}.

Definition com_promessas (ps : gmap nat (Outcome string)) (nx : nat) (m : Mundo) : Mundo :=
  {| relogio := relogio m; cache := cache m; tokenPromise := tokenPromise m;
     promessas := ps; proxima := nx;
     pendingRequests := pendingRequests m; liquidadas := liquidadas m;
     respondidas := respondidas m; logins := logins m;
     chamadas := chamadas m; rastro := rastro m |}.

Definition com_pending (ps : gmap string nat) (m : Mundo) : Mundo :=
  {| relogio := relogio m; cache := cache m; tokenPromise := tokenPromise m;
     promessas := promessas m; proxima := proxima m;
     pendingRequests := ps; liquidadas := liquidadas m;
     respondidas := respondidas m; logins := logins m;
     chamadas := chamadas m; rastro := rastro m |}.

Definition com_liquidadas (ls : gmap nat (Outcome CacheValue)) (m : Mundo) : Mundo :=
  {| relogio := relogio m; cache := cache m; tokenPromise := tokenPromise m;
     promessas := promessas m; proxima := proxima m;
     pendingRequests := pendingRequests m; liquidadas := ls;
     respondidas := respondidas m; logins := logins m;
     chamadas := chamadas m; rastro := rastro m |}.

Definition com_respondidas (rs : gmap nat (Outcome Resposta)) (m : Mundo) : Mundo :=
  {| relogio := relogio m; cache := cache m; tokenPromise := tokenPromise m;
     promessas := promessas m; proxima := proxima m;
     pendingRequests := pendingRequests m; liquidadas := liquidadas m;
     respondidas := rs; logins := logins m;
     chamadas := chamadas m; rastro := rastro m |}.

Definition com_contadores (l c : nat) (m : Mundo) : Mundo :=
  {| relogio := relogio m; cache := cache m; tokenPromise := tokenPromise m;
     promessas := promessas m; proxima := proxima m;
     pendingRequests := pendingRequests m; liquidadas := liquidadas m;
     respondidas := respondidas m; logins := l;
     chamadas := c; rastro := rastro m |}.

(** The effect of one operation.  [None]: the operation cannot complete
    yet (the awaited promise is still pending).  Only timers move the
    clock; a negative delay fires at once. *)
Definition handle (amb : Ambiente) {R} (op : Op R) (m : Mundo) : option (R * Mundo) :=
  match op in Op R return option (R * Mundo) with
  | GetCacheService => Some (tt, m)
  | CacheGet key => Some (Cache.get (cache m) (relogio m) key, m)
  | CacheSet key v ttl =>
      Some (tt, com_cache (Cache.set (cache m) (relogio m) key v ttl) [EvCacheSet key v ttl] m)
  | CacheDelete key =>
      Some (tt, com_cache (Cache.delete (cache m) key) [EvCacheDelete key] m)
  | DateNow => Some (relogio m, m)
  | SetTimeout ms =>
      Some (tt, registar (EvTimeout ms) (com_relogio (relogio m + Z.max 0 ms) m))
  | LoginPost =>
      Some (loginResposta amb (logins m),
            registar EvLogin (com_contadores (S (logins m)) (chamadas m) m))
  | AxiosRequest tok url method data =>
      Some (httpResposta amb (chamadas m) tok data,
            registar (EvRequest tok url method data)
                     (com_contadores (logins m) (S (chamadas m)) m))
  | AddApiLog st used => Some (tt, registar (EvApiLog st used) m)
  | LogApiRequest falhou => Some (tt, registar (EvLogApiRequest falhou) m)
  | GetTokenPromise => Some (tokenPromise m, m)
  | SetTokenPromise p => Some (tt, com_tokenPromise p m)
  | NewPromise => Some (proxima m, com_promessas (promessas m) (S (proxima m)) m)
  | SettlePromise p r => Some (tt, com_promessas (<[p := r]> (promessas m)) (proxima m) m)
  | AwaitPromise p =>
      match promessas m !! p with
      | Some r => Some (r, m)
      | None => None
      end
  | PendingGet key => Some (pendingRequests m !! key, m)
  | PendingSet key p => Some (tt, com_pending (<[key := p]> (pendingRequests m)) m)
  | PendingDelete key => Some (tt, com_pending (delete key (pendingRequests m)) m)
  | SettlePending p r =>
      Some (tt, com_liquidadas (<[p := r]> (liquidadas m)) m)
  | AwaitPending p =>
      match liquidadas m !! p with
      | Some r => Some (r, m)
      | None => None
      end
  | SettleResposta p r =>
      Some (tt, com_respondidas (<[p := r]> (respondidas m)) m)
  | AwaitResposta p =>
      match respondidas m !! p with
      | Some r => Some (r, m)
      | None => None
      end
  end.

(** One caller alone: the code runs to its end.  [None] when it waits for
    a promise nobody settles, or the budget of a loop ran out. *)
Fixpoint run {A} (amb : Ambiente) (p : Prog A) (m : Mundo) : option (A * Mundo) :=
  match p with
  | Ret a => Some (a, m)
  | Vis op k =>
      match handle amb op m with
      | Some (r, m') => run amb (k r) m'
      | None => None
      end
  | Diverge => None
  end.

(** Partial correctness of a piece of code run by one caller. *)
Definition hoare {A} (amb : Ambiente) (P : Mundo → Prop) (p : Prog A) (Q : A → Mundo → Prop) : Prop :=
  ∀ m a m', P m → run amb p m = Some (a, m') → Q a m'.

(** Several callers of one process: a caller runs until its next [await]
    and stays there until it is resumed. *)
Fixpoint avancar {A} (amb : Ambiente) (p : Prog A) (m : Mundo) : Prog A * Mundo :=
  match p with
  | Vis op k =>
      if sincrona op then
        match handle amb op m with
        | Some (r, m') => avancar amb (k r) m'
        | None => (p, m)
        end
      else (p, m)
  | _ => (p, m)
  end.

(** The awaited operation completes and the caller goes on to its next
    [await]. *)
Definition retomar {A} (amb : Ambiente) (p : Prog A) (m : Mundo) : Prog A * Mundo :=
  match p with
  | Vis op k =>
      match handle amb op m with
      | Some (r, m') => avancar amb (k r) m'
      | None => (p, m)
      end
  | _ => (p, m)
  end.

(** A schedule names, turn by turn, the caller that is resumed. *)
Fixpoint executar {A} (amb : Ambiente) (agenda : list nat)
    (ps : list (Prog A)) (m : Mundo) : list (Prog A) * Mundo :=
  match agenda with
  | [] => (ps, m)
  | i :: agenda' =>
      match ps !! i with
      | Some p =>
          let '(p', m') := retomar amb p m in
          executar amb agenda' (<[i := p']> ps) m'
      | None => executar amb agenda' ps m
      end
  end.

(** The callers start in the same tick: each runs up to its first [await]. *)
Fixpoint iniciar {A} (amb : Ambiente) (ps : list (Prog A)) (m : Mundo)
    : list (Prog A) * Mundo :=
  match ps with
  | [] => ([], m)
  | p :: ps' =>
      let '(p', m') := avancar amb p m in
      let '(ps'', m'') := iniciar amb ps' m' in
      (p' :: ps'', m'')
  end.

(** What a caller has got so far. *)
Definition resultado {A} (p : Prog A) : option A :=
  match p with
  | Ret a => Some a
  | _ => None
  end.

End Async.

(** ** Token Manager ([sankhya-api.ts], lines 112-342) *)

Module TokenManager.
Import Async.

Definition LOCK_KEY : string := "sankhya:token:lock".
Definition TOKEN_CACHE_KEY : string := "sankhya:token".
Definition LOCK_TTL : Z := 30000.   (* the value handed to [set] *)
Definition MAX_LOCK_WAIT : Z := 25000.
Definition MAX_RETRIES : Z := 3.
Definition RETRY_DELAY : Z := 1000.

Definition MSG_LOCK_TIMEOUT : string :=
  "Não foi possível gerar token - timeout ao aguardar lock".
Definition MSG_SEM_TOKEN : string :=
  "Resposta de login do Sankhya não continha o token esperado.".
Definition MSG_INDISPONIVEL : string :=
  "Serviço Sankhya temporariamente indisponível. Tente novamente em instantes.".
Definition MSG_FALHA_AUTENTICACAO : string :=
  "Falha na autenticação Sankhya: ".

(** The check the code repeats at lines 127-130, 170-173, 190-193 and
    207-210: [tokenData && tokenData.token], then
    [tokenData.expiresAt - Date.now() > 0].  It gives the token that may
    be returned. *)
Definition tokenVigente (tokenData : option CacheValue) : Prog (option string) :=
  match tokenData with
  | Some (CvToken td) =>
      if truthy (token td) then
        agora ← perform DateNow;
        let tempoRestante := expiresAt td - agora in
        if 0 <? tempoRestante then mret (Some (token td)) else mret None
      else mret None
  | _ => mret None
  end.

(** How the [while] of lines 150-184 is left. *)
Inductive Fecho :=
| Adquirido                   (* lockAcquired = true *)
| NaoAdquirido                (* the wait ceiling was reached *)
| TokenDeOutro (tok : string). (* line 177: return tokenData.token *)

(** The [while] loop.  The cache calls of the model do not throw, so the
    [catch] of line 180 has no counterpart.  [budget] bounds the turns. *)
Fixpoint esperarLock (budget : nat) (lockStart : Z) : Prog Fecho :=
  agora ← perform DateNow;
  if agora - lockStart <? MAX_LOCK_WAIT then
    match budget with
    | O => Diverge
    | S budget' =>
        carimbo ← perform DateNow;
        existing ← perform (CacheGet LOCK_KEY);
        match existing with
        | None =>
            _ ← perform (CacheSet LOCK_KEY (CvLock carimbo) LOCK_TTL);
            mret Adquirido
        | Some _ =>
            _ ← perform (SetTimeout 500);
            tokenData ← perform (CacheGet TOKEN_CACHE_KEY);
            vigente ← tokenVigente tokenData;
            match vigente with
            | Some tok =>
                _ ← perform (CacheDelete LOCK_KEY);
                mret (TokenDeOutro tok)
            | None => esperarLock budget' lockStart
            end
        end
    end
  else mret NaoAdquirido.

(** Each turn that stays in the loop sleeps 500 ms, so 50 turns reach the
    ceiling of 25000 ms. *)
Definition LOCK_TURNS : nat := 50.

(** The [finally] of lines 322-326. *)
Definition finalmente : Prog unit :=
  _ ← perform (SetTokenPromise None);
  perform (CacheDelete LOCK_KEY).

(** [resposta.data.bearerToken || resposta.data.token] *)
Definition tokenDaResposta (data : LoginData) : Scalar :=
  if scalar_truthy (bearerToken data) then bearerToken data else ld_token data.

(** Lines 239-254: the login call gave a token, or failed (an axios error,
    or a response without a token). *)
Definition tentativaDeLogin (resposta : Outcome LoginData) : Outcome string :=
  match resposta with
  | Returned data =>
      match tokenDaResposta data with
      | SStr tok => if truthy tok then Returned tok else Thrown (Error MSG_SEM_TOKEN)
      | _ => Thrown (Error MSG_SEM_TOKEN)
      end
  | Thrown e => Thrown e
  end.

(** Lines 317-321: the error the caller gets when the login is given up. *)
Definition erroDeLogin (erro : Erro) : Erro :=
  if status_eq erro 500 then Error MSG_INDISPONIVEL
  else
    let detalhe :=
      match response erro with
      | Some r => ou (dataError r) (message erro)
      | None => message erro
      end in
    Error (MSG_FALHA_AUTENTICACAO +:+ detalhe).

(** The async arrow function of lines 236-327.  [recurse] is the call
    [obterToken(forceRefresh, retryCount + 1)] of line 298: the call is
    made, the [finally] block runs, and the promise of the arrow function
    then follows the promise of that call. *)
Definition gerarToken (recurse : bool → Z → Prog (Outcome string))
    (forceRefresh : bool) (retryCount : Z) : Prog (Outcome string) :=
  resposta ← perform LoginPost;
  match tentativaDeLogin resposta with
  | Returned tok =>
      agora ← perform DateNow;
      let tokenData :=
        {| token := tok; expiresAt := agora + 20 * 60 * 1000; geradoEm := agora |} in
      _ ← perform (CacheSet TOKEN_CACHE_KEY (CvToken tokenData) (20 * 60));
      _ ← perform (CacheGet TOKEN_CACHE_KEY);
      _ ← perform (CacheDelete LOCK_KEY);
      _ ← finalmente;
      mret (Returned tok)
  | Thrown erro =>
      _ ← perform (CacheDelete LOCK_KEY);
      if status_eq erro 500 && (retryCount <? MAX_RETRIES) then
        _ ← perform (SetTimeout (RETRY_DELAY * (retryCount + 1)));
        _ ← perform (SetTokenPromise None);
        _ ← finalmente;
        recurse forceRefresh (retryCount + 1)
      else
        _ ← perform (CacheDelete TOKEN_CACHE_KEY);
        _ ← perform (SetTokenPromise None);
        _ ← finalmente;
        mret (Thrown (erroDeLogin erro))
  end.

(** Lines 136-329: what [obterToken] does when the first read gave no
    token it may return. *)
Definition renovar (recurse : bool → Z → Prog (Outcome string))
    (forceRefresh : bool) (retryCount : Z) : Prog (Outcome string) :=
  pendente ← perform GetTokenPromise;
  match pendente with
  | Some p => perform (AwaitPromise p)
  | None =>
      lockStart ← perform DateNow;
      fecho ← esperarLock LOCK_TURNS lockStart;
      match fecho with
      | TokenDeOutro tok => mret (Returned tok)
      | NaoAdquirido =>
          tokenData ← perform (CacheGet TOKEN_CACHE_KEY);
          vigente ← tokenVigente tokenData;
          match vigente with
          | Some tok => mret (Returned tok)
          | None => mret (Thrown (Error MSG_LOCK_TIMEOUT))
          end
      | Adquirido =>
          vigente ←
            (if forceRefresh then mret None
             else tokenData ← perform (CacheGet TOKEN_CACHE_KEY);
                  tokenVigente tokenData);
          match vigente with
          | Some tok =>
              _ ← perform (CacheDelete LOCK_KEY);
              mret (Returned tok)
          | None =>
              p ← perform NewPromise;
              _ ← perform (SetTokenPromise (Some p));
              r ← gerarToken recurse forceRefresh retryCount;
              _ ← perform (SettlePromise p r);
              mret r
          end
      end
  end.

(** Lines 116-134, then [renovar]. *)
Definition corpoObterToken (recurse : bool → Z → Prog (Outcome string))
    (forceRefresh : bool) (retryCount : Z) : Prog (Outcome string) :=
  _ ← perform GetCacheService;
  _ ← (if forceRefresh then perform (CacheDelete TOKEN_CACHE_KEY) else mret tt);
  tokenData ← perform (CacheGet TOKEN_CACHE_KEY);
  vigente ← tokenVigente tokenData;
  match vigente with
  | Some tok =>
      if negb forceRefresh then mret (Returned tok)
      else renovar recurse forceRefresh retryCount
  | None => renovar recurse forceRefresh retryCount
  end.

(** [obterToken], unfolded [budget] times along its recursion. *)
Fixpoint obterToken_rec (budget : nat) (forceRefresh : bool) (retryCount : Z)
    : Prog (Outcome string) :=
  corpoObterToken
    (λ fr rc,
       match budget with
       | O => Diverge
       | S budget' => obterToken_rec budget' fr rc
       end)
    forceRefresh retryCount.

(** [obterToken(forceRefresh = false, retryCount = 0)].  The recursion is
    entered only while [retryCount < MAX_RETRIES] and adds one each time. *)
Definition obterToken (forceRefresh : bool) (retryCount : Z) : Prog (Outcome string) :=
  obterToken_rec (Z.to_nat (MAX_RETRIES - retryCount)) forceRefresh retryCount.

(** The recursive call as the call with [retryCount] makes it. *)
Definition chamadaRecursiva (retryCount : Z) : bool → Z → Prog (Outcome string) :=
  λ fr rc,
    match Z.to_nat (MAX_RETRIES - retryCount) with
    | O => Diverge
    | S budget' => obterToken_rec budget' fr rc
    end.

(** No credential in the store is still good by its own [expiresAt]
    (whether or not the store has dropped it yet). *)
Definition vencido (m : Mundo) : Prop :=
  ∀ e td, cache m !! TOKEN_CACHE_KEY = Some e → Cache.valor e = CvToken td →
    expiresAt td ≤ relogio m.

(** The store holds the credential [td], and it is good for more than
    [folga] milliseconds, both by its [expiresAt] and for the store. *)
Definition temCredencial (td : TokenCache) (folga : Z) (m : Mundo) : Prop :=
  ∃ e, cache m !! TOKEN_CACHE_KEY = Some e
    ∧ Cache.valor e = CvToken td
    ∧ truthy (token td) = true
    ∧ relogio m + folga < Cache.expira e
    ∧ relogio m + folga < expiresAt td.

(** A call made in this state goes all the way to the login: no renewal
    is running in the process, the lock is free, and the store has no
    credential the call could return. *)
Definition chegaAoLogin (forceRefresh : bool) (m : Mundo) : Prop :=
  tokenPromise m = None
  ∧ Cache.get (cache m) (relogio m) LOCK_KEY = None
  ∧ (forceRefresh = false → vencido m).

(** [invalidarToken] *)
Definition invalidarToken : Prog unit :=
  _ ← perform GetCacheService;
  _ ← perform (CacheDelete TOKEN_CACHE_KEY);
  perform (CacheDelete LOCK_KEY).

(** The token is the one a login of this run gave. *)
Definition deLogin (amb : Ambiente) (l0 : nat) (tok : string) (m' : Mundo) : Prop :=
  ∃ n data, (l0 ≤ n < logins m')%nat
    ∧ loginResposta amb n = Returned data
    ∧ tokenDaResposta data = SStr tok.

(** Nothing in the store can be returned, and [l0] logins or more were
    made so far. *)
Definition estagnado (l0 : nat) (m : Mundo) : Prop :=
  vencido m ∧ (l0 ≤ logins m)%nat.

(** Operations that write no credential. *)
Definition inofensiva {R} (op : Op R) : bool :=
  match op with
  | CacheSet key _ _ => negb (String.eqb key TOKEN_CACHE_KEY)
  | _ => true
  end.

(** A returned token comes from a login of this run. *)
Definition renovado (amb : Ambiente) (l0 : nat) (r : Outcome string) (m' : Mundo) : Prop :=
  ∀ tok, r = Returned tok → deLogin amb l0 tok m'.

(** The state in which the login request is sent, for a call made in [m]
    that goes all the way to the login. *)
Definition aoLogin (fr : bool) (m : Mundo) : Mundo :=
  {| relogio := relogio m;
     cache := Cache.set (if fr then Cache.delete (cache m) TOKEN_CACHE_KEY else cache m)
                (relogio m) LOCK_KEY (CvLock (relogio m)) LOCK_TTL;
     tokenPromise := Some (proxima m);
     promessas := promessas m;
     proxima := S (proxima m);
     pendingRequests := pendingRequests m;
     liquidadas := liquidadas m;
     respondidas := respondidas m;
     logins := logins m;
     chamadas := chamadas m;
     rastro := rastro m ++ (if fr then [EvCacheDelete TOKEN_CACHE_KEY] else [])
                 ++ [EvCacheSet LOCK_KEY (CvLock (relogio m)) LOCK_TTL] |}.

(** The arrow function has ended with [r]: its promise is settled. *)
Definition liquidar (p : nat) (res : option (Outcome string * Mundo))
    : option (Outcome string * Mundo) :=
  match res with
  | Some (r, m') => Some (r, com_promessas (<[p := r]> (promessas m')) (proxima m') m')
  | None => None
  end.

(** The credential the login of instant [agora] writes. *)
Definition credencial (tok : string) (agora : Z) : TokenCache :=
  {| token := tok; expiresAt := agora + 20 * 60 * 1000; geradoEm := agora |}.

(** The state after the arrow function stored the token of a login sent
    in [m]. *)
Definition aposLogin (tok : string) (m : Mundo) : Mundo :=
  {| relogio := relogio m;
     cache := Cache.delete
                (Cache.delete
                   (Cache.set (cache m) (relogio m) TOKEN_CACHE_KEY
                      (CvToken (credencial tok (relogio m))) (20 * 60))
                   LOCK_KEY)
                LOCK_KEY;
     tokenPromise := None;
     promessas := promessas m;
     proxima := proxima m;
     pendingRequests := pendingRequests m;
     liquidadas := liquidadas m;
     respondidas := respondidas m;
     logins := S (logins m);
     chamadas := chamadas m;
     rastro := rastro m ++
               [EvLogin;
                EvCacheSet TOKEN_CACHE_KEY (CvToken (credencial tok (relogio m))) (20 * 60);
                EvCacheDelete LOCK_KEY; EvCacheDelete LOCK_KEY] |}.

(** The state in which the next attempt starts after a login failed with
    status 500. *)
Definition aposFalha (rc : Z) (m : Mundo) : Mundo :=
  {| relogio := relogio m + Z.max 0 (RETRY_DELAY * (rc + 1));
     cache := Cache.delete (Cache.delete (cache m) LOCK_KEY) LOCK_KEY;
     tokenPromise := None;
     promessas := promessas m;
     proxima := proxima m;
     pendingRequests := pendingRequests m;
     liquidadas := liquidadas m;
     respondidas := respondidas m;
     logins := S (logins m);
     chamadas := chamadas m;
     rastro := rastro m ++
               [EvLogin; EvCacheDelete LOCK_KEY;
                EvTimeout (RETRY_DELAY * (rc + 1)); EvCacheDelete LOCK_KEY] |}.

(** The state in which the login is given up. *)
Definition aposDesistir (m : Mundo) : Mundo :=
  {| relogio := relogio m;
     cache := Cache.delete
                (Cache.delete (Cache.delete (cache m) LOCK_KEY) TOKEN_CACHE_KEY)
                LOCK_KEY;
     tokenPromise := None;
     promessas := promessas m;
     proxima := proxima m;
     pendingRequests := pendingRequests m;
     liquidadas := liquidadas m;
     respondidas := respondidas m;
     logins := S (logins m);
     chamadas := chamadas m;
     rastro := rastro m ++
               [EvLogin; EvCacheDelete LOCK_KEY; EvCacheDelete TOKEN_CACHE_KEY;
                EvCacheDelete LOCK_KEY] |}.

End TokenManager.

(** ** Authenticated Request Executor ([sankhya-api.ts], lines 344-481) *)

Module Executor.
Import Async.

Definition MAX_RETRIES : Z := 2.
Definition RETRY_DELAY : Z := 1000.

Definition MSG_SESSAO_EXPIRADA : string := "Sessão expirada. Tente novamente.".
Definition MSG_TEMPO_EXCEDIDO : string := "Tempo de resposta excedido. Tente novamente.".
Definition MSG_SERVICO_INDISPONIVEL : string :=
  "Serviço temporariamente indisponível. Tente novamente.".
Definition MSG_ERRO_COMUNICACAO : string := "Erro na comunicação com o servidor".

(** [erro.response?.status || 500] *)
Definition errorStatus (erro : Erro) : Z :=
  match response erro with
  | Some r => if status r =? 0 then 500 else status r
  | None => 500
  end.

(** [erro.response && (status === 401 || status === 403)] *)
Definition naoAutorizado (erro : Erro) : bool :=
  status_eq erro 401 || status_eq erro 403.

(** The condition of line 457, without its [retryCount] part. *)
Definition transitorio (erro : Erro) : bool :=
  code_eq erro "ECONNABORTED" || code_eq erro "ENOTFOUND" || status_ge erro 500.

(** [erro.response?.data?.statusMessage || erro.message || "Erro na ..."] *)
Definition mensagemFinal (erro : Erro) : string :=
  let resto := if truthy (message erro) then message erro else MSG_ERRO_COMUNICACAO in
  match response erro with
  | Some r => ou (statusMessage r) resto
  | None => resto
  end.

(** Lines 470-479: the error the caller gets when the request is given
    up. *)
Definition erroFinal (erro : Erro) : Erro :=
  if code_eq erro "ECONNABORTED" then Error MSG_TEMPO_EXCEDIDO
  else if status_ge erro 500 then Error MSG_SERVICO_INDISPONIVEL
  else Error (mensagemFinal erro).

(** The [catch] block, lines 403-480.  [recurse] is the call
    [fazerRequisicaoAutenticada(fullUrl, method, data, retryCount + 1)]. *)
Definition aoFalhar (recurse : Z → Prog (Outcome Resposta))
    (retryCount : Z) (erro : Erro) : Prog (Outcome Resposta) :=
  _ ← perform (AddApiLog (errorStatus erro) (bool_decide (is_Some (response erro))));
  if naoAutorizado erro then
    _ ← perform GetCacheService;
    _ ← perform (CacheDelete "sankhya:token");
    if retryCount <? 1 then
      _ ← perform (SetTimeout 500);
      recurse (retryCount + 1)
    else mret (Thrown (Error MSG_SESSAO_EXPIRADA))
  else if transitorio erro && (retryCount <? MAX_RETRIES) then
    _ ← perform (SetTimeout (RETRY_DELAY * (retryCount + 1)));
    recurse (retryCount + 1)
  else mret (Thrown (erroFinal erro)).

(** The [try] block, lines 350-401.  [method] is passed on as given; axios
    receives it in lower case. *)
Definition corpoRequisicao (recurse : Z → Prog (Outcome Resposta))
    (fullUrl method : string) (data : Payload) (retryCount : Z)
    : Prog (Outcome Resposta) :=
  _ ← perform DateNow;
  t ← TokenManager.obterToken false 0;
  match t with
  | Thrown erro => aoFalhar recurse retryCount erro
  | Returned tok =>
      _ ← perform GetCacheService;
      r ← perform (AxiosRequest tok fullUrl method data);
      match r with
      | Returned resp =>
          _ ← perform (AddApiLog (r_status resp) true);
          mret (Returned (r_data resp))
      | Thrown erro => aoFalhar recurse retryCount erro
      end
  end.

Fixpoint fazerRequisicaoAutenticada_rec (budget : nat) (fullUrl method : string)
    (data : Payload) (retryCount : Z) : Prog (Outcome Resposta) :=
  corpoRequisicao
    (λ rc,
       match budget with
       | O => Diverge
       | S budget' => fazerRequisicaoAutenticada_rec budget' fullUrl method data rc
       end)
    fullUrl method data retryCount.

(** [fazerRequisicaoAutenticada(fullUrl, method = 'POST', data = {}, retryCount = 0)].
    Both recursive calls sit behind a test that implies
    [retryCount < MAX_RETRIES]. *)
Definition fazerRequisicaoAutenticada (fullUrl method : string) (data : Payload)
    (retryCount : Z) : Prog (Outcome Resposta) :=
  fazerRequisicaoAutenticada_rec (Z.to_nat (MAX_RETRIES - retryCount))
    fullUrl method data retryCount.

(** The recursive call as the call with [retryCount] makes it. *)
Definition chamadaRecursiva (fullUrl method : string) (data : Payload)
    (retryCount : Z) : Z → Prog (Outcome Resposta) :=
  λ rc,
    match Z.to_nat (MAX_RETRIES - retryCount) with
    | O => Diverge
    | S budget' => fazerRequisicaoAutenticada_rec budget' fullUrl method data rc
    end.

(** The state after the data request was sent with [tok] from [m]. *)
Definition aposPedido (tok url method : string) (data : Payload) (m : Mundo) : Mundo :=
  registar (EvRequest tok url method data)
    (com_contadores (logins m) (S (chamadas m)) m).

(** The state in which the next attempt starts after a transient
    failure. *)
Definition aposTransitorio (tok url method : string) (data : Payload)
    (erro : Erro) (rc : Z) (m : Mundo) : Mundo :=
  registar (EvTimeout (RETRY_DELAY * (rc + 1)))
    (com_relogio (relogio m + Z.max 0 (RETRY_DELAY * (rc + 1)))
       (registar (EvApiLog (errorStatus erro) (bool_decide (is_Some (response erro))))
          (aposPedido tok url method data m))).

(** The state after a call of [obterToken] in [m] renewed the token. *)
Definition aposRenovar (tok : string) (m : Mundo) : Mundo :=
  let m' := TokenManager.aposLogin tok (TokenManager.aoLogin false m) in
  com_promessas (<[proxima m := Returned tok]> (promessas m')) (proxima m') m'.

(** The state in which the retry starts after a 401 or 403. *)
Definition aposNaoAutorizado (tok url method : string) (data : Payload)
    (erro : Erro) (m : Mundo) : Mundo :=
  registar (EvTimeout 500)
    (com_relogio (relogio m + 500)
       (com_cache (Cache.delete (cache m) "sankhya:token")
          [EvApiLog (errorStatus erro) (bool_decide (is_Some (response erro)));
           EvCacheDelete "sankhya:token"]
          (aposPedido tok url method data m))).

(** The state in which a 401 or 403 is given up. *)
Definition aposSessaoExpirada (tok url method : string) (data : Payload)
    (erro : Erro) (m : Mundo) : Mundo :=
  com_cache (Cache.delete (cache m) "sankhya:token")
    [EvApiLog (errorStatus erro) (bool_decide (is_Some (response erro)));
     EvCacheDelete "sankhya:token"]
    (aposPedido tok url method data m).

End Executor.

(** ** Request Deduplicator ([produtos-service.ts], lines 6-23) *)

Module Dedup.
Import Async.

(** The process as the deduplicator sees it.  [pending] is the
    [pendingRequests] map, whose values are promises, named by numbers.
    [emCurso] lists the operations that were started and have not settled,
    each with the key it was started for; [invocacoes] logs every call of
    an [operation].  An operation is an outbound call: starting it does not
    touch [pendingRequests]. *)
Record Estado := {
  pending : gmap string nat;
  emCurso : list (nat * string);
  proximo : nat;
  invocacoes : list string;
  assentadas : gmap nat bool   (* settled promises: fulfilled or rejected *)
}.

Definition inicial : Estado :=
  {| pending := ∅; emCurso := []; proximo := 0%nat; invocacoes := [];
     assentadas := ∅ |}.

(** [dedupedRequest(key, fetcher)]: the promise handed to the caller and
    the state after the call.  The promise stored and returned is
    [fetcher().finally(...)], which settles as the operation does, after
    the callback has run; one number names both. *)
Definition dedupedRequest (key : string) (s : Estado) : nat * Estado :=
  match pending s !! key with
  | Some p => (p, s)
  | None =>
      let p := proximo s in
      (p, {| pending := <[key := p]> (pending s);
             emCurso := (p, key) :: emCurso s;
             proximo := S p;
             invocacoes := invocacoes s ++ [key];
             assentadas := assentadas s |})
  end.

(** The key an operation in flight was started for. *)
Fixpoint chaveDe (p : nat) (l : list (nat * string)) : option string :=
  match l with
  | [] => None
  | (q, key) :: l' => if decide (q = p) then Some key else chaveDe p l'
  end.

(** The operation [p] settles, fulfilled ([ok = true]) or rejected: the
    [finally] callback runs [pendingRequests.delete(key)] with the key of
    its closure. *)
Definition assentar (p : nat) (ok : bool) (s : Estado) : Estado :=
  match chaveDe p (emCurso s) with
  | Some key =>
      {| pending := delete key (pending s);
         emCurso := filter (λ e, e.1 ≠ p) (emCurso s);
         proximo := proximo s;
         invocacoes := invocacoes s;
         assentadas := <[p := ok]> (assentadas s) |}
  | None => s
  end.

(** What happens in the process, one event at a time. *)
Inductive Acao :=
| Chamar (key : string)            (* a caller runs dedupedRequest(key, op) *)
| Assentar (p : nat) (ok : bool).  (* the operation behind promise p settles *)

Definition passo (s : Estado) (a : Acao) : Estado :=
  match a with
  | Chamar key => (dedupedRequest key s).2
  | Assentar p ok => assentar p ok s
  end.

Definition execucao (acoes : list Acao) : Estado := foldl passo inicial acoes.

(** Operations in flight for [key]. *)
Definition emCursoDe (key : string) (s : Estado) : list (nat * string) :=
  filter (λ e, e.2 = key) (emCurso s).

(** What holds of the handle table whatever callers and settlements did. *)
Record Inv (s : Estado) : Prop := {
  inv_pending : ∀ key p, pending s !! key = Some p ↔ (p, key) ∈ emCurso s;
  inv_keys : NoDup (emCurso s).*2;
  inv_handles : NoDup (emCurso s).*1;
  inv_fresh : ∀ p key, (p, key) ∈ emCurso s → (p < proximo s)%nat
}.

(** [dedupedRequest] as one caller runs it.  A caller that finds an entry
    under [key] gets the promise stored there and waits for it, so its
    result is the one of the call that stored the promise.  The caller
    that finds none stores the promise [fetcher().finally(...)] and waits
    for it: the promise settles as the fetcher ends, after the callback
    has removed the entry.  The source starts [fetcher()] and stores the
    promise when the fetcher reaches its first [await]; nothing the
    fetchers below do before that depends on this entry, so it is written
    first here.  The promises of the map are those of the fetchers, whose
    values are of the kind the store keeps. *)
Definition dedupedRequest_seq (key : string) (fetcher : Prog (Outcome CacheValue))
    : Prog (Outcome CacheValue) :=
  pendente ← perform (PendingGet key);
  match pendente with
  | Some p => perform (AwaitPending p)
  | None =>
      p ← perform NewPromise;
      _ ← perform (PendingSet key p);
      r ← fetcher;
      _ ← perform (PendingDelete key);
      _ ← perform (SettlePending p r);
      mret r
  end.

(** The state in which the fetcher of a call that found no entry under
    [key] starts: the promise of the call is in the map. *)
Definition registado (key : string) (m : Mundo) : Mundo :=
  com_pending (<[key := proxima m]> (pendingRequests m))
    (com_promessas (promessas m) (S (proxima m)) m).

End Dedup.

(** ** Cache-Aside Data Fetchers *)

Module Fetchers.
Import Async Normalizacao.

Definition URL_CONSULTA_SERVICO : string :=
  "https://api.sandbox.sankhya.com.br/gateway/v1/mge/service.sbr?serviceName=CRUDServiceProvider.loadRecords&outputType=json".

(** Built-in functions of JavaScript the fetchers call on their
    arguments. *)
Record JsBuiltins := {
  trim : string → string;
  toUpperCase : string → string;
  stringify : Payload → string   (* JSON.stringify of the request body *)
}.

(** [Math.ceil(a / b)] for integers; [None] when [b] is 0 (the quotient is
    not a finite number). *)
Definition ceilDiv (a b : Z) : option Z :=
  if b =? 0 then None else Some (- ((- a) / b)).

(** [l.slice(0, fim)] for an integer [fim]. *)
Definition sliceAte {A} (fim : Z) (l : list A) : list A :=
  if fim <? 0 then take (Z.to_nat (Z.max (Z.of_nat (length l) + fim) 0)) l
  else take (Z.to_nat fim) l.

(** [{ produtos: [], total: 0, page, pageSize, totalPages: 0 }] *)
Definition paginaVazia (page pageSize : Z) : Pagina :=
  {| itens := []; pg_total := 0; pg_page := page; pg_pageSize := pageSize;
     pg_totalPages := Some 0 |}.

(** [{ estoques: [], total: 0, estoqueTotal: 0 }] *)
Definition estoqueVazio : EstoqueResultado :=
  {| estoques := []; est_total := 0%nat; estoqueParcelas := [] |}.

(** [`${x}`] of an optional number. *)
Definition mostrarOpt (x : option Z) : string :=
  match x with
  | Some n => pretty n
  | None => "undefined"
  end.

(** [xs.join(',')] *)
Definition juntar (xs : list Z) : string := String.concat "," (map pretty xs).

(** Reading a property of [undefined]. *)
Definition TYPE_ERROR : Erro :=
  Error "Cannot read properties of undefined".

Section Fetchers.
Context (js : JsBuiltins).

(** *** [sankhya-api.ts] *)

(** Lines 519-579 of [consultarParceiros]. *)
Definition payloadParceiros (searchName searchCode : string)
    (codVendedor : option Z) (codVendedoresEquipe : option (list Z)) : Payload :=
  let filters0 := ["CLIENTE = 'S'"] in
  let filters1 :=
    if truthy (trim js searchCode)
    then filters0 ++ ["CODPARC = " +:+ trim js searchCode]
    else filters0 in
  let filters2 :=
    if truthy (trim js searchName)
    then filters1 ++ ["NOMEPARC LIKE '%" +:+ toUpperCase js (trim js searchName) +:+ "%'"]
    else filters1 in
  let filters3 :=
    match codVendedoresEquipe, codVendedor with
    | Some (v :: vs), _ =>
        filters2 ++ ["CODVEND IN (" +:+ juntar (v :: vs) +:+ ")"; "CODVEND IS NOT NULL"]
    | _, Some c =>
        if c =? 0 then filters2
        else filters2 ++ ["CODVEND = " +:+ pretty c; "CODVEND IS NOT NULL"]
    | _, None => filters2
    end in
  {| rootEntity := "Parceiro"; offsetPage := None; limit := None;
     disableRowsLimit := true;
     fieldset := "CODPARC, NOMEPARC, CGC_CPF, CODCID, ATIVO, TIPPESSOA, RAZAOSOCIAL, IDENTINSCESTAD, CEP, CODEND, NUMEND, COMPLEMENTO, CODBAI, LATITUDE, LONGITUDE, CLIENTE, CODVEND";
     criteria := Some (String.concat " AND " filters3);
     orderBy := None |}.

Definition chaveParceiros (page pageSize : Z) (searchName searchCode : string)
    (codVendedor : option Z) (codVendedoresEquipe : option (list Z)) : string :=
  "parceiros:list:" +:+ pretty page +:+ ":" +:+ pretty pageSize +:+ ":" +:+
  searchName +:+ ":" +:+ searchCode +:+ ":" +:+ mostrarOpt codVendedor +:+ ":" +:+
  match codVendedoresEquipe with
  | Some xs => juntar xs
  | None => "undefined"
  end.

(** [consultarParceiros] *)
Definition consultarParceiros (page pageSize : Z) (searchName searchCode : string)
    (codVendedor : option Z) (codVendedoresEquipe : option (list Z))
    : Prog (Outcome CacheValue) :=
  let cacheKey :=
    chaveParceiros page pageSize searchName searchCode codVendedor codVendedoresEquipe in
  _ ← perform GetCacheService;
  cached ← perform (CacheGet cacheKey);
  match cached with
  | Some v => mret (Returned v)
  | None =>
      r ← Executor.fazerRequisicaoAutenticada URL_CONSULTA_SERVICO "POST"
            (payloadParceiros searchName searchCode codVendedor codVendedoresEquipe) 0;
      match r with
      | Thrown erro => mret (Thrown erro)            (* catch (erro) { throw erro; } *)
      | Returned respostaCompleta =>
          match responseBody respostaCompleta with
          | Some {| entities := Some ents |} =>
              match entity ents with
              | None => mret (Returned (CvPagina (paginaVazia page pageSize)))
              | Some e =>
                  let listaParceirosLimpa := mapearParceiros (fieldNames ents) e in
                  let tot :=
                    match total ents with
                    | Some t => t
                    | None => Z.of_nat (length listaParceirosLimpa)
                    end in
                  let resultado :=
                    {| itens := listaParceirosLimpa; pg_total := tot; pg_page := page;
                       pg_pageSize := pageSize; pg_totalPages := ceilDiv tot pageSize |} in
                  _ ← perform (CacheSet cacheKey (CvPagina resultado) (10 * 60));
                  mret (Returned (CvPagina resultado))
              end
          | _ => mret (Returned (CvPagina (paginaVazia page pageSize)))
          end
      end
  end.

(** The payload of the two reference tables. *)
Definition payloadTipos (root campos ordem : string) : Payload :=
  {| rootEntity := root; offsetPage := Some "0"; limit := Some "100";
     disableRowsLimit := false; fieldset := campos;
     criteria := Some "ATIVO = 'S'"; orderBy := Some ordem |}.

(** The common shape of [consultarTiposOperacao] and
    [consultarTiposNegociacao]. *)
Definition consultarTipos (cacheKey : string) (payload : Payload)
    : Prog (Outcome CacheValue) :=
  _ ← perform GetCacheService;
  cached ← perform (CacheGet cacheKey);
  match cached with
  | Some v => mret (Returned v)
  | None =>
      r ← Executor.fazerRequisicaoAutenticada URL_CONSULTA_SERVICO "POST" payload 0;
      match r with
      | Thrown erro => mret (Thrown erro)            (* console.error; throw erro *)
      | Returned respostaCompleta =>
          match responseBody respostaCompleta with
          | None => mret (Thrown TYPE_ERROR)         (* responseBody.entities of undefined *)
          | Some {| entities := None |} => mret (Returned (CvLista []))
          | Some {| entities := Some ents |} =>
              match entity ents with
              | None => mret (Returned (CvLista []))
              | Some e =>
                  let tipos := mapearSimples (fieldNames ents) e in
                  _ ← perform (CacheSet cacheKey (CvLista tipos) (60 * 60));
                  mret (Returned (CvLista tipos))
              end
          end
      end
  end.

Definition consultarTiposOperacao : Prog (Outcome CacheValue) :=
  consultarTipos "tipos:operacao:all"
    (payloadTipos "TipoOperacao" "CODTIPOPER, DESCROPER, ATIVO" "DESCROPER ASC").


(** [{ codTipVenda: a, nunota: b }] *)
Definition tipVenda (a b : Scalar) : Registro :=
  <["codTipVenda" := a]> (<["nunota" := b]> ∅).

(** [cabecalho.NOME]: [undefined] when the property is not there. *)
Definition prop (r : Registro) (nome : string) : Scalar :=
  match r !! nome with
  | Some v => v
  | None => SUndefined
  end.

Definition payloadTipVenda (codTipOper : string) : Payload :=
  {| rootEntity := "CabecalhoNota"; offsetPage := Some "0"; limit := Some "1";
     disableRowsLimit := false; fieldset := "NUNOTA, CODTIPOPER, CODTIPVENDA";
     criteria := Some ("TIPMOV = 'Z' AND CODTIPOPER = " +:+ codTipOper);
     orderBy := Some "NUNOTA DESC" |}.

(** [consultarTipVendaPorModelo]: the order header of a model.  It has no
    cache, and its [catch] returns nulls. *)
Definition consultarTipVendaPorModelo (codTipOper : string)
    : Prog (Outcome CacheValue) :=
  r ← Executor.fazerRequisicaoAutenticada URL_CONSULTA_SERVICO "POST"
        (payloadTipVenda codTipOper) 0;
  match r with
  | Thrown _ => mret (Returned (CvRegistro (tipVenda SNull SNull)))
  | Returned respostaCompleta =>
      match responseBody respostaCompleta with
      | None => mret (Returned (CvRegistro (tipVenda SNull SNull)))   (* TypeError, caught *)
      | Some {| entities := None |} => mret (Returned (CvRegistro (tipVenda SNull SNull)))
      | Some {| entities := Some ents |} =>
          match entity ents with
          | None => mret (Returned (CvRegistro (tipVenda SNull SNull)))
          | Some (EntityMany []) =>
              mret (Returned (CvRegistro (tipVenda SNull SNull)))      (* TypeError, caught *)
          | Some (EntityMany (rawEntity :: _)) | Some (EntityOne rawEntity) =>
              let cabecalho := normalizar (fieldNames ents) rawEntity in
              mret (Returned (CvRegistro
                      (tipVenda (prop cabecalho "CODTIPVENDA") (prop cabecalho "NUNOTA"))))
          end
      end
  end.

(** *** [produtos-service.ts] *)

(** [fazerRequisicaoAutenticada] of [produtos-service.ts], the fetch under
    the two fetchers below.  It is a parameter: the claims about the
    fetchers depend on how it ends, not on how it works. *)
Variable requisicaoProdutos : string → string → Payload → Prog (Outcome Resposta).

(** Lines 273-316 of [consultarProdutos]. *)
Definition payloadProdutos (searchName searchCode : string) : Payload :=
  let filters0 :=
    if truthy (trim js searchCode)
    then ["CODPROD = '" +:+ trim js searchCode +:+ "'"]
    else [] in
  let filters1 :=
    if truthy (trim js searchName)
    then filters0 ++ ["UPPER(DESCRPROD) LIKE '%" +:+ toUpperCase js (trim js searchName) +:+ "%'"]
    else filters0 in
  let criteriaExpression :=
    match filters1 with
    | [] => "1=1"
    | _ => String.concat " AND " filters1
    end in
  {| rootEntity := "Produto"; offsetPage := None; limit := None;
     disableRowsLimit := true;
     fieldset := "CODPROD, DESCRPROD, ATIVO, LOCAL, MARCA, CARACTERISTICAS, UNIDADE, VLRCOMERC";
     criteria := if truthy criteriaExpression then Some criteriaExpression else None;
     orderBy := None |}.

Definition chaveProdutos (page pageSize : Z) (searchName searchCode : string) : string :=
  "produtos:list:" +:+ pretty page +:+ ":" +:+ pretty pageSize +:+ ":" +:+
  searchName +:+ ":" +:+ searchCode.

Definition requestKeyProdutos (payload : Payload) : string :=
  "produtos:" +:+ URL_CONSULTA_SERVICO +:+ ":" +:+ stringify js payload.

(** Lines 373-376: the list is cut only when it is longer than [pageSize]. *)
Definition limitar (pageSize : Z) (l : list Registro) : list Registro :=
  if pageSize <? Z.of_nat (length l) then sliceAte pageSize l else l.

(** [{ ...produto, ESTOQUE: '0', VLRCOMERC: produto.VLRCOMERC || '0' }] *)
Definition semEstoque (produto : Registro) : Registro :=
  <["VLRCOMERC" := SStr (ou (prop produto "VLRCOMERC") "0")]>
    (<["ESTOQUE" := SStr "0"]> produto).

(** Lines 371-392. *)
Definition montarPagina (page pageSize : Z) (ents : Entities) (e : EntityField) : Pagina :=
  let listaProdutosLimpa := limitar pageSize (mapearEntidades (fieldNames ents) e) in
  let produtosComEstoque := map semEstoque listaProdutosLimpa in
  {| itens := produtosComEstoque;
     pg_total :=
       match total ents with
       | Some t => t
       | None => Z.of_nat (length produtosComEstoque)
       end;
     pg_page := page;
     pg_pageSize := pageSize;
     pg_totalPages :=
       match total ents with
       | Some t => ceilDiv t pageSize
       | None => Some 1
       end |}.

(** [consultarProdutos] *)
Definition consultarProdutos (page pageSize : Z) (searchName searchCode : string)
    : Prog (Outcome CacheValue) :=
  let payload := payloadProdutos searchName searchCode in
  let cacheKey := chaveProdutos page pageSize searchName searchCode in
  cached ← perform (CacheGet cacheKey);
  match cached with
  | Some v => mret (Returned v)
  | None =>
      Dedup.dedupedRequest_seq (requestKeyProdutos payload)
        (r ← requisicaoProdutos URL_CONSULTA_SERVICO "POST" payload;
         match r with
         | Thrown erro =>
             _ ← perform (LogApiRequest true);
             _ ← perform (CacheSet cacheKey (CvPagina (paginaVazia page pageSize)) 60);
             mret (Thrown erro)
         | Returned respostaCompleta =>
             match responseBody respostaCompleta with
             | Some {| entities := Some ents |} =>
                 match entity ents with
                 | None =>
                     _ ← perform (CacheSet cacheKey (CvPagina (paginaVazia page pageSize))
                                    (60 * 60 * 1));
                     mret (Returned (CvPagina (paginaVazia page pageSize)))
                 | Some e =>
                     let resultado := montarPagina page pageSize ents e in
                     _ ← perform (CacheSet cacheKey (CvPagina resultado) (60 * 60 * 1));
                     mret (Returned (CvPagina resultado))
                 end
             | _ =>
                 _ ← perform (CacheSet cacheKey (CvPagina (paginaVazia page pageSize))
                                (60 * 60 * 1));
                 mret (Returned (CvPagina (paginaVazia page pageSize)))
             end
         end)
  end.

Definition chaveEstoque (codProd searchLocal : string) : string :=
  "estoque:produto:" +:+ codProd +:+ ":" +:+ searchLocal.

Definition payloadEstoque (codProd searchLocal : string) : Payload :=
  let filters0 := ["CODPROD = " +:+ codProd] in
  let filters1 :=
    if truthy (trim js searchLocal)
    then filters0 ++ ["CODLOCAL LIKE '%" +:+ trim js searchLocal +:+ "%'"]
    else filters0 in
  {| rootEntity := "Estoque"; offsetPage := Some "0"; limit := Some "100";
     disableRowsLimit := false;
     fieldset := "ESTOQUE, CODPROD, ATIVO, CONTROLE, CODLOCAL";
     criteria := Some (String.concat " AND " (filters1 ++ ["CONTROLE = 'E'"]));
     orderBy := None |}.

(** [consultarEstoqueProduto] *)
Definition consultarEstoqueProduto (codProd searchLocal : string)
    : Prog (Outcome CacheValue) :=
  let cacheKey := chaveEstoque codProd searchLocal in
  cached ← perform (CacheGet cacheKey);
  match cached with
  | Some v => mret (Returned v)
  | None =>
      r ← requisicaoProdutos URL_CONSULTA_SERVICO "POST" (payloadEstoque codProd searchLocal);
      match r with
      | Thrown erro =>
          _ ← perform (LogApiRequest true);
          _ ← perform (CacheSet cacheKey (CvEstoque estoqueVazio) 15);
          mret (Thrown erro)
      | Returned respostaCompleta =>
          _ ← perform (LogApiRequest false);
          match responseBody respostaCompleta with
          | Some {| entities := Some ents |} =>
              match entity ents with
              | None =>
                  _ ← perform (CacheSet cacheKey (CvEstoque estoqueVazio) 30);
                  mret (Returned (CvEstoque estoqueVazio))
              | Some e =>
                  let listaEstoquesLimpa := mapearEntidades (fieldNames ents) e in
                  let resultado :=
                    {| estoques := listaEstoquesLimpa;
                       est_total := length listaEstoquesLimpa;
                       estoqueParcelas :=
                         map (λ estoque, ou (prop estoque "ESTOQUE") "0") listaEstoquesLimpa |} in
                  _ ← perform (CacheSet cacheKey (CvEstoque resultado) 30);
                  mret (Returned (CvEstoque resultado))
              end
          | _ =>
              _ ← perform (CacheSet cacheKey (CvEstoque estoqueVazio) 30);
              mret (Returned (CvEstoque estoqueVazio))
          end
      end
  end.

End Fetchers.


End Fetchers.

(** ** Concrete states and downstreams *)

Module Exemplos.
Import Async.

(** A fresh process at instant 1000 with an empty store. *)
Definition mundo0 : Mundo :=
  {| relogio := 1000; cache := ∅; tokenPromise := None; promessas := ∅;
     proxima := 0%nat; pendingRequests := ∅; liquidadas := ∅;
     respondidas := ∅;
     logins := 0%nat; chamadas := 0%nat; rastro := [] |}.

(** The store still holds a credential that expired at instant 500 (the
    store would keep it until instant 1200000). *)
Definition credencial_velha : TokenCache :=
  {| token := "velho"; expiresAt := 500; geradoEm := 0 |}.

Definition mundo_vencido : Mundo :=
  {| relogio := 1000;
     cache := Cache.set ∅ 0 TokenManager.TOKEN_CACHE_KEY (CvToken credencial_velha) 1200;
     tokenPromise := None; promessas := ∅;
     proxima := 0%nat; pendingRequests := ∅; liquidadas := ∅;
     respondidas := ∅;
     logins := 0%nat; chamadas := 0%nat; rastro := [] |}.

(** The store holds a credential that is good until instant 2000000. *)
Definition credencial_boa : TokenCache :=
  {| token := "antigo"; expiresAt := 2000000; geradoEm := 800000 |}.

Definition mundo_com_token : Mundo :=
  {| relogio := 1000000;
     cache := Cache.set ∅ 800000 TokenManager.TOKEN_CACHE_KEY (CvToken credencial_boa) 1200;
     tokenPromise := None; promessas := ∅;
     proxima := 0%nat; pendingRequests := ∅; liquidadas := ∅;
     respondidas := ∅;
     logins := 0%nat; chamadas := 0%nat; rastro := [] |}.

(** An axios error with a response of the given status. *)
Definition erroHttp (st : Z) : Erro :=
  {| response := Some {| status := st; statusMessage := SUndefined; dataError := SUndefined |};
     code := None;
     message := "Request failed with status code " +:+ pretty st |}.

(** An axios error without a response. *)
Definition erroDeRede (c msg : string) : Erro :=
  {| response := None; code := Some c; message := msg |}.

(** The [n]-th login gives the token ["tok<n>"]. *)
Definition loginOk (n : nat) : Outcome LoginData :=
  Returned {| bearerToken := SStr ("tok" +:+ pretty n); ld_token := SUndefined |}.

Definition respostaVazia : AxiosResponse :=
  {| r_status := 200; r_data := {| responseBody := None |} |}.

(** Logins succeed; every data request is answered 200. *)
Definition amb_ok : Ambiente :=
  {| loginResposta := loginOk; httpResposta := λ _ _ _, Returned respostaVazia |}.

(** Logins succeed; every data request fails with [erro]. *)
Definition amb_falha (erro : Erro) : Ambiente :=
  {| loginResposta := loginOk; httpResposta := λ _ _ _, Thrown erro |}.

(** Every login fails with status [st]. *)
Definition amb_login_falha (st : Z) : Ambiente :=
  {| loginResposta := λ _, Thrown (erroHttp st);
     httpResposta := λ _ _ _, Returned respostaVazia |}.

(** Logins succeed; a data request is answered 401 when it carries the
    token ["antigo"], 200 otherwise. *)
Definition amb_sessao_expirada : Ambiente :=
  {| loginResposta := loginOk;
     httpResposta := λ _ tok _,
       if String.eqb tok "antigo" then Thrown (erroHttp 401) else Returned respostaVazia |}.

(** A request body. *)
Definition dados : Payload :=
  {| rootEntity := "Produto"; offsetPage := None; limit := None;
     disableRowsLimit := true; fieldset := "CODPROD"; criteria := Some "1=1";
     orderBy := None |}.

(** Stand-ins for the JavaScript built-ins. *)
Definition js0 : Fetchers.JsBuiltins :=
  {| Fetchers.trim := id; Fetchers.toUpperCase := id;
     Fetchers.stringify := λ _, "{}" |}.

(** A response with three product rows. *)
Definition linha (cod descr : string) : Normalizacao.RawEntity :=
  <["f0" := Normalizacao.SlotObj (SStr cod)]>
    (<["f1" := Normalizacao.SlotObj (SStr descr)]> ∅).

Definition tres_produtos : Resposta :=
  {| responseBody := Some {| entities := Some
       {| Normalizacao.fieldNames := ["CODPROD"; "DESCRPROD"];
          Normalizacao.entity :=
            Some (Normalizacao.EntityMany
                    [linha "10" "Widget"; linha "11" "Gadget"; linha "12" "Gizmo"]);
          Normalizacao.total := None |} |} |}.

(** The fetch of [produtos-service.ts] answering with the three rows, and
    failing with a 404. *)
Definition requisicao_tres : string → string → Payload → Prog (Outcome Resposta) :=
  λ _ _ _, mret (Returned tres_produtos).

Definition requisicao_falha : string → string → Payload → Prog (Outcome Resposta) :=
  λ _ _ _, mret (Thrown (Error "Request failed with status code 404")).

(** Two callers, resumed in turn. *)
Definition alternada : list nat :=
  [0; 1; 0; 1; 0; 1; 0; 1; 0; 1; 0; 1; 0; 1; 0; 1; 0; 1; 0; 1]%nat.

(** The state a run ends in. *)
Definition finalDe {A} (res : option (A * Mundo)) (m : Mundo) : Mundo :=
  match res with
  | Some (_, m') => m'
  | None => m
  end.


End Exemplos.

(** ** Token status ([sankhya-api.ts], lines 57-110) and what a call of
       the Token Manager leaves behind *)

Module TokenAtual.
Import Async TokenManager.

(** [TokenStatus].  The two dates are kept as the instants that
    [toISOString] renders. *)
Record TokenStatus := {
  ativo : bool;
  ts_token : option string;   (* [null] when the token is not active *)
  expiraEm : Z;
  ts_geradoEm : Z;
  tempoRestanteMs : Z;
  tempoRestanteMin : Z
}.

(** [new Date(t).toISOString()] throws a [RangeError] when [t] is not a
    time value. *)
Definition dataValida (t : Z) : bool :=
  (-8640000000000000 <=? t) && (t <=? 8640000000000000).

(** [obterTokenAtual].  The whole body sits in a [try] whose [catch]
    returns [null]: that is where a value without a usable [expiresAt]
    ends, at the first [toISOString]. *)
Definition obterTokenAtual : Prog (option TokenStatus) :=
  _ ← perform GetCacheService;
  tokenData ← perform (CacheGet "sankhya:token");
  match tokenData with
  | None => mret None
  | Some (CvToken td) =>
      if dataValida (expiresAt td) then
        agora ← perform DateNow;
        let tempoRestante := expiresAt td - agora in
        let ativo := 0 <? tempoRestante in
        mret (Some {| ativo := ativo;
                      ts_token := if ativo then Some (token td) else None;
                      expiraEm := expiresAt td;
                      ts_geradoEm := geradoEm td;
                      tempoRestanteMs := Z.max 0 tempoRestante;
                      tempoRestanteMin := Z.max 0 (tempoRestante / 60000) |})
      else mret None
  | Some _ => mret None
  end.

(** No renewal is running in the process; [l0] logins and [c0] data
    requests were made so far; [livre]: nobody holds the lock. *)
Definition emRepouso (l0 c0 : nat) (livre : Prop) (m : Mundo) : Prop :=
  tokenPromise m = None ∧ logins m = l0 ∧ chamadas m = c0
  ∧ (livre → cache m !! LOCK_KEY = None).

(** What is thrown is a plain [Error]: it has neither [response] nor
    [code]. *)
Definition erroSimples {A} (r : Outcome A) : Prop :=
  ∀ e, r = Thrown e → response e = None ∧ code e = None.

(** What a call started in [emRepouso l0 c0 livre] leaves behind when it
    may log in [n] times. *)
Definition assente (l0 c0 n : nat) (livre : Prop) (r : Outcome string) (m' : Mundo)
    : Prop :=
  tokenPromise m' = None
  ∧ (l0 ≤ logins m' ≤ l0 + n)%nat
  ∧ chamadas m' = c0
  ∧ erroSimples r
  ∧ (livre ∨ logins m' ≠ l0 → cache m' !! LOCK_KEY = None).


End TokenAtual.

(** ** The other fetchers of [sankhya-api.ts] (lines 821-892 and
       1157-1221) *)

Module Consultas.
Import Async Normalizacao Fetchers.

(** [Array.isArray(entities.entity) ? entities.entity[0] : entities.entity]:
    [undefined] for an empty array. *)
Definition primeiraLinha (e : EntityField) : option RawEntity :=
  match e with
  | EntityOne rawEntity => Some rawEntity
  | EntityMany rawEntities => head rawEntities
  end.

(** The demangling loop on that row.  On [undefined] the first turn reads
    a property of [undefined] and throws ([None]); with no field names
    there is no turn and the record stays empty. *)
Definition normalizarPrimeira (fieldNames : list string) (e : EntityField)
    : option Registro :=
  match primeiraLinha e with
  | Some rawEntity => Some (normalizar fieldNames rawEntity)
  | None =>
      match fieldNames with
      | [] => Some ∅
      | _ :: _ => None
      end
  end.

Definition chaveComplemento (codParc : string) : string :=
  "parceiros:complemento:" +:+ codParc.

Definition payloadComplemento (codParc : string) : Payload :=
  {| rootEntity := "ComplementoParc"; offsetPage := Some "0"; limit := Some "1";
     disableRowsLimit := false; fieldset := "CODPARC, SUGTIPNEGSAID";
     criteria := Some ("CODPARC = " +:+ codParc);
     orderBy := None |}.

(** [consultarComplementoParceiro]: the cached value, the record of the
    first row, or [null] ([None]).  Its [catch] returns [null]. *)
Definition consultarComplementoParceiro (codParc : string)
    : Prog (Outcome (option CacheValue)) :=
  let cacheKey := chaveComplemento codParc in
  _ ← perform GetCacheService;
  cached ← perform (CacheGet cacheKey);
  match cached with
  | Some v => mret (Returned (Some v))
  | None =>
      r ← Executor.fazerRequisicaoAutenticada URL_CONSULTA_SERVICO "POST"
            (payloadComplemento codParc) 0;
      match r with
      | Thrown _ => mret (Returned None)
      | Returned respostaCompleta =>
          match responseBody respostaCompleta with
          | None => mret (Returned None)               (* TypeError, caught *)
          | Some {| entities := None |} => mret (Returned None)
          | Some {| entities := Some ents |} =>
              match entity ents with
              | None => mret (Returned None)
              | Some e =>
                  match normalizarPrimeira (fieldNames ents) e with
                  | None => mret (Returned None)       (* TypeError, caught *)
                  | Some complemento =>
                      _ ← perform (CacheSet cacheKey (CvRegistro complemento) (10 * 60));
                      mret (Returned (Some (CvRegistro complemento)))
                  end
              end
          end
      end
  end.

(** [{ codTipOper: a, codTipVenda: b }] *)
Definition dadosModelo (a b : Scalar) : Registro :=
  <["codTipOper" := a]> (<["codTipVenda" := b]> ∅).

Definition payloadDadosModelo (nunota : string) : Payload :=
  {| rootEntity := "CabecalhoNota"; offsetPage := Some "0"; limit := Some "1";
     disableRowsLimit := false; fieldset := "NUNOTA, CODTIPOPER, CODTIPVENDA";
     criteria := Some ("NUNOTA = " +:+ nunota);
     orderBy := None |}.

(** [consultarDadosModeloNota]: no cache; its [catch] returns nulls. *)
Definition consultarDadosModeloNota (nunota : string) : Prog (Outcome CacheValue) :=
  r ← Executor.fazerRequisicaoAutenticada URL_CONSULTA_SERVICO "POST"
        (payloadDadosModelo nunota) 0;
  match r with
  | Thrown _ => mret (Returned (CvRegistro (dadosModelo SNull SNull)))
  | Returned respostaCompleta =>
      match responseBody respostaCompleta with
      | None => mret (Returned (CvRegistro (dadosModelo SNull SNull)))  (* TypeError, caught *)
      | Some {| entities := None |} =>
          mret (Returned (CvRegistro (dadosModelo SNull SNull)))
      | Some {| entities := Some ents |} =>
          match entity ents with
          | None => mret (Returned (CvRegistro (dadosModelo SNull SNull)))
          | Some e =>
              match normalizarPrimeira (fieldNames ents) e with
              | None =>
                  mret (Returned (CvRegistro (dadosModelo SNull SNull)))  (* TypeError, caught *)
              | Some cabecalho =>
                  mret (Returned (CvRegistro
                          (dadosModelo (prop cabecalho "CODTIPOPER")
                                       (prop cabecalho "CODTIPVENDA"))))
              end
          end
      end
  end.

(** The page [consultarParceiros] builds from a response with rows. *)
Definition paginaParceiros (page pageSize : Z) (ents : Entities) (e : EntityField)
    : Pagina :=
  let listaParceirosLimpa := mapearParceiros (fieldNames ents) e in
  let tot :=
    match total ents with
    | Some t => t
    | None => Z.of_nat (length listaParceirosLimpa)
    end in
  {| itens := listaParceirosLimpa; pg_total := tot; pg_page := page;
     pg_pageSize := pageSize; pg_totalPages := ceilDiv tot pageSize |}.

(** A response with rows, and one without. *)
Definition comLinhas (ents : Entities) (e : EntityField) (resp : Resposta) : Prop :=
  responseBody resp = Some {| entities := Some ents |} ∧ entity ents = Some e.

Definition semLinhas (resp : Resposta) : Prop :=
  match responseBody resp with
  | Some {| entities := Some ents |} => entity ents = None
  | Some {| entities := None |} => True
  | None => False
  end.

End Consultas.

(** ** Route handlers that call the fetchers
       ([tipos-negociacao/route.ts], lines 1-55;
        [produtos/search/route.ts], lines 68-167) *)

Module Rotas.
Import Async Normalizacao Fetchers Consultas.

(** The body handed to [NextResponse.json]. *)
Inductive Corpo :=
| CorpoValor (v : CacheValue)             (* the fetcher's result as it is *)
| CorpoTiposOperacao (v : CacheValue)     (* [{ tiposOperacao }] *)
| CorpoTiposNegociacao (v : CacheValue)   (* [{ tiposNegociacao }] *)
| CorpoErro (error : string).             (* [{ error }] *)

Record HttpResposta := {
  rs_status : Z;
  rs_body : Corpo
}.

(** [NextResponse.json(body)]: the status is 200. *)
Definition ok (body : Corpo) : HttpResposta := {| rs_status := 200; rs_body := body |}.

(** [NextResponse.json({ error: error.message || padrao }, { status: 500 })] *)
Definition falha (erro : Erro) (padrao : string) : HttpResposta :=
  {| rs_status := 500;
     rs_body := CorpoErro (if truthy (message erro) then message erro else padrao) |}.


(** *** [tipos-negociacao/route.ts] *)



(** *** The partner listing of [produtos/search/route.ts], lines 72-167 *)

(** The user of the cookie: [user.role], and [user.codVendedor] as
    [parseInt] reads it ([None]: absent, or not a number). *)
Record Usuario := {
  role : string;
  codVendedor : option Z
}.

(** How the request for the sellers of a manager ended. *)
Inductive Equipe :=
| EquipeOk (vendedores : list Z)   (* [ok], with the [CODVEND] of each seller *)
| EquipeNaoOk                      (* a response that is not [ok] *)
| EquipeFalhou.                    (* [fetch] or [json] threw *)

(** [user.codVendedor ? parseInt(user.codVendedor) : null], as a
    condition: neither absent nor 0. *)
Definition userCodVend (u : Usuario) : option Z :=
  match codVendedor u with
  | Some c => if c =? 0 then None else Some c
  | None => None
  end.

(** Lines 84-136: the two arguments [codVendedor] and
    [codVendedoresEquipe] handed to [consultarParceiros].  [usuario] is
    [None] when there is no cookie or it does not parse. *)
Definition filtrosDoUsuario (usuario : option Usuario) (equipe : Equipe)
    : option Z * option (list Z) :=
  match usuario with
  | None => (None, None)
  | Some u =>
      match userCodVend u with
      | None => (None, None)
      | Some c =>
          let codVendedor :=
            if String.eqb (role u) "Vendedor" then Some c else None in
          let codVendedoresEquipe :=
            if String.eqb (role u) "Gerente" then
              match equipe with
              | EquipeOk (v :: vs) => Some (v :: vs)
              | _ => Some []
              end
            else None in
          (codVendedor, codVendedoresEquipe)
      end
  end.

(** [GET]: [page] and [pageSize] as [parseInt] read them. *)
Definition GET_parceiros (js : JsBuiltins) (page pageSize : Z)
    (searchName searchCode : string) (usuario : option Usuario) (equipe : Equipe)
    : Prog HttpResposta :=
  let '(codVendedor, codVendedoresEquipe) := filtrosDoUsuario usuario equipe in
  r ← consultarParceiros js page pageSize searchName searchCode
        codVendedor codVendedoresEquipe;
  match r with
  | Returned parceiros => mret (ok (CorpoValor parceiros))
  | Thrown erro => mret (falha erro "Erro ao buscar parceiros")
  end.

End Rotas.

(** ** The token and the authenticated request of [produtos-service.ts]
       (lines 50-183) *)

Module Produtos.
Import Async Dedup Fetchers.

Definition MAX_RETRIES_LOGIN : Z := 3.
Definition MAX_RETRIES : Z := 2.
Definition RETRY_DELAY : Z := 1000.

(** The state this module keeps for its token: the module variable
    [globalCachedToken], and what the key ["sankhya_global_token"] of the
    store holds, the token with the time-to-live (in seconds) it was
    stored with.  It is passed from call to call. *)
Record Global := {
  globalCachedToken : option string;
  sankhya_global_token : option (string * Z)
}.

(** [globalCachedToken = null; await redisCacheService.delete("sankhya_global_token")] *)
Definition semToken : Global :=
  {| globalCachedToken := None; sankhya_global_token := None |}.

(** [globalCachedToken = token; await redisCacheService.set("sankhya_global_token", token, 18 * 60)] *)
Definition comToken (tok : string) : Global :=
  {| globalCachedToken := Some tok; sankhya_global_token := Some (tok, 18 * 60) |}.

(** [if (globalCachedToken)] *)
Definition emMemoria (g : Global) : option string :=
  match globalCachedToken g with
  | Some t => if truthy t then Some t else None
  | None => None
  end.

(** [getSankhyaToken(retryCount)].  The token of the login response, the
    error for a response without token and the two messages of the
    [catch] are the expressions of [obterToken]. *)
Definition corpoGetSankhyaToken
    (recurse : Z → Global → Prog (Outcome string * Global))
    (retryCount : Z) (g : Global) : Prog (Outcome string * Global) :=
  match emMemoria g with
  | Some t => mret (Returned t, g)
  | None =>
      resposta ← perform LoginPost;
      match TokenManager.tentativaDeLogin resposta with
      | Returned tok => mret (Returned tok, comToken tok)
      | Thrown erro =>
          if status_eq erro 500 && (retryCount <? MAX_RETRIES_LOGIN) then
            _ ← perform (SetTimeout (RETRY_DELAY * (retryCount + 1)));
            recurse (retryCount + 1) g
          else mret (Thrown (TokenManager.erroDeLogin erro), semToken)
      end
  end.

Fixpoint getSankhyaToken_rec (budget : nat) (retryCount : Z) (g : Global)
    : Prog (Outcome string * Global) :=
  corpoGetSankhyaToken
    (λ rc g',
       match budget with
       | O => Diverge
       | S budget' => getSankhyaToken_rec budget' rc g'
       end)
    retryCount g.

(** The recursion is entered only while [retryCount < MAX_RETRIES] and
    adds one each time. *)
Definition getSankhyaToken (retryCount : Z) (g : Global)
    : Prog (Outcome string * Global) :=
  getSankhyaToken_rec (Z.to_nat (MAX_RETRIES_LOGIN - retryCount)) retryCount g.

(** [initializeGlobalToken]: [lido] is what the store gave for the key. *)
Definition initializeGlobalToken (lido : option string) (g : Global) : Global :=
  match lido with
  | Some t =>
      if truthy t
      then {| globalCachedToken := Some t;
              sankhya_global_token := sankhya_global_token g |}
      else g
  | None => g
  end.

(** [`${method}:${fullUrl}:${JSON.stringify(data)}`] *)
Definition requestKey (js : JsBuiltins) (method fullUrl : string) (data : Payload)
    : string :=
  method +:+ ":" +:+ fullUrl +:+ ":" +:+ stringify js data.

(** [dedupedRequest] as one caller runs it, as [Dedup.dedupedRequest_seq],
    for a promise that carries the [data] of a response, and with the
    state of the module handed through. *)
Definition dedupedRequestG (key : string) (g : Global)
    (fetcher : Prog (Outcome Resposta * Global)) : Prog (Outcome Resposta * Global) :=
  pendente ← perform (PendingGet key);
  match pendente with
  | Some p =>
      r ← perform (AwaitResposta p);
      mret (r, g)
  | None =>
      p ← perform NewPromise;
      _ ← perform (PendingSet key p);
      rg ← fetcher;
      _ ← perform (PendingDelete key);
      _ ← perform (SettleResposta p rg.1);
      mret rg
  end.

(** The [catch] of lines 145-181; its three tests and its messages are
    those of the executor of [sankhya-api.ts]. *)
Definition aoFalhar (recurse : Z → Global → Prog (Outcome Resposta * Global))
    (retryCount : Z) (erro : Erro) (g : Global) : Prog (Outcome Resposta * Global) :=
  if Executor.naoAutorizado erro then
    if retryCount <? 1 then
      _ ← perform (SetTimeout 500);
      recurse (retryCount + 1) semToken
    else mret (Thrown (Error Executor.MSG_SESSAO_EXPIRADA), semToken)
  else if Executor.transitorio erro && (retryCount <? MAX_RETRIES) then
    _ ← perform (SetTimeout (RETRY_DELAY * (retryCount + 1)));
    recurse (retryCount + 1) g
  else mret (Thrown (Executor.erroFinal erro), g).

(** The async arrow function of lines 127-182. *)
Definition fetcherRequisicao (recurse : Z → Global → Prog (Outcome Resposta * Global))
    (fullUrl method : string) (data : Payload) (retryCount : Z) (g : Global)
    : Prog (Outcome Resposta * Global) :=
  tg ← getSankhyaToken 0 g;
  match tg with
  | (Thrown erro, g1) => aoFalhar recurse retryCount erro g1
  | (Returned tok, g1) =>
      r ← perform (AxiosRequest tok fullUrl method data);
      match r with
      | Returned resposta => mret (Returned (r_data resposta), g1)
      | Thrown erro => aoFalhar recurse retryCount erro g1
      end
  end.

Fixpoint fazerRequisicaoAutenticada_rec (budget : nat) (js : JsBuiltins)
    (fullUrl method : string) (data : Payload) (retryCount : Z) (g : Global)
    : Prog (Outcome Resposta * Global) :=
  dedupedRequestG (requestKey js method fullUrl data) g
    (fetcherRequisicao
       (λ rc g',
          match budget with
          | O => Diverge
          | S budget' => fazerRequisicaoAutenticada_rec budget' js fullUrl method data rc g'
          end)
       fullUrl method data retryCount g).

(** [fazerRequisicaoAutenticada(fullUrl, method, data, retryCount = 0)] of
    [produtos-service.ts]. *)
Definition fazerRequisicaoAutenticada (js : JsBuiltins) (fullUrl method : string)
    (data : Payload) (retryCount : Z) (g : Global) : Prog (Outcome Resposta * Global) :=
  fazerRequisicaoAutenticada_rec (Z.to_nat (MAX_RETRIES - retryCount))
    js fullUrl method data retryCount g.

(** The request as the two fetchers of this file call it. *)
Definition requisicao (js : JsBuiltins) (g : Global)
    : string → string → Payload → Prog (Outcome Resposta) :=
  λ fullUrl method data,
    rg ← fazerRequisicaoAutenticada js fullUrl method data 0 g;
    mret rg.1.

(** The call finds a token: the one in memory, or that of a login that
    succeeds. *)
Definition obtemToken (amb : Ambiente) (g : Global) (m : Mundo) (tok : string) : Prop :=
  emMemoria g = Some tok
  ∨ (emMemoria g = None
     ∧ TokenManager.tentativaDeLogin (loginResposta amb (logins m)) = Returned tok).

(** The state in which the data request is sent, for a call made in [m]
    with the module state [g]. *)
Definition aoPedido (key : string) (g : Global) (m : Mundo) : Mundo :=
  let m1 := registado key m in
  match emMemoria g with
  | Some _ => m1
  | None => registar EvLogin (com_contadores (S (logins m1)) (chamadas m1) m1)
  end.

(** The module state once the token is there. *)
Definition globalCom (g : Global) (tok : string) : Global :=
  match emMemoria g with
  | Some _ => g
  | None => comToken tok
  end.

(** Promises that are not created yet have not settled. *)
Definition semFuturo (m : Mundo) : Prop :=
  ∀ p, (proxima m ≤ p)%nat → respondidas m !! p = None.

(** Where the run of one caller stops: at its end, or at the operation
    that cannot complete. *)
Fixpoint ateParar {A} (amb : Ambiente) (p : Prog A) (m : Mundo) : Prog A * Mundo :=
  match p with
  | Vis op k =>
      match handle amb op m with
      | Some (r, m') => ateParar amb (k r) m'
      | None => (p, m)
      end
  | _ => (p, m)
  end.

(** The promise of a data request a caller waits for. *)
Definition aguarda {A} (p : Prog A) : option nat :=
  match p with
  | Vis op _ =>
      match op with
      | AwaitResposta p => Some p
      | _ => None
      end
  | _ => None
  end.

(** What is seen of a run that stops: the promise it waits for, if it
    waits for the promise of a data request, and the state it stopped
    in. *)
Definition bloqueio {A} (amb : Ambiente) (p : Prog A) (m : Mundo)
    : option nat * Mundo :=
  (aguarda (ateParar amb p m).1, (ateParar amb p m).2).

End Produtos.

(** ** More concrete states and downstreams *)

Module Casos.
Import Async Normalizacao Fetchers Exemplos.



(** The status of [credencial_boa] at instant 1000000. *)
Definition status_bom : TokenAtual.TokenStatus :=
  {| TokenAtual.ativo := true; TokenAtual.ts_token := Some "antigo";
     TokenAtual.expiraEm := 2000000; TokenAtual.ts_geradoEm := 800000;
     TokenAtual.tempoRestanteMs := 1000000; TokenAtual.tempoRestanteMin := 16 |}.

(** The three rows of [tres_produtos]. *)
Definition tres_linhas : EntityField :=
  EntityMany [linha "10" "Widget"; linha "11" "Gadget"; linha "12" "Gizmo"].

Definition tres_entidades : Entities :=
  {| fieldNames := ["CODPROD"; "DESCRPROD"]; entity := Some tres_linhas;
     total := None |}.

(** Logins succeed; every data request is answered with the three rows. *)
Definition amb_linhas : Ambiente :=
  {| loginResposta := loginOk;
     httpResposta := λ _ _ _, Returned {| r_status := 200; r_data := tres_produtos |} |}.

(** An answer without a body. *)
Definition sem_corpo : Resposta := {| responseBody := None |}.

Definition requisicao_sem_corpo : string → string → Payload → Prog (Outcome Resposta) :=
  λ _ _ _, mret (Returned sem_corpo).

(** A row whose metadata names the same field twice. *)
Definition nomes_repetidos : list string := ["NOME"; "NOME"].

Definition linha_repetida : RawEntity :=
  <["f0" := SlotObj (SStr "primeiro")]> (<["f1" := SlotObj (SStr "segundo")]> ∅).

(** A manager and a seller. *)
Definition gerente9 : Rotas.Usuario :=
  {| Rotas.role := "Gerente"; Rotas.codVendedor := Some 9 |}.

Definition vendedor7 : Rotas.Usuario :=
  {| Rotas.role := "Vendedor"; Rotas.codVendedor := Some 7 |}.

(** The state in which a run ends or stops. *)
Definition ondeParou {A} (p : Prog A) (amb : Ambiente) (m : Mundo) : Mundo :=
  (Produtos.bloqueio amb p m).2.

End Casos.

(** * Properties *)

(** ** Normalization *)

Section NormalizacaoProps.
Import Normalizacao.

Lemma passo_lookup_other (names : list string) (row : RawEntity)
    (acc : Registro) (j : nat) (name : string) :
  names !! j ≠ Some name →
  passo names row acc j !! name = acc !! name.
Proof.
  intros Hj. unfold passo.
  destruct (names !! j) as [n|] eqn:Hn; [|done].
  destruct (row !! fieldKey j) as [slot|]; [|done].
  destruct (slot_truthy slot); [|done].
  rewrite lookup_insert_ne; [done|]. intros ->. by apply Hj.
Qed.

Lemma passo_lookup_here (names : list string) (row : RawEntity)
    (acc : Registro) (i : nat) (name : string) :
  names !! i = Some name →
  passo names row acc i !! name =
    match valor_slot row i with
    | Some v => Some v
    | None => acc !! name
    end.
Proof.
  intros Hi. unfold passo, valor_slot. rewrite Hi.
  destruct (row !! fieldKey i) as [slot|]; [|done].
  destruct (slot_truthy slot); [|done].
  by rewrite lookup_insert_eq.
Qed.

(** The loop over any list of positions, when [name] sits at position [i]
    only. *)
Lemma foldl_passo_lookup (names : list string) (row : RawEntity)
    (i : nat) (name : string) (l : list nat) (acc : Registro) :
  names !! i = Some name →
  (∀ j, names !! j = Some name → j = i) →
  foldl (passo names row) acc l !! name =
    if bool_decide (i ∈ l)
    then match valor_slot row i with
         | Some v => Some v
         | None => acc !! name
         end
    else acc !! name.
Proof.
  intros Hi Huniq. induction l as [|j l IH] using rev_ind.
  - done.
  - rewrite foldl_app. cbn [foldl].
    destruct (decide (j = i)) as [->|Hne].
    + rewrite (passo_lookup_here _ _ _ _ _ Hi).
      rewrite bool_decide_eq_true_2
        by (apply elem_of_app; right; by apply list_elem_of_singleton).
      destruct (valor_slot row i); [done|].
      rewrite IH. by case_bool_decide.
    + rewrite passo_lookup_other by (intros Hj; by apply Hne, Huniq).
      rewrite IH.
      assert (i ∈ l ++ [j] ↔ i ∈ l) as Hmem.
      { rewrite elem_of_app, list_elem_of_singleton.
        split; [intros [?|?]; [done|congruence] | by left]. }
      by rewrite (bool_decide_ext _ _ Hmem).
Qed.

Lemma foldl_passo_absent (names : list string) (row : RawEntity)
    (name : string) (l : list nat) (acc : Registro) :
  name ∉ names →
  foldl (passo names row) acc l !! name = acc !! name.
Proof.
  intros Hnot. induction l as [|j l IH] using rev_ind; [done|].
  rewrite foldl_app. cbn [foldl].
  rewrite passo_lookup_other; [done|].
  intros Hj. apply Hnot. by eapply list_elem_of_lookup_2.
Qed.

Lemma comId_lookup_other (pk : string) (index : nat) (r : Registro) (name : string) :
  name ≠ "_id" → comId pk index r !! name = r !! name.
Proof. intros Hne. unfold comId. by rewrite lookup_insert_ne. Qed.

(** C7. The demangling loop pairs the name at position [i] with the [$] of
    slot [f<i>] and leaves out a name whose slot is absent (or falsy);
    names that are not in the list get nothing; [mapearEntidades] and
    [mapearParceiros] only add [_id]; on the field list
    [CODPROD, DESCRPROD] and the row [{f0:{$:"10"}, f1:{$:"Widget"}}] the
    record maps CODPROD to "10" and DESCRPROD to "Widget". *)
Theorem normalizacao_zip (fieldNames : list string) (rawEntity : RawEntity)
    (i : nat) (name : string) :
  fieldNames !! i = Some name →
  (∀ j, fieldNames !! j = Some name → j = i) →
  normalizar fieldNames rawEntity !! name = valor_slot rawEntity i
  ∧ (rawEntity !! fieldKey i = None → normalizar fieldNames rawEntity !! name = None)
  ∧ (∀ outro, outro ∉ fieldNames → normalizar fieldNames rawEntity !! outro = None)
  ∧ (name ≠ "_id" → ∀ pk index,
       comId pk index (normalizar fieldNames rawEntity) !! name = valor_slot rawEntity i)
  ∧ mapearEntidades ["CODPROD"; "DESCRPROD"] (EntityOne linha_exemplo)
    = [ <["CODPROD" := SStr "10"]> (<["DESCRPROD" := SStr "Widget"]> {["_id" := SStr "10"]}) ]
  ∧ mapearParceiros ["CODPROD"; "DESCRPROD"] (EntityOne linha_exemplo)
    = [ <["CODPROD" := SStr "10"]> (<["DESCRPROD" := SStr "Widget"]> {["_id" := SStr "0"]}) ].
Proof.
  intros Hi Huniq.
  assert (normalizar fieldNames rawEntity !! name = valor_slot rawEntity i) as Hmain.
  { unfold normalizar.
    rewrite (foldl_passo_lookup _ _ i name _ _ Hi Huniq).
    rewrite bool_decide_eq_true_2.
    - rewrite lookup_empty. by destruct (valor_slot rawEntity i).
    - apply elem_of_seq. apply lookup_lt_Some in Hi. lia. }
  split; [exact Hmain|].
  split. { intros Habs. rewrite Hmain. unfold valor_slot. by rewrite Habs. }
  split. { intros outro Hout. unfold normalizar.
           by rewrite foldl_passo_absent, lookup_empty. }
  split. { intros Hne pk index. by rewrite comId_lookup_other. }
  split; by vm_compute.
Qed.

Lemma normalizacao_zip_witness :
  normalizar ["CODPROD"; "DESCRPROD"] linha_exemplo !! "DESCRPROD"
    = valor_slot linha_exemplo 1
  ∧ valor_slot linha_exemplo 1 = Some (SStr "Widget").
Proof.
  split; [|reflexivity].
  apply (normalizacao_zip ["CODPROD"; "DESCRPROD"] linha_exemplo 1 "DESCRPROD").
  - reflexivity.
  - intros [|[|j]]; simpl; intros H; [discriminate H|reflexivity|].
    destruct j; discriminate H.
Defined.

End NormalizacaoProps.

(** ** Request Deduplicator *)

Section DedupProps.
Import Dedup.

Lemma chaveDe_elem_of (p : nat) (key : string) (l : list (nat * string)) :
  chaveDe p l = Some key → (p, key) ∈ l.
Proof.
  induction l as [|[q k] l IH]; cbn; [done|].
  case_decide as Hq.
  - intros [= ->]. subst q. apply elem_of_cons. by left.
  - intros H. apply elem_of_cons. right. by apply IH.
Qed.

Lemma chaveDe_of_elem (p : nat) (key : string) (l : list (nat * string)) :
  NoDup l.*1 → (p, key) ∈ l → chaveDe p l = Some key.
Proof.
  induction l as [|[q k] l IH]; cbn.
  - intros _ H. by apply elem_of_nil in H.
  - intros Hnd H. apply NoDup_cons in Hnd as [Hq Hnd].
    apply elem_of_cons in H as [[= -> ->]|H].
    + by rewrite decide_True.
    + rewrite decide_False; [by apply IH|].
      intros ->. apply Hq. apply list_elem_of_fmap. by exists (p, key).
Qed.

Lemma filter_key_length (key : string) (l : list (nat * string)) :
  NoDup l.*2 → (length (filter (λ e, e.2 = key) l) ≤ 1)%nat.
Proof.
  induction l as [|[q k] l IH]; [cbn; lia|].
  rewrite fmap_cons. intros Hnd. apply NoDup_cons in Hnd as [Hk Hnd].
  rewrite filter_cons. cbn [snd]. case_decide as Hkey; [|by apply IH].
  subst k. cbn.
  assert (filter (λ e : nat * string, e.2 = key) l = []) as ->; [|cbn; lia].
  apply elem_of_nil_inv. intros e He.
  apply list_elem_of_filter in He as [He1 He2].
  apply Hk. apply list_elem_of_fmap. by exists e.
Qed.

Lemma Inv_inicial : Inv inicial.
Proof.
  split; cbn.
  - intros key p. rewrite lookup_empty, elem_of_nil. by split.
  - apply NoDup_nil_2.
  - apply NoDup_nil_2.
  - intros p key H. by apply elem_of_nil in H.
Qed.

Lemma Inv_dedupedRequest (key : string) (s : Estado) :
  Inv s → Inv (dedupedRequest key s).2.
Proof.
  intros [Hp Hk Hh Hf]. unfold dedupedRequest.
  destruct (pending s !! key) as [p|] eqn:Hkey; [by split|].
  split; cbn.
  - intros key' p'. rewrite elem_of_cons.
    destruct (decide (key' = key)) as [->|Hne].
    + rewrite lookup_insert_eq. split.
      * intros [= <-]. by left.
      * intros [[= -> ]|Hin]; [done|].
        apply Hp in Hin. congruence.
    + rewrite lookup_insert_ne by done. rewrite Hp. split; [by right|].
      intros [[= _ ?]|Hin]; [done|done].
  - apply NoDup_cons. split; [|done].
    intros Hin. apply list_elem_of_fmap in Hin as [[q k] [Hqk Hin]].
    cbn in Hqk. subst k. apply Hp in Hin. congruence.
  - apply NoDup_cons. split; [|done].
    intros Hin. apply list_elem_of_fmap in Hin as [[q k] [Hqk Hin]].
    cbn in Hqk. subst q. apply Hf in Hin. lia.
  - intros p' key'. rewrite elem_of_cons. intros [[= -> _]|Hin]; [lia|].
    apply Hf in Hin. lia.
Qed.

Lemma NoDup_fmap_filter {A B} (f : A → B) (P : A → Prop)
    `{!∀ x, Decision (P x)} (l : list A) :
  NoDup (f <$> l) → NoDup (f <$> filter P l).
Proof.
  induction l as [|x l IH]; [done|].
  rewrite fmap_cons. intros Hnd. apply NoDup_cons in Hnd as [Hx Hnd].
  rewrite filter_cons. case_decide; [|by apply IH].
  rewrite fmap_cons. apply NoDup_cons. split; [|by apply IH].
  intros Hin. apply Hx.
  apply list_elem_of_fmap in Hin as [y [Hy Hin]].
  apply list_elem_of_filter in Hin as [_ Hin].
  apply list_elem_of_fmap. by exists y.
Qed.

Lemma NoDup_fst_inj (l : list (nat * string)) (p : nat) (k1 k2 : string) :
  NoDup l.*1 → (p, k1) ∈ l → (p, k2) ∈ l → k1 = k2.
Proof.
  intros Hnd H1 H2.
  apply (chaveDe_of_elem _ _ _ Hnd) in H1.
  apply (chaveDe_of_elem _ _ _ Hnd) in H2. congruence.
Qed.

Lemma NoDup_snd_inj (l : list (nat * string)) (p1 p2 : nat) (k : string) :
  NoDup l.*2 → (p1, k) ∈ l → (p2, k) ∈ l → p1 = p2.
Proof.
  induction l as [|[q k'] l IH]; cbn.
  - intros _ H. by apply elem_of_nil in H.
  - intros Hnd H1 H2. apply NoDup_cons in Hnd as [Hk Hnd].
    apply elem_of_cons in H1 as [E1|H1];
      apply elem_of_cons in H2 as [E2|H2]; simplify_eq; try done.
    + exfalso. apply Hk. apply list_elem_of_fmap. by exists (p2, k').
    + exfalso. apply Hk. apply list_elem_of_fmap. by exists (p1, k').
    + by apply IH.
Qed.

Lemma Inv_assentar (p : nat) (ok : bool) (s : Estado) :
  Inv s → Inv (assentar p ok s).
Proof.
  intros [Hp Hk Hh Hf]. unfold assentar.
  destruct (chaveDe p (emCurso s)) as [key|] eqn:Hkey; [|by split].
  apply chaveDe_elem_of in Hkey.
  split; cbn.
  - intros key' q. rewrite list_elem_of_filter. cbn.
    destruct (decide (key' = key)) as [->|Hne].
    + rewrite lookup_delete_eq. split; [done|].
      intros [Hq Hin]. exfalso. apply Hq.
      by apply (NoDup_snd_inj (emCurso s) q p key).
    + rewrite lookup_delete_ne by done. rewrite Hp. split.
      * intros Hin. split; [|done]. intros ->.
        apply Hne. by apply (NoDup_fst_inj (emCurso s) p key' key).
      * by intros [_ Hin].
  - by apply NoDup_fmap_filter.
  - by apply NoDup_fmap_filter.
  - intros q key'. rewrite list_elem_of_filter. intros [_ Hin]. by eapply Hf.
Qed.

Lemma Inv_passo (s : Estado) (a : Acao) : Inv s → Inv (passo s a).
Proof.
  destruct a; cbn; [apply Inv_dedupedRequest | apply Inv_assentar].
Qed.

Lemma Inv_execucao (acoes : list Acao) : Inv (execucao acoes).
Proof.
  unfold execucao. induction acoes as [|a acoes IH] using rev_ind.
  - apply Inv_inicial.
  - rewrite foldl_app. cbn. by apply Inv_passo.
Qed.

(** C6. In every state the process can reach: a call that finds an entry
    for the key gets the pending promise and starts nothing; a call that
    finds none starts the operation once and registers its promise; the
    entry is there exactly while the operation is in flight; when the
    operation settles, fulfilled or rejected, the entry goes, and nothing
    else that happens removes it; and at most one operation per key is in
    flight. *)
Theorem dedupedRequest_single_flight (acoes : list Acao) (key : string) :
  let s := execucao acoes in
  (∀ p, pending s !! key = Some p → dedupedRequest key s = (p, s))
  ∧ (pending s !! key = None →
       pending (dedupedRequest key s).2 !! key = Some (dedupedRequest key s).1
       ∧ invocacoes (dedupedRequest key s).2 = invocacoes s ++ [key]
       ∧ emCursoDe key (dedupedRequest key s).2 = [((dedupedRequest key s).1, key)])
  ∧ (∀ p, pending s !! key = Some p ↔ (p, key) ∈ emCurso s)
  ∧ (∀ p ok, pending s !! key = Some p →
       pending (assentar p ok s) !! key = None
       ∧ emCursoDe key (assentar p ok s) = []
       ∧ assentadas (assentar p ok s) !! p = Some ok)
  ∧ (∀ p a, pending s !! key = Some p → (∀ ok, a ≠ Assentar p ok) →
       pending (passo s a) !! key = Some p)
  ∧ (length (emCursoDe key s) ≤ 1)%nat.
Proof.
  intros s. pose proof (Inv_execucao acoes) as HI. fold s in HI.
  destruct HI as [Hp Hk Hh Hf].
  split; [|split; [|split; [|split; [|split]]]].
  - intros p Hpk. unfold dedupedRequest. by rewrite Hpk.
  - intros Hnone. unfold dedupedRequest, emCursoDe. rewrite Hnone.
    cbn [fst snd pending invocacoes emCurso].
    rewrite lookup_insert_eq. split; [done|]. split; [done|].
    rewrite filter_cons. cbn [snd]. rewrite decide_True by done. f_equal.
    apply elem_of_nil_inv. intros [q k] He.
    apply list_elem_of_filter in He as [He1 He2]. cbn in He1. subst k.
    apply Hp in He2. congruence.
  - intros p. apply Hp.
  - intros p ok Hpk. apply Hp in Hpk.
    unfold assentar, emCursoDe.
    rewrite (chaveDe_of_elem p key (emCurso s) Hh Hpk).
    cbn [pending emCurso assentadas].
    rewrite lookup_delete_eq, lookup_insert_eq. split; [done|]. split; [|done].
    apply elem_of_nil_inv. intros [q k] He.
    apply list_elem_of_filter in He as [He1 He2]. cbn in He1. subst k.
    apply list_elem_of_filter in He2 as [He2 He3]. cbn in He2.
    apply He2. by apply (NoDup_snd_inj (emCurso s) q p key).
  - intros p [key'|p' ok] Hpk Hdif; cbn [passo].
    + unfold dedupedRequest.
      destruct (pending s !! key') as [q|] eqn:Hkey'; [done|]. cbn [snd pending].
      rewrite lookup_insert_ne; [done|]. intros ->. congruence.
    + unfold assentar.
      destruct (chaveDe p' (emCurso s)) as [key'|] eqn:Hkey'; [|done].
      cbn [pending]. apply chaveDe_elem_of in Hkey'.
      rewrite lookup_delete_ne; [done|]. intros ->.
      apply (Hdif ok). f_equal. apply Hp in Hpk.
      by apply (NoDup_snd_inj (emCurso s) p' p key).
  - unfold emCursoDe. by apply filter_key_length.
Qed.

End DedupProps.

(** ** Running asynchronous code *)

Section Exec.
Import Async.
Context (amb : Ambiente).

Lemma run_bind {A B} (p : Prog A) (f : A → Prog B) (m : Mundo) :
  run amb (p ≫= f) m =
    match run amb p m with
    | Some (a, m') => run amb (f a) m'
    | None => None
    end.
Proof.
  unfold mbind, Prog_bind. revert m.
  induction p as [a|R op k IH|]; intros m; cbn; [done| |done].
  destruct (handle amb op m) as [[r m']|]; [apply IH|done].
Qed.

Lemma run_ret {A} (a : A) (m : Mundo) : run amb (mret a) m = Some (a, m).
Proof. done. Qed.

Lemma run_perform {R} (op : Op R) (m : Mundo) :
  run amb (perform op) m = handle amb op m.
Proof. cbn. by destruct (handle amb op m) as [[r m']|]. Qed.

Lemma hoare_ret {A} (P : Mundo → Prop) (a : A) (Q : A → Mundo → Prop) :
  (∀ m, P m → Q a m) → hoare amb P (mret a) Q.
Proof. intros H m a' m' HP [= <- <-]. by apply H. Qed.

Lemma hoare_bind {A B} (P : Mundo → Prop) (p : Prog A) (f : A → Prog B)
    (R : A → Mundo → Prop) (Q : B → Mundo → Prop) :
  hoare amb P p R → (∀ a, hoare amb (R a) (f a) Q) → hoare amb P (p ≫= f) Q.
Proof.
  intros Hp Hf m b m' HP. rewrite run_bind.
  destruct (run amb p m) as [[a m1]|] eqn:Hrun; [|done].
  intros Hrun'. eapply Hf; [|exact Hrun']. by eapply Hp.
Qed.

Lemma hoare_perform {R} (P : Mundo → Prop) (op : Op R) (Q : R → Mundo → Prop) :
  (∀ m r m', P m → handle amb op m = Some (r, m') → Q r m') →
  hoare amb P (perform op) Q.
Proof. intros H m r m' HP. rewrite run_perform. by apply H. Qed.

Lemma hoare_weaken {A} (P P' : Mundo → Prop) (p : Prog A) (Q Q' : A → Mundo → Prop) :
  hoare amb P' p Q' → (∀ m, P m → P' m) → (∀ a m, Q' a m → Q a m) → hoare amb P p Q.
Proof. intros H HP HQ m a m' Hm Hrun. apply HQ. eapply H; [by apply HP|done]. Qed.

Lemma run_bind_assoc {A B C} (p : Prog A) (f : A → Prog B) (g : B → Prog C)
    (m : Mundo) :
  run amb (p ≫= (λ a, f a ≫= g)) m = run amb ((p ≫= f) ≫= g) m.
Proof.
  rewrite !run_bind. destruct (run amb p m) as [[a m1]|]; [|done].
  by rewrite run_bind.
Qed.

Lemma hoare_bind_assoc {A B C} (P : Mundo → Prop) (p : Prog A) (f : A → Prog B)
    (g : B → Prog C) (R : B → Mundo → Prop) (Q : C → Mundo → Prop) :
  hoare amb P (p ≫= f) R → (∀ b, hoare amb (R b) (g b) Q) →
  hoare amb P (p ≫= (λ a, f a ≫= g)) Q.
Proof.
  intros Hp Hg m c m' HP. rewrite run_bind_assoc.
  revert m c m' HP. by apply (hoare_bind P (p ≫= f) g R Q).
Qed.

Lemma hoare_diverge {A} (P : Mundo → Prop) (Q : A → Mundo → Prop) :
  hoare amb P Diverge Q.
Proof. by intros m a m' _ H. Qed.

End Exec.

(** Tactics for running code step by step in a symbolic state. *)

Ltac mundo_simpl :=
  cbn [Async.cache Async.relogio Async.tokenPromise Async.promessas Async.proxima
       Async.pendingRequests Async.liquidadas Async.respondidas
       Async.logins Async.chamadas Async.rastro
       Async.com_cache Async.com_relogio Async.com_tokenPromise Async.com_promessas
       Async.com_pending Async.com_liquidadas Async.com_respondidas
       Async.com_contadores Async.registar].

Ltac passo := rewrite run_bind, run_perform; cbn [Async.handle]; mundo_simpl.

Ltac mundo_igual :=
  unfold Async.com_cache, Async.com_relogio, Async.com_tokenPromise,
    Async.com_promessas, Async.com_pending, Async.com_liquidadas,
    Async.com_respondidas, Async.com_contadores, Async.registar;
  mundo_simpl; f_equal; rewrite <- ?app_assoc; try done.

Ltac rastro_simpl :=
  unfold Async.tokensUsados, Async.temporizadores; rewrite ?omap_app;
  cbn [omap list_omap app]; rewrite <- ?app_assoc; cbn [app]; try done.

(** ** Token Manager *)

Section TokenProps.
Import Async TokenManager.
Context (amb : Ambiente).

#[local] Arguments Cache.get : simpl never.
#[local] Arguments Cache.set : simpl never.
#[local] Arguments Cache.delete : simpl never.
#[local] Opaque Z.mul Z.add Z.sub Z.max Z.ltb Z.leb Z.eqb.

Lemma handle_estagnado {R} (op : Op R) (l0 : nat) (m : Mundo) (r : R) (m' : Mundo) :
  inofensiva op = true → estagnado l0 m → handle amb op m = Some (r, m') →
  estagnado l0 m'.
Proof.
  intros Hop [Hv Hl] Hh. unfold estagnado, vencido in *.
  destruct op; cbn in Hh; simplify_eq; cbn; try (split; [exact Hv|lia]).
  - (* CacheSet *)
    cbn in Hop. apply negb_true_iff, String.eqb_neq in Hop.
    split; [|done]. intros e td. unfold Cache.set.
    rewrite lookup_insert_ne by done. apply Hv.
  - (* CacheDelete *)
    split; [|done]. intros e td. unfold Cache.delete.
    intros He. apply lookup_delete_Some in He as [_ He]. by apply Hv.
  - (* SetTimeout *)
    split; [|done]. intros e td He Htd. specialize (Hv e td He Htd). lia.
  - (* AwaitPromise *)
    destruct (promessas m !! p); simplify_eq. by split.
  - (* AwaitPending *)
    destruct (liquidadas m !! p); simplify_eq. by split.
  - (* AwaitResposta *)
    destruct (respondidas m !! p); simplify_eq. by split.
Qed.

Lemma hoare_inofensiva {R} (op : Op R) (l0 : nat) :
  inofensiva op = true →
  hoare amb (estagnado l0) (perform op) (λ _, estagnado l0).
Proof.
  intros Hop. apply hoare_perform. intros m r m' Hm Hh.
  by eapply handle_estagnado.
Qed.

(** Reading the credential and checking it never yields a token while the
    stored credential is past its [expiresAt]. *)
Lemma run_leitura_vencida (m : Mundo) :
  vencido m →
  run amb (perform (CacheGet TOKEN_CACHE_KEY) ≫= tokenVigente) m = Some (None, m).
Proof.
  intros Hm. rewrite run_bind, run_perform. cbn.
  unfold Cache.get.
  destruct (cache m !! TOKEN_CACHE_KEY) as [e|] eqn:He; [|done].
  destruct (relogio m <? Cache.expira e); [|done].
  unfold tokenVigente.
  destruct (Cache.valor e) as [td| | | | |] eqn:Hval; try done.
  destruct (truthy (token td)); [|done].
  cbn. pose proof (Hm e td He Hval) as Hexp.
  by replace (0 <? expiresAt td - relogio m) with false
    by (symmetry; apply Z.ltb_ge; lia).
Qed.

Lemma hoare_leitura_vencida (l0 : nat) :
  hoare amb (estagnado l0)
    (perform (CacheGet TOKEN_CACHE_KEY) ≫= tokenVigente)
    (λ v m', v = None ∧ estagnado l0 m').
Proof.
  intros m v m' Hm. rewrite run_leitura_vencida by apply Hm.
  by intros [= <- <-].
Qed.

Lemma hoare_esperarLock_vencido (l0 : nat) (budget : nat) (lockStart : Z) :
  hoare amb (estagnado l0) (esperarLock budget lockStart)
    (λ f m', (∀ tok, f ≠ TokenDeOutro tok) ∧ estagnado l0 m').
Proof.
  induction budget as [|budget IH]; cbn [esperarLock].
  - eapply hoare_bind; [by apply hoare_inofensiva|]. intros agora. cbn beta.
    destruct (agora - lockStart <? MAX_LOCK_WAIT); [apply hoare_diverge|].
    by apply hoare_ret.
  - eapply hoare_bind; [by apply hoare_inofensiva|]. intros agora. cbn beta.
    destruct (agora - lockStart <? MAX_LOCK_WAIT); [|by apply hoare_ret].
    eapply hoare_bind; [by apply hoare_inofensiva|]. intros carimbo. cbn beta.
    eapply hoare_bind; [by apply hoare_inofensiva|]. intros [v|]; cbn beta iota.
    + eapply hoare_bind; [by apply hoare_inofensiva|]. intros []. cbn beta.
      eapply hoare_bind_assoc; [apply hoare_leitura_vencida|].
      intros vigente. cbn beta.
      apply (hoare_weaken amb _ (λ m, vigente = None ∧ estagnado l0 m) _ _
               (λ f m', (∀ tok, f ≠ TokenDeOutro tok) ∧ estagnado l0 m'));
        [|done|done].
      intros m f m' [-> Hm]. by apply IH.
    + eapply hoare_bind; [by apply hoare_inofensiva|]. intros [].
      by apply hoare_ret.
Qed.

Lemma vencido_apos_espera (m : Mundo) (ms : Z) (c : gmap string Cache.Entry) :
  vencido m →
  (∀ e, c !! TOKEN_CACHE_KEY = Some e → cache m !! TOKEN_CACHE_KEY = Some e) →
  ∀ e td, c !! TOKEN_CACHE_KEY = Some e → Cache.valor e = CvToken td →
    expiresAt td ≤ relogio m + Z.max 0 ms.
Proof.
  intros Hv Hc e td He Htd. specialize (Hv e td (Hc e He) Htd). lia.
Qed.

Lemma hoare_gerarToken (l0 : nat) (recurse : bool → Z → Prog (Outcome string))
    (fr : bool) (rc : Z) :
  (∀ fr' rc', hoare amb (λ m, estagnado l0 m ∧ tokenPromise m = None)
                (recurse fr' rc') (renovado amb l0)) →
  hoare amb (estagnado l0) (gerarToken recurse fr rc) (renovado amb l0).
Proof.
  intros Hrec m r m' [Hv Hl]. unfold gerarToken.
  rewrite run_bind, run_perform. cbn [handle].
  destruct (tentativaDeLogin (loginResposta amb (logins m))) as [tok|erro] eqn:Hlogin.
  - cbn. intros [= <- <-] tok' [= <-].
    unfold tentativaDeLogin in Hlogin.
    destruct (loginResposta amb (logins m)) as [data|] eqn:Hdata; [|done].
    destruct (tokenDaResposta data) as [| |tok'] eqn:Htok; try done.
    destruct (truthy tok'); [|done]. simplify_eq.
    exists (logins m), data. cbn.
    split; [split; [exact Hl|apply Nat.lt_succ_diag_r]|by split].
  - cbn.
    destruct (status_eq erro 500 && (rc <? MAX_RETRIES)).
    + cbn. apply Hrec. split; [split|]; cbn; [|lia|done].
      unfold vencido. cbn. intros e td He. unfold Cache.delete in He.
      rewrite !lookup_delete_ne in He by done.
      intros Htd. specialize (Hv e td He Htd). lia.
    + cbn. by intros [= <- <-].
Qed.

Lemma renovado_mesmos_logins (l0 : nat) (r : Outcome string) (m m' : Mundo) :
  logins m' = logins m → renovado amb l0 r m → renovado amb l0 r m'.
Proof.
  intros Hl Hr tok Htok. destruct (Hr tok Htok) as (n & data & Hn & Hd).
  exists n, data. by rewrite Hl.
Qed.

(** Lines 231-329, from the creation of the promise on. *)
Lemma hoare_nova_promessa (l0 : nat) (recurse : bool → Z → Prog (Outcome string))
    (fr : bool) (rc : Z) :
  (∀ fr' rc', hoare amb (λ m, estagnado l0 m ∧ tokenPromise m = None)
                (recurse fr' rc') (renovado amb l0)) →
  hoare amb (estagnado l0)
    (p ← perform NewPromise;
     _ ← perform (SetTokenPromise (Some p));
     r ← gerarToken recurse fr rc;
     _ ← perform (SettlePromise p r);
     mret r)
    (renovado amb l0).
Proof.
  intros Hrec.
  eapply hoare_bind; [by apply hoare_inofensiva|]. intros p. cbn beta.
  eapply hoare_bind; [by apply hoare_inofensiva|]. intros []. cbn beta.
  eapply hoare_bind; [by apply hoare_gerarToken|]. intros r. cbn beta.
  apply (hoare_bind amb _ _ _ (λ _ m, renovado amb l0 r m));
    [|intros []; apply hoare_ret; intros m Hm; exact Hm].
  apply hoare_perform. intros m [] m' Hr Hh. cbn in Hh. simplify_eq.
  by eapply renovado_mesmos_logins.
Qed.

Lemma hoare_renovar (l0 : nat) (recurse : bool → Z → Prog (Outcome string))
    (fr : bool) (rc : Z) :
  (∀ fr' rc', hoare amb (λ m, estagnado l0 m ∧ tokenPromise m = None)
                (recurse fr' rc') (renovado amb l0)) →
  hoare amb (λ m, estagnado l0 m ∧ tokenPromise m = None)
    (renovar recurse fr rc) (renovado amb l0).
Proof.
  intros Hrec m r m' [Hm Htp]. unfold renovar.
  rewrite run_bind, run_perform. cbn [handle]. rewrite Htp.
  rewrite run_bind, run_perform. cbn [handle].
  rewrite run_bind.
  destruct (run amb (esperarLock LOCK_TURNS (relogio m)) m) as [[f m1]|] eqn:Hloop;
    [|done].
  apply (hoare_esperarLock_vencido l0) in Hloop as [Hf Hm1]; [|done].
  destruct f as [| |tok]; [| |by destruct (Hf tok)].
  - (* the lock was acquired *)
    rewrite run_bind. destruct fr.
    + rewrite run_ret. by apply hoare_nova_promessa.
    + rewrite run_leitura_vencida by apply Hm1. by apply hoare_nova_promessa.
  - (* the wait ceiling was reached *)
    rewrite run_bind_assoc, run_bind, run_leitura_vencida by apply Hm1.
    rewrite run_ret. by intros [= <- <-].
Qed.

Lemma hoare_corpoObterToken (l0 : nat) (recurse : bool → Z → Prog (Outcome string))
    (fr : bool) (rc : Z) :
  (∀ fr' rc', hoare amb (λ m, estagnado l0 m ∧ tokenPromise m = None)
                (recurse fr' rc') (renovado amb l0)) →
  hoare amb (λ m, estagnado l0 m ∧ tokenPromise m = None)
    (corpoObterToken recurse fr rc) (renovado amb l0).
Proof.
  intros Hrec m r m' [Hm Htp]. unfold corpoObterToken.
  rewrite run_bind, run_perform. cbn [handle].
  rewrite run_bind.
  set (m1 := if fr then com_cache (Cache.delete (cache m) TOKEN_CACHE_KEY)
                         [EvCacheDelete TOKEN_CACHE_KEY] m else m).
  assert (run amb (if fr then perform (CacheDelete TOKEN_CACHE_KEY) else mret ()) m
          = Some ((), m1)) as -> by (by destruct fr).
  assert (estagnado l0 m1 ∧ tokenPromise m1 = None) as [Hm1 Htp1].
  { subst m1. destruct fr; [|done]. split; [|done].
    by apply (handle_estagnado (CacheDelete TOKEN_CACHE_KEY) l0 m ()). }
  rewrite run_bind_assoc, run_bind, run_leitura_vencida by apply Hm1.
  by apply hoare_renovar.
Qed.

Lemma hoare_obterToken_rec (l0 : nat) (budget : nat) (fr : bool) (rc : Z) :
  hoare amb (λ m, estagnado l0 m ∧ tokenPromise m = None)
    (obterToken_rec budget fr rc) (renovado amb l0).
Proof.
  revert fr rc. induction budget as [|budget IH]; intros fr rc;
    cbn [obterToken_rec]; apply hoare_corpoObterToken; intros fr' rc'.
  - apply hoare_diverge.
  - apply IH.
Qed.

(** What [obterToken] does when its first read gives no token it may return
    ([forceRefresh] false). *)
Lemma obterToken_sem_atalho (m : Mundo) (rc : Z) :
  vencido m →
  run amb (obterToken false rc) m = run amb (renovar (chamadaRecursiva rc) false rc) m.
Proof.
  intros Hm. unfold obterToken, chamadaRecursiva.
  destruct (Z.to_nat (MAX_RETRIES - rc)) as [|budget];
    cbn [obterToken_rec]; unfold corpoObterToken;
    rewrite run_bind, run_perform; cbn [handle];
    rewrite run_bind, run_ret;
    by rewrite run_bind_assoc, run_bind, run_leitura_vencida.
Qed.

(** The check that stands before every return of a stored token gives a
    token only while [now < expiresAt]. *)
Lemma tokenVigente_sound (tokenData : option CacheValue) (m m' : Mundo) (tok : string) :
  run amb (tokenVigente tokenData) m = Some (Some tok, m') →
  ∃ td, tokenData = Some (CvToken td) ∧ tok = token td ∧ relogio m < expiresAt td.
Proof.
  unfold tokenVigente.
  destruct tokenData as [[td| | | | |]|]; try done.
  destruct (truthy (token td)); [|done].
  passo. destruct (0 <? expiresAt td - relogio m) eqn:Hvig; [|done].
  intros [= <- <-]. exists td. apply Z.ltb_lt in Hvig. repeat split. lia.
Qed.

(** C1. A credential that is in the store but past its [expiresAt] is not
    returned: the first read is followed by the renewal path, as when
    the key is absent, and a token that [obterToken] returns then comes
    from a login made during the call.  At every place where a stored
    token may be returned, the check gives it only while
    [now < expiresAt]. *)
Theorem obterToken_expired_not_returned (m : Mundo) (td : TokenCache)
    (despejo : Z) (forceRefresh : bool) (retryCount : Z) :
  cache m !! TOKEN_CACHE_KEY
    = Some {| Cache.valor := CvToken td; Cache.expira := despejo |} →
  expiresAt td ≤ relogio m →
  tokenPromise m = None →
  run amb (obterToken false retryCount) m
  = run amb (renovar (chamadaRecursiva retryCount) false retryCount) m
  ∧ (∀ tok m', run amb (obterToken forceRefresh retryCount) m = Some (Returned tok, m') →
      ∃ n data, (logins m ≤ n < logins m')%nat
        ∧ loginResposta amb n = Returned data
        ∧ tokenDaResposta data = SStr tok)
  ∧ (∀ tokenData m1 m2 tok,
       run amb (tokenVigente tokenData) m1 = Some (Some tok, m2) →
       ∃ td', tokenData = Some (CvToken td') ∧ tok = token td'
         ∧ relogio m1 < expiresAt td').
Proof.
  intros Hcache Hexp Htp.
  assert (vencido m) as Hv.
  { intros e td' He Htd'. rewrite Hcache in He. simplify_eq. cbn in Htd'.
    by simplify_eq. }
  split; [by apply obterToken_sem_atalho|].
  split; [|intros tokenData m1 m2 tok; apply tokenVigente_sound].
  intros tok m' Hrun.
  refine (hoare_obterToken_rec (logins m) _ forceRefresh retryCount m
            (Returned tok) m' _ Hrun tok eq_refl).
  by repeat split.
Qed.

(** *** The path to the login, step by step *)

Lemma get_set_ne (s : gmap string Cache.Entry) (t agora : Z) (k k' : string)
    (v : CacheValue) (ttl : Z) :
  k ≠ k' → Cache.get (Cache.set s t k v ttl) agora k' = Cache.get s agora k'.
Proof. intros Hne. unfold Cache.get, Cache.set. by rewrite lookup_insert_ne. Qed.

Lemma get_delete_ne (s : gmap string Cache.Entry) (agora : Z) (k k' : string) :
  k ≠ k' → Cache.get (Cache.delete s k) agora k' = Cache.get s agora k'.
Proof. intros Hne. unfold Cache.get, Cache.delete. by rewrite lookup_delete_ne. Qed.

Lemma get_delete_eq (s : gmap string Cache.Entry) (agora : Z) (k : string) :
  Cache.get (Cache.delete s k) agora k = None.
Proof. unfold Cache.get, Cache.delete. by rewrite lookup_delete_eq. Qed.

Lemma vencido_com_cache (m : Mundo) (c : gmap string Cache.Entry) (ev : list Evento) :
  c !! TOKEN_CACHE_KEY = cache m !! TOKEN_CACHE_KEY ∨ c !! TOKEN_CACHE_KEY = None →
  vencido m → vencido (com_cache c ev m).
Proof.
  intros Hc Hv e td. cbn. intros He. destruct Hc as [Hc|Hc]; rewrite Hc in He.
  - by apply Hv.
  - done.
Qed.

Lemma run_esperarLock_livre (m : Mundo) (budget : nat) :
  Cache.get (cache m) (relogio m) LOCK_KEY = None →
  run amb (esperarLock (S budget) (relogio m)) m
  = Some (Adquirido,
          com_cache (Cache.set (cache m) (relogio m) LOCK_KEY (CvLock (relogio m)) LOCK_TTL)
            [EvCacheSet LOCK_KEY (CvLock (relogio m)) LOCK_TTL] m).
Proof.
  intros Hlock. cbn [esperarLock]. passo.
  rewrite Z.sub_diag. change (0 <? MAX_LOCK_WAIT) with true. cbn match.
  passo. passo. rewrite Hlock. passo. by rewrite run_ret.
Qed.

Lemma run_corpo_ate_login (recurse : bool → Z → Prog (Outcome string))
    (m : Mundo) (fr : bool) (rc : Z) :
  chegaAoLogin fr m →
  run amb (corpoObterToken recurse fr rc) m
  = liquidar (proxima m) (run amb (gerarToken recurse fr rc) (aoLogin fr m)).
Proof.
  intros (Htp & Hlock & Hv). unfold corpoObterToken. passo.
  rewrite run_bind.
  set (m0 := if fr then com_cache (Cache.delete (cache m) TOKEN_CACHE_KEY)
                         [EvCacheDelete TOKEN_CACHE_KEY] m else m).
  assert (run amb (if fr then perform (CacheDelete TOKEN_CACHE_KEY) else mret ()) m
          = Some ((), m0)) as -> by (by destruct fr).
  assert (vencido m0) as Hv0.
  { subst m0. destruct fr; [|by apply Hv].
    intros e td. cbn. unfold Cache.delete. by rewrite lookup_delete_eq. }
  assert (Cache.get (cache m0) (relogio m0) LOCK_KEY = None) as Hlock0.
  { subst m0. destruct fr; [|done]. mundo_simpl. by rewrite get_delete_ne. }
  assert (tokenPromise m0 = None) as Htp0 by (subst m0; by destruct fr).
  rewrite run_bind_assoc, run_bind, run_leitura_vencida by done.
  unfold renovar. passo. rewrite Htp0. passo.
  rewrite run_bind. change LOCK_TURNS with (S 49).
  rewrite run_esperarLock_livre by done.
  set (m1 := com_cache _ _ m0).
  assert (vencido m1) as Hv1.
  { subst m1. apply vencido_com_cache; [|done]. left. unfold Cache.set.
    by rewrite lookup_insert_ne. }
  rewrite run_bind.
  assert (run amb (if fr then mret None
                   else tokenData ← perform (CacheGet TOKEN_CACHE_KEY);
                        tokenVigente tokenData) m1 = Some (None, m1)) as ->.
  { destruct fr; [done|]. by apply run_leitura_vencida. }
  passo. passo. rewrite run_bind.
  assert (com_tokenPromise (Some (proxima m1))
            (com_promessas (promessas m1) (S (proxima m1)) m1) = aoLogin fr m) as ->.
  { subst m1 m0. clear. destruct fr; mundo_igual. }
  replace (proxima m1) with (proxima m) by (subst m1 m0; by destruct fr).
  destruct (run amb (gerarToken recurse fr rc) (aoLogin fr m)) as [[r m']|]; [|done].
  cbn [liquidar]. passo. by rewrite run_ret.
Qed.

Lemma obterToken_unfold (fr : bool) (rc : Z) :
  obterToken fr rc = corpoObterToken (chamadaRecursiva rc) fr rc.
Proof.
  unfold obterToken, chamadaRecursiva. by destruct (Z.to_nat (MAX_RETRIES - rc)).
Qed.

Lemma chamadaRecursiva_seguinte (fr : bool) (rc : Z) :
  rc < MAX_RETRIES → chamadaRecursiva rc fr (rc + 1) = obterToken fr (rc + 1).
Proof.
  intros Hrc. unfold chamadaRecursiva, obterToken.
  replace (Z.to_nat (MAX_RETRIES - rc)) with (S (Z.to_nat (MAX_RETRIES - (rc + 1))))
    by lia.
  done.
Qed.

Lemma run_gerarToken_ok (recurse : bool → Z → Prog (Outcome string))
    (m : Mundo) (fr : bool) (rc : Z) (tok : string) :
  tentativaDeLogin (loginResposta amb (logins m)) = Returned tok →
  run amb (gerarToken recurse fr rc) m = Some (Returned tok, aposLogin tok m).
Proof.
  intros Hlogin. unfold gerarToken. passo. rewrite Hlogin.
  passo. passo. passo. passo. unfold finalmente.
  rewrite run_bind, run_bind, run_perform. cbn [handle]. mundo_simpl.
  rewrite run_perform. cbn [handle]. mundo_simpl. rewrite run_ret.
  do 2 f_equal. mundo_igual.
Qed.

Lemma run_finalmente (m : Mundo) :
  run amb finalmente m
  = Some ((), com_cache (Cache.delete (cache m) LOCK_KEY) [EvCacheDelete LOCK_KEY]
                (com_tokenPromise None m)).
Proof. unfold finalmente. passo. by rewrite run_perform. Qed.

Lemma run_gerarToken_falha (recurse : bool → Z → Prog (Outcome string))
    (m : Mundo) (fr : bool) (rc : Z) (erro : Erro) :
  tentativaDeLogin (loginResposta amb (logins m)) = Thrown erro →
  run amb (gerarToken recurse fr rc) m
  = if status_eq erro 500 && (rc <? MAX_RETRIES)
    then run amb (recurse fr (rc + 1)) (aposFalha rc m)
    else Some (Thrown (erroDeLogin erro), aposDesistir m).
Proof.
  intros Hlogin. unfold gerarToken. passo. rewrite Hlogin. passo.
  destruct (status_eq erro 500 && (rc <? MAX_RETRIES)).
  - passo. passo. rewrite run_bind, run_finalmente. mundo_simpl.
    f_equal. mundo_igual.
  - passo. passo. rewrite run_bind, run_finalmente, run_ret. mundo_simpl.
    do 2 f_equal. mundo_igual.
Qed.

(** *** One caller alone always gets an answer *)

Lemma run_tokenVigente (tokenData : option CacheValue) (m : Mundo) :
  ∃ v, run amb (tokenVigente tokenData) m = Some (v, m).
Proof.
  unfold tokenVigente.
  destruct tokenData as [[td| | | | |]|]; try (by eexists).
  destruct (truthy (token td)); [|by eexists].
  passo. destruct (0 <? expiresAt td - relogio m); by eexists.
Qed.

(** The [while] loop ends within its 50 turns: every turn that stays in
    the loop moves the clock 500 ms towards the ceiling. *)
Lemma esperarLock_termina (budget : nat) (lockStart : Z) (m : Mundo) :
  500 * (Z.of_nat LOCK_TURNS - Z.of_nat budget) ≤ relogio m - lockStart →
  ∃ f m', run amb (esperarLock budget lockStart) m = Some (f, m')
    ∧ tokenPromise m' = tokenPromise m.
Proof.
  revert m. induction budget as [|budget IH]; intros m Hm; cbn [esperarLock]; passo.
  - destruct (relogio m - lockStart <? MAX_LOCK_WAIT) eqn:Hc.
    + apply Z.ltb_lt in Hc. unfold MAX_LOCK_WAIT, LOCK_TURNS in *. lia.
    + by eexists _, _.
  - destruct (relogio m - lockStart <? MAX_LOCK_WAIT) eqn:Hc;
      [|by eexists _, _].
    passo. passo.
    destruct (Cache.get (cache m) (relogio m) LOCK_KEY) as [v|].
    + passo. passo. rewrite run_bind.
      set (m1 := registar (EvTimeout 500) (com_relogio (relogio m + Z.max 0 500) m)).
      destruct (run_tokenVigente (Cache.get (cache m) (relogio m + Z.max 0 500)
                                    TOKEN_CACHE_KEY) m1) as [vig ->].
      destruct vig as [tok|].
      * passo. by eexists _, _.
      * destruct (IH m1) as (f & m' & Hrun & Htp).
        { subst m1. mundo_simpl. lia. }
        exists f, m'. by split.
    + passo. by eexists _, _.
Qed.

Lemma nova_promessa_termina (recurse : bool → Z → Prog (Outcome string))
    (fr : bool) (rc : Z) (m : Mundo) :
  (∀ m2, tokenPromise m2 = None → rc < MAX_RETRIES →
         ∃ r m', run amb (recurse fr (rc + 1)) m2 = Some (r, m')) →
  ∃ r m', run amb (p ← perform NewPromise;
                   _ ← perform (SetTokenPromise (Some p));
                   r ← gerarToken recurse fr rc;
                   _ ← perform (SettlePromise p r);
                   mret r) m = Some (r, m').
Proof.
  intros Hrec. passo. passo. rewrite run_bind.
  set (m2 := com_tokenPromise _ _).
  destruct (tentativaDeLogin (loginResposta amb (logins m2))) as [tok|erro] eqn:Hl.
  - rewrite (run_gerarToken_ok _ _ _ _ tok Hl). passo. by eexists _, _.
  - rewrite (run_gerarToken_falha _ _ _ _ erro Hl).
    destruct (status_eq erro 500 && (rc <? MAX_RETRIES)) eqn:Hretry.
    + apply andb_true_iff in Hretry as [_ Hrc]. apply Z.ltb_lt in Hrc.
      destruct (Hrec (aposFalha rc m2) eq_refl Hrc) as (r & m' & ->).
      passo. by eexists _, _.
    + passo. by eexists _, _.
Qed.

Lemma renovar_termina (recurse : bool → Z → Prog (Outcome string))
    (fr : bool) (rc : Z) (m : Mundo) :
  tokenPromise m = None →
  (∀ m2, tokenPromise m2 = None → rc < MAX_RETRIES →
         ∃ r m', run amb (recurse fr (rc + 1)) m2 = Some (r, m')) →
  ∃ r m', run amb (renovar recurse fr rc) m = Some (r, m').
Proof.
  intros Htp Hrec. unfold renovar. passo. rewrite Htp. passo. rewrite run_bind.
  destruct (esperarLock_termina LOCK_TURNS (relogio m) m) as (f & m1 & -> & Htp1);
    [lia|].
  destruct f as [| |tok].
  - rewrite run_bind.
    assert (∃ vig, run amb (if fr then mret None
                            else tokenData ← perform (CacheGet TOKEN_CACHE_KEY);
                                 tokenVigente tokenData) m1 = Some (vig, m1))
      as [vig ->].
    { destruct fr; [by eexists|]. passo. apply run_tokenVigente. }
    destruct vig as [tok|].
    + passo. by eexists _, _.
    + by apply nova_promessa_termina.
  - passo. rewrite run_bind.
    destruct (run_tokenVigente (Cache.get (cache m1) (relogio m1) TOKEN_CACHE_KEY) m1)
      as [vig ->].
    destruct vig; by eexists _, _.
  - by eexists _, _.
Qed.

Lemma corpoObterToken_termina (recurse : bool → Z → Prog (Outcome string))
    (fr : bool) (rc : Z) (m : Mundo) :
  tokenPromise m = None →
  (∀ m2, tokenPromise m2 = None → rc < MAX_RETRIES →
         ∃ r m', run amb (recurse fr (rc + 1)) m2 = Some (r, m')) →
  ∃ r m', run amb (corpoObterToken recurse fr rc) m = Some (r, m').
Proof.
  intros Htp Hrec. unfold corpoObterToken. passo. rewrite run_bind.
  set (m0 := if fr then com_cache (Cache.delete (cache m) TOKEN_CACHE_KEY)
                         [EvCacheDelete TOKEN_CACHE_KEY] m else m).
  assert (run amb (if fr then perform (CacheDelete TOKEN_CACHE_KEY) else mret ()) m
          = Some ((), m0)) as -> by (by destruct fr).
  assert (tokenPromise m0 = None) as Htp0 by (subst m0; by destruct fr).
  passo. rewrite run_bind.
  destruct (run_tokenVigente (Cache.get (cache m0) (relogio m0) TOKEN_CACHE_KEY) m0)
    as [vig ->].
  destruct vig as [tok|]; [|by apply renovar_termina].
  destruct fr; [by apply renovar_termina|]. by eexists _, _.
Qed.

(** [obterToken] run by one caller, with no renewal pending in the
    process, returns or throws: neither the loop nor the recursion runs
    out of its budget. *)
Lemma obterToken_rec_termina (budget : nat) (fr : bool) (rc : Z) (m : Mundo) :
  tokenPromise m = None →
  (Z.to_nat (MAX_RETRIES - rc) ≤ budget)%nat →
  ∃ r m', run amb (obterToken_rec budget fr rc) m = Some (r, m').
Proof.
  revert fr rc m. induction budget as [|budget IH]; intros fr rc m Htp Hb;
    cbn [obterToken_rec]; apply corpoObterToken_termina; try done;
    intros m2 Htp2 Hrc.
  - lia.
  - apply IH; [done|lia].
Qed.

Lemma obterToken_termina (fr : bool) (rc : Z) (m : Mundo) :
  tokenPromise m = None →
  ∃ r m', run amb (obterToken fr rc) m = Some (r, m').
Proof. intros Htp. by apply obterToken_rec_termina. Qed.

(** C8, as the code has it.  A successful login at instant [now] stores
    the credential with [expiresAt = now + 20 minutes] and hands the store
    a time-to-live of 1200 seconds, the same 20 minutes: the store keeps
    the entry up to [expiresAt] and drops it at that instant, not before.
    The lock is released and the token returned. *)
Theorem obterToken_stores_credential (m : Mundo) (forceRefresh : bool)
    (retryCount : Z) (tok : string) :
  chegaAoLogin forceRefresh m →
  tentativaDeLogin (loginResposta amb (logins m)) = Returned tok →
  ∃ m', run amb (obterToken forceRefresh retryCount) m = Some (Returned tok, m')
    ∧ cache m' !! TOKEN_CACHE_KEY
      = Some {| Cache.valor := CvToken {| token := tok;
                                          expiresAt := relogio m + 20 * 60 * 1000;
                                          geradoEm := relogio m |};
                Cache.expira := relogio m + 20 * 60 * 1000 |}
    ∧ rastro m' = rastro m
        ++ (if forceRefresh then [EvCacheDelete TOKEN_CACHE_KEY] else [])
        ++ [EvCacheSet LOCK_KEY (CvLock (relogio m)) LOCK_TTL;
            EvLogin;
            EvCacheSet TOKEN_CACHE_KEY (CvToken (credencial tok (relogio m))) (20 * 60);
            EvCacheDelete LOCK_KEY; EvCacheDelete LOCK_KEY]
    ∧ cache m' !! LOCK_KEY = None
    ∧ (∀ t, t < relogio m + 20 * 60 * 1000 →
         Cache.get (cache m') t TOKEN_CACHE_KEY
         = Some (CvToken (credencial tok (relogio m))))
    ∧ Cache.get (cache m') (relogio m + 20 * 60 * 1000) TOKEN_CACHE_KEY = None.
Proof.
  intros Hpronto Hlogin.
  rewrite obterToken_unfold, run_corpo_ate_login by done.
  rewrite (run_gerarToken_ok _ _ _ _ tok) by exact Hlogin.
  eexists. split; [reflexivity|].
  assert (cache (aposLogin tok (aoLogin forceRefresh m)) !! TOKEN_CACHE_KEY
          = Some {| Cache.valor := CvToken (credencial tok (relogio m));
                    Cache.expira := relogio m + 20 * 60 * 1000 |}) as Hc.
  { cbn [aposLogin aoLogin cache relogio]. unfold Cache.delete, Cache.set.
    rewrite !lookup_delete_ne by done. by rewrite lookup_insert_eq. }
  mundo_simpl. split; [exact Hc|]. split.
  { cbn [aposLogin aoLogin rastro relogio]. by rewrite <- !app_assoc. }
  split.
  { cbn [aposLogin aoLogin cache]. unfold Cache.delete. by rewrite lookup_delete_eq. }
  split.
  - intros t Ht. unfold Cache.get. rewrite Hc. cbn [Cache.expira Cache.valor].
    by rewrite (proj2 (Z.ltb_lt _ _) Ht).
  - unfold Cache.get. rewrite Hc. cbn [Cache.expira Cache.valor].
    by rewrite Z.ltb_irrefl.
Qed.

(** C5, as the code has it.  When the login of a call fails, the lock is
    released; with status 500 and [retryCount < 3] the call waits
    [1000 * (retryCount + 1)] ms and the result is that of
    [obterToken(forceRefresh, retryCount + 1)]; otherwise the credential
    key is deleted and the call fails, with the unavailable-service
    message for status 500 and the authentication-failure message for
    anything else. *)
Theorem obterToken_login_failure (m : Mundo) (forceRefresh : bool)
    (retryCount : Z) (erro : Erro) :
  chegaAoLogin forceRefresh m →
  tentativaDeLogin (loginResposta amb (logins m)) = Thrown erro →
  if status_eq erro 500 && (retryCount <? MAX_RETRIES) then
    ∃ m2, run amb (obterToken forceRefresh retryCount) m
          = liquidar (proxima m) (run amb (obterToken forceRefresh (retryCount + 1)) m2)
      ∧ cache m2 !! LOCK_KEY = None
      ∧ tokenPromise m2 = None
      ∧ logins m2 = S (logins m)
      ∧ relogio m2 = relogio m + Z.max 0 (RETRY_DELAY * (retryCount + 1))
      ∧ rastro m2 = rastro m
          ++ (if forceRefresh then [EvCacheDelete TOKEN_CACHE_KEY] else [])
          ++ [EvCacheSet LOCK_KEY (CvLock (relogio m)) LOCK_TTL;
              EvLogin; EvCacheDelete LOCK_KEY;
              EvTimeout (RETRY_DELAY * (retryCount + 1)); EvCacheDelete LOCK_KEY]
  else
    ∃ m', run amb (obterToken forceRefresh retryCount) m
          = Some (Thrown (erroDeLogin erro), m')
      ∧ cache m' !! LOCK_KEY = None
      ∧ cache m' !! TOKEN_CACHE_KEY = None
      ∧ tokenPromise m' = None
      ∧ logins m' = S (logins m)
      ∧ (if status_eq erro 500
         then erroDeLogin erro = Error MSG_INDISPONIVEL
         else ∃ detalhe, erroDeLogin erro = Error (MSG_FALHA_AUTENTICACAO +:+ detalhe)).
Proof.
  intros Hpronto Hlogin.
  rewrite obterToken_unfold, run_corpo_ate_login by done.
  rewrite (run_gerarToken_falha _ _ _ _ erro) by exact Hlogin.
  destruct (status_eq erro 500 && (retryCount <? MAX_RETRIES)) eqn:Hretry.
  - apply andb_true_iff in Hretry as [_ Hrc]. apply Z.ltb_lt in Hrc.
    rewrite chamadaRecursiva_seguinte by done.
    eexists. split; [reflexivity|].
    cbn [aposFalha aoLogin cache tokenPromise logins relogio rastro].
    split. { unfold Cache.delete. by rewrite lookup_delete_eq. }
    do 3 (split; [done|]). by rewrite <- !app_assoc.
  - eexists. split; [reflexivity|]. mundo_simpl.
    cbn [aposDesistir aoLogin cache tokenPromise logins].
    split. { unfold Cache.delete. by rewrite lookup_delete_eq. }
    split. { unfold Cache.delete.
             by rewrite lookup_delete_ne, lookup_delete_eq. }
    do 2 (split; [done|]).
    unfold erroDeLogin. destruct (status_eq erro 500); [done|]. by eexists.
Qed.

End TokenProps.

(** *** The Token Manager on concrete states *)

Section TokenExamples.
Import Async TokenManager Exemplos.

Lemma chegaAoLogin_mundo0 (fr : bool) : chegaAoLogin fr mundo0.
Proof.
  split; [reflexivity|]. split; [reflexivity|].
  intros _ e td He. by vm_compute in He.
Qed.

Lemma obterToken_expired_not_returned_witness :
  ∃ n data,
    (logins mundo_vencido ≤ n
     < logins (finalDe (run amb_ok (obterToken false 0) mundo_vencido) mundo_vencido))%nat
    ∧ loginResposta amb_ok n = Returned data
    ∧ tokenDaResposta data = SStr "tok0".
Proof.
  apply (proj1 (proj2 (obterToken_expired_not_returned amb_ok mundo_vencido
                         credencial_velha 1200000 false 0
                         eq_refl ltac:(vm_compute; discriminate) eq_refl)) "tok0").
  vm_compute. reflexivity.
Defined.

Lemma obterToken_stores_credential_witness :
  ∃ m', run amb_ok (obterToken false 0) mundo0 = Some (Returned "tok0", m')
    ∧ cache m' !! TOKEN_CACHE_KEY
      = Some {| Cache.valor := CvToken {| token := "tok0"; expiresAt := 1201000;
                                          geradoEm := 1000 |};
                Cache.expira := 1201000 |}.
Proof.
  destruct (obterToken_stores_credential amb_ok mundo0 false 0 "tok0"
              (chegaAoLogin_mundo0 false) eq_refl) as (m' & Hrun & Hc & _).
  exists m'. split; [exact Hrun|exact Hc].
Defined.

(** C8 as stated fails: after a login at instant 1000 the credential has
    [expiresAt = 1201000], the time-to-live handed to the store is the
    full 1200 seconds, and the store's own deadline is 1201000 as well; one
    millisecond before [expiresAt] the store still serves the entry. *)
Lemma obterToken_ttl_not_shorter :
  let m' := finalDe (run amb_ok (obterToken false 0) mundo0) mundo0 in
  let td := {| token := "tok0"; expiresAt := 1201000; geradoEm := 1000 |} in
  run amb_ok (obterToken false 0) mundo0 = Some (Returned "tok0", m')
  ∧ cache m' !! TOKEN_CACHE_KEY
    = Some {| Cache.valor := CvToken td; Cache.expira := 1201000 |}
  ∧ rastro m'
    = [EvCacheSet LOCK_KEY (CvLock 1000) LOCK_TTL; EvLogin;
       EvCacheSet TOKEN_CACHE_KEY (CvToken td) 1200;
       EvCacheDelete LOCK_KEY; EvCacheDelete LOCK_KEY]
  ∧ ¬ (1200 * 1000 < expiresAt td - relogio mundo0)
  ∧ ¬ (1201000 < expiresAt td)
  ∧ Cache.get (cache m') (expiresAt td - 1) TOKEN_CACHE_KEY = Some (CvToken td).
Proof.
  cbv zeta. split; [by vm_compute|]. split; [by vm_compute|].
  split; [by vm_compute|]. split; [by vm_compute|]. split; by vm_compute.
Qed.

Lemma obterToken_login_failure_witness :
  ∃ m2, run (amb_login_falha 500) (obterToken false 0) mundo0
        = liquidar 0 (run (amb_login_falha 500) (obterToken false (0 + 1)) m2)
    ∧ cache m2 !! LOCK_KEY = None
    ∧ rastro m2 = [EvCacheSet LOCK_KEY (CvLock 1000) LOCK_TTL;
                   EvLogin; EvCacheDelete LOCK_KEY;
                   EvTimeout 1000; EvCacheDelete LOCK_KEY].
Proof.
  destruct (obterToken_login_failure (amb_login_falha 500) mundo0 false 0
              (erroHttp 500) (chegaAoLogin_mundo0 false) eq_refl)
    as (m2 & Hrun & Hlock & _ & _ & _ & Hrastro).
  exists m2. split; [exact Hrun|]. split; [exact Hlock|exact Hrastro].
Defined.

(** C5 as stated fails for a 5xx status other than 500: a login answered
    503 is not retried (one login call, no timer), and the call fails
    with the authentication-failure message, not the unavailable-service
    one. *)
Lemma obterToken_503_not_retried :
  let res := run (amb_login_falha 503) (obterToken false 0) mundo0 in
  res = Some (Thrown (Error (MSG_FALHA_AUTENTICACAO
                               +:+ "Request failed with status code 503")),
              finalDe res mundo0)
  ∧ logins (finalDe res mundo0) = 1%nat
  ∧ rastro (finalDe res mundo0)
    = [EvCacheSet LOCK_KEY (CvLock 1000) LOCK_TTL; EvLogin;
       EvCacheDelete LOCK_KEY; EvCacheDelete TOKEN_CACHE_KEY;
       EvCacheDelete LOCK_KEY]
  ∧ Error (MSG_FALHA_AUTENTICACAO +:+ "Request failed with status code 503")
    ≠ Error MSG_INDISPONIVEL.
Proof.
  cbv zeta. split; [by vm_compute|]. split; [by vm_compute|].
  split; [by vm_compute|]. by vm_compute.
Qed.

(** With status 500 on every login the call makes the first login and
    three more, 1, 2 and 3 seconds apart, and then fails with the
    unavailable-service message. *)
Example obterToken_500_four_logins :
  let res := run (amb_login_falha 500) (obterToken false 0) mundo0 in
  res = Some (Thrown (Error MSG_INDISPONIVEL), finalDe res mundo0)
  ∧ logins (finalDe res mundo0) = 4%nat
  ∧ temporizadores (rastro (finalDe res mundo0)) = [1000; 2000; 3000].
Proof.
  cbv zeta. split; [by vm_compute|]. split; by vm_compute.
Qed.

End TokenExamples.

(** *** Callers of one process, interleaved *)

Section Concorrencia.
Import Async TokenManager Exemplos.

(** C2 fails on the code.  Two callers of [obterToken] start in the same
    tick with no credential in the store and are resumed in turn, as their
    cache replies arrive.  Both read the lock key before either writes it,
    both write it, both find no credential and no [tokenPromise], and both
    post a login: two login calls, and the callers get different tokens. *)
Theorem obterToken_two_callers_two_logins :
  let inicio := iniciar amb_ok [obterToken false 0; obterToken false 0] mundo0 in
  let fim := executar amb_ok alternada inicio.1 inicio.2 in
  map resultado fim.1 = [Some (Returned "tok0"); Some (Returned "tok1")]
  ∧ logins fim.2 = 2%nat
  ∧ rastro fim.2
    = [EvCacheSet LOCK_KEY (CvLock 1000) LOCK_TTL;
       EvCacheSet LOCK_KEY (CvLock 1000) LOCK_TTL;
       EvLogin; EvLogin;
       EvCacheSet TOKEN_CACHE_KEY (CvToken (credencial "tok0" 1000)) (20 * 60);
       EvCacheSet TOKEN_CACHE_KEY (CvToken (credencial "tok1" 1000)) (20 * 60);
       EvCacheDelete LOCK_KEY; EvCacheDelete LOCK_KEY;
       EvCacheDelete LOCK_KEY; EvCacheDelete LOCK_KEY].
Proof.
  cbv zeta. split; [by vm_compute|]. split; by vm_compute.
Qed.

(** The second caller arrives while the first waits for the login reply:
    it finds [tokenPromise] set and waits for it; one login, one token. *)
Example obterToken_late_caller_shares :
  let inicio := iniciar amb_ok [obterToken false 0; obterToken false 0] mundo0 in
  let fim := executar amb_ok [0; 0; 0; 0; 0; 1; 1; 0; 0; 0; 0; 0; 1]%nat
               inicio.1 inicio.2 in
  map resultado fim.1 = [Some (Returned "tok0"); Some (Returned "tok0")]
  ∧ logins fim.2 = 1%nat.
Proof.
  cbv zeta. split; by vm_compute.
Qed.

End Concorrencia.

(** ** Authenticated Request Executor *)

Section ExecutorProps.
Import Async TokenManager Executor.
Context (amb : Ambiente).

#[local] Arguments Cache.get : simpl never.
#[local] Arguments Cache.set : simpl never.
#[local] Arguments Cache.delete : simpl never.

(** The fast path: a good credential is returned and nothing changes. *)
Lemma run_obterToken_atalho (m : Mundo) (td : TokenCache) (rc : Z) :
  temCredencial td 0 m →
  run amb (obterToken false rc) m = Some (Returned (token td), m).
Proof.
  intros (e & He & Hval & Htok & Hexp & Hvig).
  rewrite obterToken_unfold. unfold corpoObterToken. passo.
  rewrite run_bind, run_ret. passo.
  unfold Cache.get. rewrite He.
  rewrite (proj2 (Z.ltb_lt _ _)) by lia. rewrite Hval.
  unfold tokenVigente. rewrite Htok. rewrite run_bind. passo.
  rewrite (proj2 (Z.ltb_lt _ _)) by lia.
  by rewrite run_ret.
Qed.

Lemma fazerRequisicaoAutenticada_unfold (url method : string) (data : Payload) (rc : Z) :
  fazerRequisicaoAutenticada url method data rc
  = corpoRequisicao (chamadaRecursiva url method data rc) url method data rc.
Proof.
  unfold fazerRequisicaoAutenticada, chamadaRecursiva.
  by destruct (Z.to_nat (MAX_RETRIES - rc)).
Qed.

Lemma chamadaRecursiva_seguinte_req (url method : string) (data : Payload) (rc : Z) :
  rc < MAX_RETRIES →
  chamadaRecursiva url method data rc (rc + 1)
  = fazerRequisicaoAutenticada url method data (rc + 1).
Proof.
  intros Hrc. unfold chamadaRecursiva, fazerRequisicaoAutenticada.
  replace (Z.to_nat (MAX_RETRIES - rc)) with (S (Z.to_nat (MAX_RETRIES - (rc + 1))))
    by lia.
  done.
Qed.

(** The [try] block once the token is there: [obterToken] ended in [m]
    with [tok]. *)
Lemma run_corpoRequisicao (recurse : Z → Prog (Outcome Resposta))
    (m0 m : Mundo) (tok url method : string) (data : Payload) (rc : Z) :
  run amb (obterToken false 0) m0 = Some (Returned tok, m) →
  run amb (corpoRequisicao recurse url method data rc) m0
  = match httpResposta amb (chamadas m) tok data with
    | Returned resp =>
        Some (Returned (r_data resp),
              registar (EvApiLog (r_status resp) true)
                (aposPedido tok url method data m))
    | Thrown erro =>
        run amb (aoFalhar recurse rc erro) (aposPedido tok url method data m)
    end.
Proof.
  intros Htok. unfold corpoRequisicao. passo.
  rewrite run_bind, Htok.
  passo. passo. unfold aposPedido.
  destruct (httpResposta amb (chamadas m) tok data) as [resp|erro]; [|done].
  passo. by rewrite run_ret.
Qed.

(** The [catch] block on a 401 or 403. *)
Lemma run_aoFalhar_naoAutorizado (recurse : Z → Prog (Outcome Resposta))
    (m : Mundo) (rc : Z) (erro : Erro) :
  naoAutorizado erro = true →
  run amb (aoFalhar recurse rc erro) m
  = if rc <? 1
    then run amb (recurse (rc + 1))
           (registar (EvTimeout 500)
              (com_relogio (relogio m + 500)
                 (com_cache (Cache.delete (cache m) "sankhya:token")
                    [EvApiLog (errorStatus erro) (bool_decide (is_Some (response erro)));
                     EvCacheDelete "sankhya:token"] m)))
    else Some (Thrown (Error MSG_SESSAO_EXPIRADA),
               com_cache (Cache.delete (cache m) "sankhya:token")
                 [EvApiLog (errorStatus erro) (bool_decide (is_Some (response erro)));
                  EvCacheDelete "sankhya:token"] m).
Proof.
  intros Hna. unfold aoFalhar. passo. rewrite Hna. passo. passo.
  destruct (rc <? 1).
  - passo. f_equal. mundo_igual.
  - rewrite run_ret. do 2 f_equal. mundo_igual.
Qed.

(** The [catch] block on a transient failure. *)
Lemma run_aoFalhar_transitorio (recurse : Z → Prog (Outcome Resposta))
    (m : Mundo) (rc : Z) (erro : Erro) :
  naoAutorizado erro = false →
  transitorio erro = true →
  run amb (aoFalhar recurse rc erro) m
  = if rc <? MAX_RETRIES
    then run amb (recurse (rc + 1))
           (registar (EvTimeout (RETRY_DELAY * (rc + 1)))
              (com_relogio (relogio m + Z.max 0 (RETRY_DELAY * (rc + 1)))
                 (registar (EvApiLog (errorStatus erro)
                                     (bool_decide (is_Some (response erro)))) m)))
    else Some (Thrown (erroFinal erro),
               registar (EvApiLog (errorStatus erro)
                                  (bool_decide (is_Some (response erro)))) m).
Proof.
  intros Hna Htr. unfold aoFalhar. passo. rewrite Hna, Htr.
  destruct (rc <? MAX_RETRIES); cbn [andb].
  - by passo.
  - by rewrite run_ret.
Qed.

Lemma temCredencial_depois (td : TokenCache) (folga folga' : Z) (m m' : Mundo) :
  cache m' = cache m →
  relogio m' + folga' ≤ relogio m + folga →
  temCredencial td folga m → temCredencial td folga' m'.
Proof.
  intros Hc Ht (e & He & Hval & Htok & Hexp & Hvig).
  exists e. rewrite Hc. repeat split; try done; lia.
Qed.

Lemma run_tentativa_transitoria (m0 m : Mundo) (tok url method : string)
    (data : Payload) (rc : Z) (erro : Erro) :
  run amb (obterToken false 0) m0 = Some (Returned tok, m) →
  httpResposta amb (chamadas m) tok data = Thrown erro →
  naoAutorizado erro = false →
  transitorio erro = true →
  run amb (fazerRequisicaoAutenticada url method data rc) m0
  = if rc <? MAX_RETRIES
    then run amb (fazerRequisicaoAutenticada url method data (rc + 1))
           (aposTransitorio tok url method data erro rc m)
    else Some (Thrown (erroFinal erro),
               registar (EvApiLog (errorStatus erro)
                                  (bool_decide (is_Some (response erro))))
                 (aposPedido tok url method data m)).
Proof.
  intros Htok Hreply Hna Htr.
  rewrite fazerRequisicaoAutenticada_unfold, (run_corpoRequisicao _ m0 m tok) by done.
  rewrite Hreply, run_aoFalhar_transitorio by done.
  destruct (rc <? MAX_RETRIES) eqn:Hrc; [|done].
  apply Z.ltb_lt in Hrc. by rewrite chamadaRecursiva_seguinte_req.
Qed.

(** C4, as the code has it.  The token is there (returned from the store
    or just renewed) and the credential in the store is good for three
    more seconds; the downstream fails every data request with the same
    transient error (a status of 500 or more, a timeout, a name-resolution
    failure).  The call makes three requests, waits 1000 ms and 2000 ms
    between them, and fails: with the response-time message for a timeout,
    with the unavailable-service message for a 5xx status, and with the
    error's own message otherwise. *)
Theorem fazerRequisicao_retry_exhaustion (m0 m : Mundo) (td : TokenCache)
    (url method : string) (data : Payload) (erro : Erro) :
  run amb (obterToken false 0) m0 = Some (Returned (token td), m) →
  temCredencial td 3000 m →
  (∀ n, httpResposta amb n (token td) data = Thrown erro) →
  naoAutorizado erro = false →
  transitorio erro = true →
  ∃ m', run amb (fazerRequisicaoAutenticada url method data 0) m0
        = Some (Thrown (erroFinal erro), m')
    ∧ chamadas m' = (chamadas m + 3)%nat
    ∧ logins m' = logins m
    ∧ relogio m' = relogio m + 3000
    ∧ rastro m' = rastro m ++
        [EvRequest (token td) url method data;
         EvApiLog (errorStatus erro) (bool_decide (is_Some (response erro)));
         EvTimeout (RETRY_DELAY * (0 + 1));
         EvRequest (token td) url method data;
         EvApiLog (errorStatus erro) (bool_decide (is_Some (response erro)));
         EvTimeout (RETRY_DELAY * (0 + 1 + 1));
         EvRequest (token td) url method data;
         EvApiLog (errorStatus erro) (bool_decide (is_Some (response erro)))]
    ∧ temporizadores (rastro m') = temporizadores (rastro m) ++ [1000; 2000]
    ∧ erroFinal erro
      = (if code_eq erro "ECONNABORTED" then Error MSG_TEMPO_EXCEDIDO
         else if status_ge erro 500 then Error MSG_SERVICO_INDISPONIVEL
         else Error (mensagemFinal erro)).
Proof.
  intros Htok Hcred Hreply Hna Htr.
  set (tok := token td).
  set (m1 := aposTransitorio tok url method data erro 0 m).
  set (m2 := aposTransitorio tok url method data erro (0 + 1) m1).
  assert (temCredencial td 0 m1) as Hc1.
  { apply (temCredencial_depois td 3000 0 m m1); [done| |done].
    subst m1. cbn. unfold RETRY_DELAY. lia. }
  assert (temCredencial td 0 m2) as Hc2.
  { apply (temCredencial_depois td 3000 0 m m2); [done| |done].
    subst m2 m1. cbn. unfold RETRY_DELAY. lia. }
  rewrite (run_tentativa_transitoria m0 m tok _ _ _ 0 erro) by done.
  change (0 <? MAX_RETRIES) with true. cbv iota. fold m1.
  rewrite (run_tentativa_transitoria m1 m1 tok _ _ _ (0 + 1) erro)
    by (done || by apply run_obterToken_atalho).
  change (0 + 1 <? MAX_RETRIES) with true. cbv iota. fold m2.
  rewrite (run_tentativa_transitoria m2 m2 tok _ _ _ (0 + 1 + 1) erro)
    by (done || by apply run_obterToken_atalho).
  change (0 + 1 + 1 <? MAX_RETRIES) with false. cbv iota.
  eexists. split; [reflexivity|].
  subst m2 m1. unfold aposTransitorio, aposPedido. mundo_simpl.
  split; [lia|]. split; [done|]. split; [unfold RETRY_DELAY; lia|].
  split; [by rewrite <- !app_assoc|]. split; [|done].
  rastro_simpl.
Qed.

Lemma run_obterToken_renova (m : Mundo) (tok : string) :
  chegaAoLogin false m →
  tentativaDeLogin (loginResposta amb (logins m)) = Returned tok →
  run amb (obterToken false 0) m = Some (Returned tok, aposRenovar tok m).
Proof.
  intros Hpronto Hlogin.
  rewrite obterToken_unfold, run_corpo_ate_login by done.
  by rewrite (run_gerarToken_ok _ _ _ _ _ tok) by exact Hlogin.
Qed.

Lemma run_tentativa_naoAutorizada (m0 m : Mundo) (tok url method : string)
    (data : Payload) (rc : Z) (erro : Erro) :
  run amb (obterToken false 0) m0 = Some (Returned tok, m) →
  httpResposta amb (chamadas m) tok data = Thrown erro →
  naoAutorizado erro = true →
  run amb (fazerRequisicaoAutenticada url method data rc) m0
  = if rc <? 1
    then run amb (fazerRequisicaoAutenticada url method data (rc + 1))
           (aposNaoAutorizado tok url method data erro m)
    else Some (Thrown (Error MSG_SESSAO_EXPIRADA),
               aposSessaoExpirada tok url method data erro m).
Proof.
  intros Htok Hreply Hna.
  rewrite fazerRequisicaoAutenticada_unfold, (run_corpoRequisicao _ m0 m tok) by done.
  rewrite Hreply, run_aoFalhar_naoAutorizado by done.
  destruct (rc <? 1) eqn:Hrc; [|done].
  apply Z.ltb_lt in Hrc.
  by rewrite chamadaRecursiva_seguinte_req by (unfold MAX_RETRIES; lia).
Qed.

Lemma chegaAoLogin_aposNaoAutorizado (m : Mundo) (tok url method : string)
    (data : Payload) (erro : Erro) :
  tokenPromise m = None →
  cache m !! LOCK_KEY = None →
  chegaAoLogin false (aposNaoAutorizado tok url method data erro m).
Proof.
  intros Htp Hlock. split; [done|]. split.
  - unfold aposNaoAutorizado, aposPedido. mundo_simpl.
    unfold Cache.get, Cache.delete. by rewrite lookup_delete_ne, Hlock.
  - intros _ e td'. unfold aposNaoAutorizado, aposPedido. mundo_simpl.
    unfold Cache.delete. by rewrite lookup_delete_eq.
Qed.

(** C3.  The call got its token [tok] (from the store or from a login),
    and the request sent with it is answered 401 or 403.  The credential
    key is deleted.  With [retryCount < 1] the call waits 500 ms and goes
    on as the call with [retryCount + 1]; otherwise it fails with the
    session-expired message and sends nothing more.  From
    [retryCount = 0], when the renewal succeeds, the second request
    carries the token of the new login; if it is answered, the call
    returns the answer; if it is answered 401 or 403 again, the call fails
    with the session-expired message after these two requests. *)
Theorem fazerRequisicao_session_expiry (m0 m : Mundo) (tok url method : string)
    (data : Payload) (erro : Erro) :
  run amb (obterToken false 0) m0 = Some (Returned tok, m) →
  httpResposta amb (chamadas m) tok data = Thrown erro →
  naoAutorizado erro = true →
  (∀ rc, rc < 1 →
     ∃ m1, run amb (fazerRequisicaoAutenticada url method data rc) m0
           = run amb (fazerRequisicaoAutenticada url method data (rc + 1)) m1
       ∧ cache m1 !! TOKEN_CACHE_KEY = None
       ∧ relogio m1 = relogio m + 500
       ∧ chamadas m1 = S (chamadas m)
       ∧ logins m1 = logins m
       ∧ rastro m1 = rastro m ++
           [EvRequest tok url method data;
            EvApiLog (errorStatus erro) (bool_decide (is_Some (response erro)));
            EvCacheDelete TOKEN_CACHE_KEY; EvTimeout 500])
  ∧ (∀ rc, 1 ≤ rc →
       ∃ m1, run amb (fazerRequisicaoAutenticada url method data rc) m0
             = Some (Thrown (Error MSG_SESSAO_EXPIRADA), m1)
         ∧ cache m1 !! TOKEN_CACHE_KEY = None
         ∧ chamadas m1 = S (chamadas m)
         ∧ rastro m1 = rastro m ++
             [EvRequest tok url method data;
              EvApiLog (errorStatus erro) (bool_decide (is_Some (response erro)));
              EvCacheDelete TOKEN_CACHE_KEY])
  ∧ (tokenPromise m = None → cache m !! LOCK_KEY = None →
     ∀ novo, tentativaDeLogin (loginResposta amb (logins m)) = Returned novo →
       match httpResposta amb (S (chamadas m)) novo data with
       | Returned resp =>
           ∃ m', run amb (fazerRequisicaoAutenticada url method data 0) m0
                 = Some (Returned (r_data resp), m')
             ∧ tokensUsados (rastro m') = tokensUsados (rastro m) ++ [tok; novo]
             ∧ temporizadores (rastro m') = temporizadores (rastro m) ++ [500]
             ∧ logins m' = S (logins m)
             ∧ chamadas m' = S (S (chamadas m))
       | Thrown erro2 =>
           naoAutorizado erro2 = true →
           ∃ m', run amb (fazerRequisicaoAutenticada url method data 0) m0
                 = Some (Thrown (Error MSG_SESSAO_EXPIRADA), m')
             ∧ tokensUsados (rastro m') = tokensUsados (rastro m) ++ [tok; novo]
             ∧ temporizadores (rastro m') = temporizadores (rastro m) ++ [500]
             ∧ chamadas m' = S (S (chamadas m))
             ∧ cache m' !! TOKEN_CACHE_KEY = None
       end).
Proof.
  intros Htok Hreply Hna.
  pose proof (run_tentativa_naoAutorizada m0 m tok url method data) as Hstep.
  split; [|split].
  - intros rc Hrc. rewrite (Hstep rc erro) by done.
    rewrite (proj2 (Z.ltb_lt _ _) Hrc).
    eexists. split; [reflexivity|].
    unfold aposNaoAutorizado, aposPedido. mundo_simpl.
    split. { unfold Cache.delete. by rewrite lookup_delete_eq. }
    do 3 (split; [done|]). by rewrite <- !app_assoc.
  - intros rc Hrc. rewrite (Hstep rc erro) by done.
    rewrite (proj2 (Z.ltb_ge _ _) Hrc).
    eexists. split; [reflexivity|].
    unfold aposSessaoExpirada, aposPedido. mundo_simpl.
    split. { unfold Cache.delete. by rewrite lookup_delete_eq. }
    split; [done|]. by rewrite <- !app_assoc.
  - intros Htp Hlock novo Hlogin.
    rewrite (Hstep 0 erro) by done. change (0 <? 1) with true. cbv iota.
    set (m1 := aposNaoAutorizado tok url method data erro m).
    assert (chegaAoLogin false m1) as Hpronto
      by (by apply chegaAoLogin_aposNaoAutorizado).
    rewrite fazerRequisicaoAutenticada_unfold.
    rewrite (run_corpoRequisicao _ m1 (aposRenovar novo m1) novo)
      by (by apply run_obterToken_renova).
    change (chamadas (aposRenovar novo m1)) with (S (chamadas m)).
    destruct (httpResposta amb (S (chamadas m)) novo data) as [resp|erro2].
    + eexists. split; [reflexivity|].
      subst m1. unfold aposPedido, aposRenovar, aposLogin, aoLogin,
        aposNaoAutorizado, aposPedido. mundo_simpl.
      repeat split; rastro_simpl.
    + intros Hna2. rewrite run_aoFalhar_naoAutorizado by done.
      change (0 + 1 <? 1) with false. cbv iota.
      eexists. split; [reflexivity|].
      subst m1. unfold aposPedido, aposRenovar, aposLogin, aoLogin,
        aposNaoAutorizado, aposPedido. mundo_simpl.
      repeat split; rastro_simpl.
      unfold Cache.delete. by rewrite lookup_delete_eq.
Qed.

End ExecutorProps.

(** *** The executor on concrete states *)

Section ExecutorExamples.
Import Async TokenManager Executor Exemplos.

Lemma temCredencial_mundo_com_token : temCredencial credencial_boa 3000 mundo_com_token.
Proof.
  exists {| Cache.valor := CvToken credencial_boa; Cache.expira := 2000000 |}.
  split; [reflexivity|]. split; [reflexivity|]. split; [reflexivity|].
  split; by vm_compute.
Qed.

Lemma fazerRequisicao_retry_exhaustion_witness :
  ∃ m', run (amb_falha (erroHttp 500))
          (fazerRequisicaoAutenticada "u" "POST" dados 0) mundo_com_token
        = Some (Thrown (Error MSG_SERVICO_INDISPONIVEL), m')
    ∧ chamadas m' = 3%nat
    ∧ relogio m' = 1003000.
Proof.
  destruct (fazerRequisicao_retry_exhaustion (amb_falha (erroHttp 500))
              mundo_com_token mundo_com_token credencial_boa "u" "POST" dados
              (erroHttp 500) eq_refl
              temCredencial_mundo_com_token (λ _, eq_refl) eq_refl eq_refl)
    as (m' & Hrun & Hch & _ & Hrel & _).
  exists m'. split; [exact Hrun|]. split; [exact Hch|exact Hrel].
Defined.

(** C4 as stated fails for a name-resolution failure: three requests,
    1000 ms and 2000 ms apart, and then the call fails with the message of
    the network error itself, not with the unavailable-service message. *)
Lemma fazerRequisicao_enotfound_own_message :
  let erro := erroDeRede "ENOTFOUND" "getaddrinfo ENOTFOUND api.sandbox.sankhya.com.br" in
  let res := run (amb_falha erro)
               (fazerRequisicaoAutenticada "u" "POST" dados 0) mundo_com_token in
  res = Some (Thrown (Error "getaddrinfo ENOTFOUND api.sandbox.sankhya.com.br"),
              finalDe res mundo_com_token)
  ∧ chamadas (finalDe res mundo_com_token) = 3%nat
  ∧ temporizadores (rastro (finalDe res mundo_com_token)) = [1000; 2000]
  ∧ Error "getaddrinfo ENOTFOUND api.sandbox.sankhya.com.br"
    ≠ Error MSG_SERVICO_INDISPONIVEL.
Proof.
  cbv zeta. split; [by vm_compute|]. split; [by vm_compute|].
  split; by vm_compute.
Qed.

(** A timeout ends in the response-time message. *)
Example fazerRequisicao_timeout_message :
  let erro := erroDeRede "ECONNABORTED" "timeout of 15000ms exceeded" in
  let res := run (amb_falha erro)
               (fazerRequisicaoAutenticada "u" "POST" dados 0) mundo_com_token in
  res = Some (Thrown (Error MSG_TEMPO_EXCEDIDO), finalDe res mundo_com_token)
  ∧ chamadas (finalDe res mundo_com_token) = 3%nat
  ∧ temporizadores (rastro (finalDe res mundo_com_token)) = [1000; 2000].
Proof.
  cbv zeta. split; [by vm_compute|]. split; by vm_compute.
Qed.

Lemma fazerRequisicao_session_expiry_witness :
  ∃ m', run amb_sessao_expirada
          (fazerRequisicaoAutenticada "u" "POST" dados 0) mundo_com_token
        = Some (Returned (r_data respostaVazia), m')
    ∧ tokensUsados (rastro m') = tokensUsados (rastro mundo_com_token) ++ ["antigo"; "tok0"]
    ∧ temporizadores (rastro m') = temporizadores (rastro mundo_com_token) ++ [500]
    ∧ logins m' = 1%nat
    ∧ chamadas m' = 2%nat.
Proof.
  exact (proj2 (proj2 (fazerRequisicao_session_expiry amb_sessao_expirada
                         mundo_com_token mundo_com_token "antigo" "u" "POST" dados
                         (erroHttp 401) eq_refl eq_refl eq_refl))
           eq_refl eq_refl "tok0" eq_refl).
Defined.

(** A downstream that answers 401 whatever the token: two requests, then
    the session-expired message. *)
Example fazerRequisicao_401_twice :
  let res := run (amb_falha (erroHttp 401))
               (fazerRequisicaoAutenticada "u" "POST" dados 0) mundo_com_token in
  res = Some (Thrown (Error MSG_SESSAO_EXPIRADA), finalDe res mundo_com_token)
  ∧ tokensUsados (rastro (finalDe res mundo_com_token)) = ["antigo"; "tok0"]
  ∧ temporizadores (rastro (finalDe res mundo_com_token)) = [500].
Proof.
  cbv zeta. split; [by vm_compute|]. split; by vm_compute.
Qed.

End ExecutorExamples.

(** ** Cache-Aside Data Fetchers *)

Section FetchersProps.
Import Async Normalizacao Fetchers.
Context (amb : Ambiente) (js : JsBuiltins).
Context (requisicaoProdutos : string → string → Payload → Prog (Outcome Resposta)).

#[local] Arguments Cache.get : simpl never.
#[local] Arguments Cache.set : simpl never.
#[local] Arguments Cache.delete : simpl never.





Lemma get_apos_set (c : gmap string Cache.Entry) (agora : Z) (key : string)
    (v : CacheValue) (ttl : Z) :
  0 < ttl → Cache.get (Cache.set c agora key v ttl) agora key = Some v.
Proof.
  intros Httl. unfold Cache.get, Cache.set. rewrite lookup_insert_eq. cbn.
  by rewrite (proj2 (Z.ltb_lt _ _)) by lia.
Qed.

(** What the store gives for a key written at [t0] with a time-to-live of
    [ttl] seconds. *)
Lemma get_set_janela (c : gmap string Cache.Entry) (t0 t : Z) (key : string)
    (v : CacheValue) (ttl : Z) :
  Cache.get (Cache.set c t0 key v ttl) t key
  = if t <? t0 + ttl * 1000 then Some v else None.
Proof. unfold Cache.get, Cache.set. by rewrite lookup_insert_eq. Qed.



(** C9, as the code has it.  When the fetch under a fetcher fails with
    [erro]: the product and stock fetchers log the failure, store an empty
    result under their cache key, for 60 and 15 seconds, and then fail with
    [erro]; the partner fetcher and the two reference-table fetchers fail
    with [erro] and write nothing; the order-header fetcher returns nulls
    instead of failing. *)
Theorem fetchers_on_failure (m m1 : Mundo) (erro : Erro) :
  (∀ page pageSize searchName searchCode,
     let key := chaveProdutos page pageSize searchName searchCode in
     let requestKey := requestKeyProdutos js (payloadProdutos js searchName searchCode) in
     Cache.get (cache m) (relogio m) key = None →
     pendingRequests m !! requestKey = None →
     run amb (requisicaoProdutos URL_CONSULTA_SERVICO "POST"
                (payloadProdutos js searchName searchCode))
       (Dedup.registado requestKey m) = Some (Thrown erro, m1) →
     ∃ m2, run amb (consultarProdutos js requisicaoProdutos page pageSize
                      searchName searchCode) m = Some (Thrown erro, m2)
       ∧ rastro m2 = rastro m1 ++
           [EvLogApiRequest true;
            EvCacheSet key (CvPagina (paginaVazia page pageSize)) 60]
       ∧ Cache.get (cache m2) (relogio m2) key
         = Some (CvPagina (paginaVazia page pageSize)))
  ∧ (∀ codProd searchLocal,
       let key := chaveEstoque codProd searchLocal in
       Cache.get (cache m) (relogio m) key = None →
       run amb (requisicaoProdutos URL_CONSULTA_SERVICO "POST"
                  (payloadEstoque js codProd searchLocal)) m = Some (Thrown erro, m1) →
       ∃ m2, run amb (consultarEstoqueProduto js requisicaoProdutos codProd searchLocal) m
             = Some (Thrown erro, m2)
         ∧ rastro m2 = rastro m1 ++
             [EvLogApiRequest true; EvCacheSet key (CvEstoque estoqueVazio) 15]
         ∧ Cache.get (cache m2) (relogio m2) key = Some (CvEstoque estoqueVazio))
  ∧ (∀ page pageSize searchName searchCode codVendedor codVendedoresEquipe,
       Cache.get (cache m) (relogio m)
         (chaveParceiros page pageSize searchName searchCode
            codVendedor codVendedoresEquipe) = None →
       run amb (Executor.fazerRequisicaoAutenticada URL_CONSULTA_SERVICO "POST"
                  (payloadParceiros js searchName searchCode
                     codVendedor codVendedoresEquipe) 0) m = Some (Thrown erro, m1) →
       run amb (consultarParceiros js page pageSize searchName searchCode
                  codVendedor codVendedoresEquipe) m = Some (Thrown erro, m1))
  ∧ (∀ cacheKey payload,
       Cache.get (cache m) (relogio m) cacheKey = None →
       run amb (Executor.fazerRequisicaoAutenticada URL_CONSULTA_SERVICO "POST"
                  payload 0) m = Some (Thrown erro, m1) →
       run amb (consultarTipos cacheKey payload) m = Some (Thrown erro, m1))
  ∧ (∀ codTipOper,
       run amb (Executor.fazerRequisicaoAutenticada URL_CONSULTA_SERVICO "POST"
                  (payloadTipVenda codTipOper) 0) m = Some (Thrown erro, m1) →
       run amb (consultarTipVendaPorModelo codTipOper) m
       = Some (Returned (CvRegistro (tipVenda SNull SNull)), m1)).
Proof.
  split; [|split; [|split; [|split]]].
  - intros page pageSize searchName searchCode key requestKey Hmiss Hpend Hreq.
    unfold consultarProdutos. passo. fold key. rewrite Hmiss.
    unfold Dedup.dedupedRequest_seq. passo. fold requestKey. rewrite Hpend.
    passo. passo. rewrite run_bind, run_bind.
    change (com_pending _ _) with (Dedup.registado requestKey m). rewrite Hreq.
    passo. passo. rewrite run_ret. passo. passo. rewrite run_ret.
    eexists. split; [reflexivity|]. mundo_simpl.
    split; [by rewrite <- !app_assoc|]. by apply get_apos_set.
  - intros codProd searchLocal key Hmiss Hreq.
    unfold consultarEstoqueProduto. passo. fold key. rewrite Hmiss.
    rewrite run_bind, Hreq. passo. passo. rewrite run_ret.
    eexists. split; [reflexivity|]. mundo_simpl.
    split; [by rewrite <- !app_assoc|]. by apply get_apos_set.
  - intros page pageSize searchName searchCode codVendedor codVendedoresEquipe
      Hmiss Hreq.
    unfold consultarParceiros. passo. passo. rewrite Hmiss.
    by rewrite run_bind, Hreq.
  - intros cacheKey payload Hmiss Hreq.
    unfold consultarTipos. passo. passo. rewrite Hmiss.
    by rewrite run_bind, Hreq.
  - intros codTipOper Hreq.
    unfold consultarTipVendaPorModelo. by rewrite run_bind, Hreq.
Qed.

End FetchersProps.

(** *** The fetchers on concrete states *)

Section FetchersExamples.
Import Async Normalizacao Fetchers Exemplos.



(** It fails for a negative [pageSize] as well: with [pageSize = -1] and
    three rows from the downstream, [slice(0, -1)] keeps two records, and
    2 is not at most -1. *)
Example consultarProdutos_negative_pageSize :
  let res := run amb_ok (consultarProdutos js0 requisicao_tres 1 (-1) "wid" "") mundo0 in
  ∃ pg, res = Some (Returned (CvPagina pg), finalDe res mundo0)
    ∧ length (itens pg) = 2%nat
    ∧ ¬ (Z.of_nat (length (itens pg)) ≤ -1).
Proof.
  cbv zeta.
  exists {| itens := map (semEstoque)
                       (take 2 (mapearEntidades ["CODPROD"; "DESCRPROD"]
                                  (EntityMany [linha "10" "Widget"; linha "11" "Gadget";
                                               linha "12" "Gizmo"])));
            pg_total := 2; pg_page := 1; pg_pageSize := -1; pg_totalPages := Some 1 |}.
  split; [by vm_compute|]. split; [by vm_compute|]. by vm_compute.
Qed.

Lemma fetchers_on_failure_witness :
  ∃ m2, run amb_ok (consultarProdutos js0 requisicao_falha 1 50 "" "") mundo0
        = Some (Thrown (Error "Request failed with status code 404"), m2)
    ∧ Cache.get (cache m2) (relogio m2) (chaveProdutos 1 50 "" "")
      = Some (CvPagina (paginaVazia 1 50)).
Proof.
  destruct (proj1 (fetchers_on_failure amb_ok js0 requisicao_falha mundo0
                     (Dedup.registado
                        (requestKeyProdutos js0 (payloadProdutos js0 "" "")) mundo0)
                     (Error "Request failed with status code 404"))
              1 50 "" "" eq_refl eq_refl eq_refl)
    as (m2 & Hrun & _ & Hget).
  exists m2. split; [exact Hrun|exact Hget].
Defined.

(** C9 as stated fails for the partner fetcher: when the request under it
    fails, [consultarParceiros] fails with the same error and nothing is
    stored under its cache key. *)
Lemma consultarParceiros_no_sentinel :
  let key := chaveParceiros 1 50 "" "" None None in
  let res := run (amb_falha (erroHttp 404))
               (consultarParceiros js0 1 50 "" "" None None) mundo_com_token in
  res = Some (Thrown (Error "Request failed with status code 404"),
              finalDe res mundo_com_token)
  ∧ cache (finalDe res mundo_com_token) !! key = None
  ∧ rastro (finalDe res mundo_com_token)
    = [EvRequest "antigo" URL_CONSULTA_SERVICO "POST" (payloadParceiros js0 "" "" None None);
       EvApiLog 404 true].
Proof.
  cbv zeta. split; [by vm_compute|]. split; by vm_compute.
Qed.

(** The order-header fetcher does not fail at all. *)
Example consultarTipVendaPorModelo_nulls :
  let res := run (amb_falha (erroHttp 404))
               (consultarTipVendaPorModelo "1001") mundo_com_token in
  res = Some (Returned (CvRegistro (tipVenda SNull SNull)), finalDe res mundo_com_token).
Proof. by vm_compute. Qed.

End FetchersExamples.

(** ** More on the Token Manager *)

Section TokenMore.
Import Async TokenManager TokenAtual.
Context (amb : Ambiente).

#[local] Arguments Cache.get : simpl never.
#[local] Arguments Cache.set : simpl never.
#[local] Arguments Cache.delete : simpl never.

(** *** What a call leaves behind *)

Ltac cinco := refine (conj _ (conj _ (conj _ (conj _ _)))).
Ltac quatro := refine (conj _ (conj _ (conj _ _))).

Lemma tokenVigente_mesmo (tokenData : option CacheValue) (m : Mundo)
    (v : option string) (m' : Mundo) :
  run amb (tokenVigente tokenData) m = Some (v, m') → m' = m.
Proof.
  destruct (run_tokenVigente amb tokenData m) as [v' ->]. by intros [= _ <-].
Qed.

Lemma hoare_esperarLock_repouso (l0 c0 : nat) (livre : Prop) (budget : nat)
    (lockStart : Z) :
  hoare amb (emRepouso l0 c0 livre) (esperarLock budget lockStart)
    (λ f m', tokenPromise m' = None ∧ logins m' = l0 ∧ chamadas m' = c0
       ∧ match f with
         | Adquirido => True
         | TokenDeOutro _ => cache m' !! LOCK_KEY = None
         | NaoAdquirido => livre → cache m' !! LOCK_KEY = None
         end).
Proof.
  induction budget as [|budget IH]; intros m f m' (Htp & Hl & Hc & Hlivre);
    cbn [esperarLock]; passo.
  - destruct (relogio m - lockStart <? MAX_LOCK_WAIT); [done|].
    by intros [= <- <-].
  - destruct (relogio m - lockStart <? MAX_LOCK_WAIT); [|by intros [= <- <-]].
    passo. passo.
    destruct (Cache.get (cache m) (relogio m) LOCK_KEY) as [v|] eqn:Hget.
    + passo. passo. rewrite run_bind.
      set (m1 := registar (EvTimeout 500) (com_relogio (relogio m + Z.max 0 500) m)).
      destruct (run_tokenVigente amb
                  (Cache.get (cache m) (relogio m + Z.max 0 500) TOKEN_CACHE_KEY) m1)
        as [vig ->].
      destruct vig as [tok|].
      * passo. intros [= <- <-]. mundo_simpl. quatro; try done.
        unfold Cache.delete. by rewrite lookup_delete_eq.
      * apply IH. by quatro.
    + passo. by intros [= <- <-].
Qed.

Lemma erroDeLogin_simples (erro : Erro) :
  response (erroDeLogin erro) = None ∧ code (erroDeLogin erro) = None.
Proof. unfold erroDeLogin. by destruct (status_eq erro 500). Qed.

Lemma run_gerarToken_assente (l0 c0 k : nat)
    (recurse : bool → Z → Prog (Outcome string)) (fr : bool) (rc : Z)
    (m : Mundo) (r : Outcome string) (m' : Mundo) :
  (∀ fr' rc', hoare amb (emRepouso (S l0) c0 True) (recurse fr' rc')
                (assente (S l0) c0 k True)) →
  logins m = l0 → chamadas m = c0 →
  run amb (gerarToken recurse fr rc) m = Some (r, m') →
  tokenPromise m' = None ∧ (S l0 ≤ logins m' ≤ S l0 + k)%nat ∧ chamadas m' = c0
  ∧ erroSimples r ∧ cache m' !! LOCK_KEY = None.
Proof.
  intros Hrec Hl Hc.
  destruct (tentativaDeLogin (loginResposta amb (logins m))) as [tok|erro] eqn:Hlogin.
  - rewrite (run_gerarToken_ok amb _ _ _ _ tok Hlogin). intros [= <- <-].
    cbn [aposLogin tokenPromise logins chamadas cache].
    cinco; [done|lia|done|done|].
    unfold Cache.delete. by rewrite lookup_delete_eq.
  - rewrite (run_gerarToken_falha amb _ _ _ _ erro Hlogin).
    destruct (status_eq erro 500 && (rc <? MAX_RETRIES)).
    + intros Hrun. eapply Hrec in Hrun.
      * destruct Hrun as (Htp & Hlog & Hch & He & Hlock).
        cinco; [done|lia|done|done|]. apply Hlock. by left.
      * unfold emRepouso. cbn [aposFalha tokenPromise logins chamadas cache].
        quatro; [done|lia|done|].
        intros _. unfold Cache.delete. by rewrite lookup_delete_eq.
    + intros [= <- <-]. cbn [aposDesistir tokenPromise logins chamadas cache].
      cinco; [done|lia|done| |].
      * intros e [= <-]. apply erroDeLogin_simples.
      * unfold Cache.delete. by rewrite lookup_delete_eq.
Qed.

Lemma run_nova_promessa_assente (l0 c0 k : nat) (livre : Prop)
    (recurse : bool → Z → Prog (Outcome string)) (fr : bool) (rc : Z)
    (m : Mundo) (r : Outcome string) (m' : Mundo) :
  (∀ fr' rc', hoare amb (emRepouso (S l0) c0 True) (recurse fr' rc')
                (assente (S l0) c0 k True)) →
  logins m = l0 → chamadas m = c0 →
  run amb (p ← perform NewPromise;
           _ ← perform (SetTokenPromise (Some p));
           r ← gerarToken recurse fr rc;
           _ ← perform (SettlePromise p r);
           mret r) m = Some (r, m') →
  assente l0 c0 (S k) livre r m'.
Proof.
  intros Hrec Hl Hc. passo. passo. rewrite run_bind.
  destruct (run amb (gerarToken recurse fr rc) _) as [[r1 m1]|] eqn:Hg; [|done].
  apply (run_gerarToken_assente l0 c0 k) in Hg; [|done..].
  destruct Hg as (Htp & Hlog & Hch & He & Hlock).
  passo. intros [= <- <-]. unfold assente. mundo_simpl.
  cinco; [done|lia|done|done|]. by intros _.
Qed.

Lemma hoare_renovar_assente (l0 c0 k : nat) (livre : Prop)
    (recurse : bool → Z → Prog (Outcome string)) (fr : bool) (rc : Z) :
  (∀ fr' rc', hoare amb (emRepouso (S l0) c0 True) (recurse fr' rc')
                (assente (S l0) c0 k True)) →
  hoare amb (emRepouso l0 c0 livre) (renovar recurse fr rc)
    (assente l0 c0 (S k) livre).
Proof.
  intros Hrec m r m' Hm. pose proof Hm as (Htp & Hl & Hc & Hlivre).
  unfold renovar. passo. rewrite Htp. passo. rewrite run_bind.
  destruct (run amb (esperarLock LOCK_TURNS (relogio m)) m) as [[f m1]|] eqn:Hloop;
    [|done].
  apply (hoare_esperarLock_repouso l0 c0 livre) in Hloop; [|done].
  destruct Hloop as (Htp1 & Hl1 & Hc1 & Hf).
  destruct f as [| |tok].
  - (* the lock was acquired *)
    rewrite run_bind.
    destruct (run amb (if fr then mret None
                       else tokenData ← perform (CacheGet TOKEN_CACHE_KEY);
                            tokenVigente tokenData) m1) as [[vig m2]|] eqn:Hvig;
      [|done].
    assert (m2 = m1) as ->.
    { destruct fr; [rewrite run_ret in Hvig; by simplify_eq|]. revert Hvig. passo.
      apply tokenVigente_mesmo. }
    destruct vig as [tok|].
    + passo. intros [= <- <-]. unfold assente. mundo_simpl.
      cinco; [done|lia|done|done|].
      intros _. unfold Cache.delete. by rewrite lookup_delete_eq.
    + by apply run_nova_promessa_assente.
  - (* the wait ceiling was reached *)
    passo. rewrite run_bind.
    destruct (run_tokenVigente amb
                (Cache.get (cache m1) (relogio m1) TOKEN_CACHE_KEY) m1) as [vig ->].
    destruct vig as [tok|]; intros [= <- <-]; unfold assente;
      (cinco; [done|lia|done| |intros [H|H]; [by apply Hf|lia]]).
    + done.
    + by intros e [= <-].
  - intros [= <- <-]. unfold assente. cinco; [done|lia|done|done|by intros _].
Qed.

Lemma hoare_corpoObterToken_assente (l0 c0 k : nat) (livre : Prop)
    (recurse : bool → Z → Prog (Outcome string)) (fr : bool) (rc : Z) :
  (∀ fr' rc', hoare amb (emRepouso (S l0) c0 True) (recurse fr' rc')
                (assente (S l0) c0 k True)) →
  hoare amb (emRepouso l0 c0 livre) (corpoObterToken recurse fr rc)
    (assente l0 c0 (S k) livre).
Proof.
  intros Hrec m r m' (Htp & Hl & Hc & Hlivre). unfold corpoObterToken. passo.
  rewrite run_bind.
  set (m0 := if fr then com_cache (Cache.delete (cache m) TOKEN_CACHE_KEY)
                         [EvCacheDelete TOKEN_CACHE_KEY] m else m).
  assert (run amb (if fr then perform (CacheDelete TOKEN_CACHE_KEY) else mret ()) m
          = Some ((), m0)) as -> by (by destruct fr).
  assert (emRepouso l0 c0 livre m0) as Hm0.
  { subst m0. destruct fr; [|done]. quatro; try done.
    intros H. mundo_simpl. unfold Cache.delete.
    rewrite lookup_delete_ne by done. by apply Hlivre. }
  passo. rewrite run_bind.
  destruct (run_tokenVigente amb
              (Cache.get (cache m0) (relogio m0) TOKEN_CACHE_KEY) m0) as [vig ->].
  destruct vig as [tok|]; [|by apply hoare_renovar_assente].
  destruct fr; [by apply hoare_renovar_assente|].
  cbn [negb]. intros [= <- <-]. destruct Hm0 as (? & ? & ? & Hlv).
  unfold assente. cinco; [done|lia|done|done|].
  intros [Hx|Hx]; [by apply Hlv|lia].
Qed.

Lemma hoare_obterToken_rec_assente (budget : nat) :
  ∀ (l0 c0 : nat) (livre : Prop) (fr : bool) (rc : Z),
    hoare amb (emRepouso l0 c0 livre) (obterToken_rec budget fr rc)
      (assente l0 c0 (S budget) livre).
Proof.
  induction budget as [|budget IH]; intros l0 c0 livre fr rc;
    cbn [obterToken_rec]; apply hoare_corpoObterToken_assente; intros fr' rc'.
  - apply hoare_diverge.
  - apply IH.
Qed.

Lemma obterToken_assente (m : Mundo) (livre : Prop) (fr : bool) (rc : Z) :
  tokenPromise m = None →
  (livre → cache m !! LOCK_KEY = None) →
  ∃ r m', run amb (obterToken fr rc) m = Some (r, m')
    ∧ assente (logins m) (chamadas m) (S (Z.to_nat (MAX_RETRIES - rc))) livre r m'.
Proof.
  intros Htp Hlivre.
  destruct (obterToken_termina amb fr rc m Htp) as (r & m' & Hrun).
  exists r, m'. split; [done|].
  by apply (hoare_obterToken_rec_assente (Z.to_nat (MAX_RETRIES - rc))
              (logins m) (chamadas m) livre fr rc m r m').
Qed.

(** One caller alone, with no renewal running in the process: the call
    ends, returning a token or throwing a plain [Error]; it made at most
    [1 + (MAX_RETRIES - retryCount)] logins (four from [retryCount = 0])
    and no data request, and [tokenPromise] is [null] again. *)
Theorem obterToken_settles (m : Mundo) (forceRefresh : bool) (retryCount : Z) :
  tokenPromise m = None →
  ∃ r m', run amb (obterToken forceRefresh retryCount) m = Some (r, m')
    ∧ tokenPromise m' = None
    ∧ (logins m ≤ logins m' ≤ logins m + S (Z.to_nat (MAX_RETRIES - retryCount)))%nat
    ∧ chamadas m' = chamadas m
    ∧ erroSimples r.
Proof.
  intros Htp.
  destruct (obterToken_assente m False forceRefresh retryCount Htp)
    as (r & m' & Hrun & ? & ? & ? & ? & _); [done|].
  by exists r, m'.
Qed.

(** The lock does not outlive the call: when the lock was free at the
    start, or the call logged in, the lock key is gone when the call
    ends, whether it returns or throws. *)
Theorem obterToken_releases_lock (m : Mundo) (forceRefresh : bool) (retryCount : Z)
    (r : Outcome string) (m' : Mundo) :
  tokenPromise m = None →
  run amb (obterToken forceRefresh retryCount) m = Some (r, m') →
  cache m !! LOCK_KEY = None ∨ logins m' ≠ logins m →
  cache m' !! LOCK_KEY = None.
Proof.
  intros Htp Hrun Hcaso.
  pose proof (hoare_obterToken_rec_assente (Z.to_nat (MAX_RETRIES - retryCount))
                (logins m) (chamadas m) (cache m !! LOCK_KEY = None)
                forceRefresh retryCount m r m') as H.
  destruct H as (_ & _ & _ & _ & Hlock); [by quatro|exact Hrun|].
  by apply Hlock.
Qed.

(** *** The fast path *)

(** A credential that the store gives back, with a non-empty token and
    [now < expiresAt], is returned as it is: no login, no write, no wait,
    whatever the state of the lock and of [tokenPromise]. *)
Theorem obterToken_fast_path (m : Mundo) (td : TokenCache) (retryCount : Z) :
  Cache.get (cache m) (relogio m) TOKEN_CACHE_KEY = Some (CvToken td) →
  truthy (token td) = true →
  relogio m < expiresAt td →
  run amb (obterToken false retryCount) m = Some (Returned (token td), m).
Proof.
  intros Hget Htok Hexp. apply run_obterToken_atalho.
  unfold Cache.get in Hget.
  destruct (cache m !! TOKEN_CACHE_KEY) as [e|] eqn:He; [|done].
  destruct (relogio m <? Cache.expira e) eqn:Hvivo; [|done].
  apply Z.ltb_lt in Hvivo. exists e.
  split; [done|]. split; [congruence|]. split; [done|]. lia.
Qed.

(** *** The lock held by somebody else *)





(** *** [obterTokenAtual] *)

Lemma run_obterTokenAtual (m : Mundo) :
  run amb obterTokenAtual m
  = Some (match Cache.get (cache m) (relogio m) "sankhya:token" with
          | Some (CvToken td) =>
              if dataValida (expiresAt td) then
                Some {| ativo := 0 <? expiresAt td - relogio m;
                        ts_token := if 0 <? expiresAt td - relogio m
                                    then Some (token td) else None;
                        expiraEm := expiresAt td;
                        ts_geradoEm := geradoEm td;
                        tempoRestanteMs := Z.max 0 (expiresAt td - relogio m);
                        tempoRestanteMin :=
                          Z.max 0 ((expiresAt td - relogio m) / 60000) |}
              else None
          | _ => None
          end, m).
Proof.
  unfold obterTokenAtual. passo. passo.
  destruct (Cache.get (cache m) (relogio m) "sankhya:token") as [[td| | | | |]|];
    try done.
  destruct (dataValida (expiresAt td)); [|done]. by passo.
Qed.

(** [obterTokenAtual] only reads: it ends in the state it started in.  It
    gives [null] when the store has nothing under the key.  A status it
    gives is that of the stored credential: active exactly while
    [now < expiresAt], with the token only when active, and with the
    remaining time never negative and in whole minutes rounded down. *)
Theorem obterTokenAtual_status (m : Mundo) :
  ∃ r, run amb obterTokenAtual m = Some (r, m)
    ∧ (Cache.get (cache m) (relogio m) "sankhya:token" = None → r = None)
    ∧ ∀ st, r = Some st →
        ∃ td, Cache.get (cache m) (relogio m) "sankhya:token" = Some (CvToken td)
          ∧ expiraEm st = expiresAt td
          ∧ (ativo st = true ↔ relogio m < expiresAt td)
          ∧ ts_token st = (if ativo st then Some (token td) else None)
          ∧ tempoRestanteMs st = Z.max 0 (expiresAt td - relogio m)
          ∧ 0 ≤ tempoRestanteMin st
          ∧ tempoRestanteMin st * 60000 ≤ tempoRestanteMs st
              < (tempoRestanteMin st + 1) * 60000.
Proof.
  eexists. split; [apply run_obterTokenAtual|].
  destruct (Cache.get (cache m) (relogio m) "sankhya:token") as [[td| | | | |]|];
    try (split; [done|]; by intros st).
  destruct (dataValida (expiresAt td)); [|split; [done|]; by intros st].
  split; [done|]. intros st [= <-]. exists td. cbn.
  split; [done|]. split; [done|]. split; [|split; [done|]].
  - rewrite Z.ltb_lt. lia.
  - split; [done|].
    pose proof (Z.div_mod (expiresAt td - relogio m) 60000 ltac:(lia)) as Hdm.
    pose proof (Z.mod_pos_bound (expiresAt td - relogio m) 60000 ltac:(lia)) as Hb.
    lia.
Qed.

(** [obterTokenAtual] and [obterToken] agree.  When the status carries a
    non-empty token, [obterToken] returns that token and changes nothing;
    when the status is inactive, a token that [obterToken] returns comes
    from a login made during that call. *)
Theorem obterTokenAtual_agrees (m m1 : Mundo) (st : TokenStatus) (retryCount : Z) :
  run amb obterTokenAtual m = Some (Some st, m1) →
  (∀ tok, ts_token st = Some tok → truthy tok = true →
     run amb (obterToken false retryCount) m = Some (Returned tok, m))
  ∧ (ativo st = false → tokenPromise m = None →
     ∀ tok m', run amb (obterToken false retryCount) m = Some (Returned tok, m') →
       deLogin amb (logins m) tok m').
Proof.
  rewrite run_obterTokenAtual. unfold Cache.get.
  destruct (cache m !! "sankhya:token") as [e|] eqn:He; [|done].
  destruct (relogio m <? Cache.expira e) eqn:Hvivo; [|done].
  destruct (Cache.valor e) as [td| | | | |] eqn:Hval; try done.
  destruct (dataValida (expiresAt td)); [|done].
  intros [= <- <-]. cbn [ts_token ativo].
  apply Z.ltb_lt in Hvivo.
  destruct (0 <? expiresAt td - relogio m) eqn:Hat.
  - apply Z.ltb_lt in Hat. split; [|done].
    intros tok [= <-] Htruthy. apply run_obterToken_atalho.
    exists e. split; [done|]. split; [done|]. split; [done|]. lia.
  - apply Z.ltb_ge in Hat. split; [done|].
    intros _ Htp tok m' Hob.
    assert (vencido m) as Hv.
    { intros e' td' He' Htd'. change TOKEN_CACHE_KEY with "sankhya:token" in He'.
      rewrite He in He'. injection He' as <-. rewrite Hval in Htd'.
      injection Htd' as <-. lia. }
    refine (hoare_obterToken_rec amb (logins m) _ false retryCount m
              (Returned tok) m' _ Hob tok eq_refl).
    by repeat split.
Qed.

(** *** [invalidarToken] *)

(** After [invalidarToken], the next [obterToken] logs in, whatever
    credential and whatever lock the store held: it returns the token of
    that login and stores it as the new credential. *)
Theorem invalidarToken_forces_login (m : Mundo) (tok : string) :
  tokenPromise m = None →
  tentativaDeLogin (loginResposta amb (logins m)) = Returned tok →
  ∃ m', run amb (invalidarToken ≫= λ _, obterToken false 0) m
        = Some (Returned tok, m')
    ∧ logins m' = S (logins m)
    ∧ relogio m' = relogio m
    ∧ Cache.get (cache m') (relogio m') TOKEN_CACHE_KEY
      = Some (CvToken (credencial tok (relogio m)))
    ∧ cache m' !! LOCK_KEY = None.
Proof.
  intros Htp Hlogin. rewrite run_bind. unfold invalidarToken.
  passo. passo. rewrite run_perform. cbn [handle]. mundo_simpl.
  set (m0 := com_cache _ _ (com_cache _ _ m)).
  assert (chegaAoLogin false m0) as Hm0.
  { subst m0. split; [done|]. split.
    - mundo_simpl. apply get_delete_eq.
    - intros _ e td. mundo_simpl. unfold Cache.delete.
      rewrite lookup_delete_ne by done. by rewrite lookup_delete_eq. }
  rewrite (run_obterToken_renova amb m0 tok Hm0 Hlogin).
  eexists. split; [done|]. subst m0. unfold Executor.aposRenovar.
  mundo_simpl. cbn [aposLogin aoLogin logins relogio cache].
  mundo_simpl. split; [done|]. split; [done|]. split.
  - rewrite !get_delete_ne by done. unfold Cache.get, Cache.set.
    rewrite lookup_insert_eq. cbn.
    by replace (relogio m <? relogio m + 20 * 60 * 1000) with true
      by (symmetry; apply Z.ltb_lt; lia).
  - unfold Cache.delete. by rewrite lookup_delete_eq.
Qed.

End TokenMore.

(** ** More on the Authenticated Request Executor *)

Section ExecutorMore.
Import Async TokenManager TokenAtual Executor.
Context (amb : Ambiente).

#[local] Arguments Cache.get : simpl never.
#[local] Arguments Cache.set : simpl never.
#[local] Arguments Cache.delete : simpl never.

(** The [catch] block on an error that is neither a 401/403 nor
    transient. *)
Lemma run_aoFalhar_definitivo (recurse : Z → Prog (Outcome Resposta))
    (m : Mundo) (rc : Z) (erro : Erro) :
  naoAutorizado erro = false →
  transitorio erro = false →
  run amb (aoFalhar recurse rc erro) m
  = Some (Thrown (Error (mensagemFinal erro)),
          registar (EvApiLog (errorStatus erro) (bool_decide (is_Some (response erro)))) m).
Proof.
  intros Hna Htr. unfold aoFalhar. passo. rewrite Hna, Htr. cbn [andb].
  rewrite run_ret. unfold erroFinal. unfold transitorio in Htr.
  apply orb_false_iff in Htr as [Htr Hge].
  apply orb_false_iff in Htr as [Hab _].
  by rewrite Hab, Hge.
Qed.

(** A request that is answered, or that fails with an error that is
    neither a 401/403 nor transient (a 400 or a 404, say), is sent once:
    no timer, no second request.  The answer's data is returned; the
    failure is thrown as a plain [Error] with the downstream's
    [statusMessage], else the error's own message. *)
Theorem fazerRequisicao_single_attempt (m0 m : Mundo) (tok url method : string)
    (data : Payload) (retryCount : Z) :
  run amb (obterToken false 0) m0 = Some (Returned tok, m) →
  match httpResposta amb (chamadas m) tok data with
  | Returned resp =>
      run amb (fazerRequisicaoAutenticada url method data retryCount) m0
      = Some (Returned (r_data resp),
              registar (EvApiLog (r_status resp) true)
                (aposPedido tok url method data m))
  | Thrown erro =>
      naoAutorizado erro = false →
      transitorio erro = false →
      run amb (fazerRequisicaoAutenticada url method data retryCount) m0
      = Some (Thrown (Error (mensagemFinal erro)),
              registar (EvApiLog (errorStatus erro)
                                 (bool_decide (is_Some (response erro))))
                (aposPedido tok url method data m))
  end.
Proof.
  intros Htok. rewrite fazerRequisicaoAutenticada_unfold.
  rewrite (run_corpoRequisicao amb _ m0 m tok url method data retryCount Htok).
  destruct (httpResposta amb (chamadas m) tok data) as [resp|erro]; [done|].
  intros Hna Htr. by apply run_aoFalhar_definitivo.
Qed.

Lemma simples_definitivo (erro : Erro) :
  response erro = None → code erro = None →
  naoAutorizado erro = false ∧ transitorio erro = false
  ∧ errorStatus erro = 500
  ∧ mensagemFinal erro
    = (if truthy (message erro) then message erro else MSG_ERRO_COMUNICACAO).
Proof.
  intros Hr Hc.
  unfold naoAutorizado, transitorio, errorStatus, mensagemFinal,
    status_eq, status_ge, code_eq.
  by rewrite Hr, Hc.
Qed.

(** When the token cannot be obtained, no data request is sent and
    nothing is retried: the call logs a failure with status 500 and
    [tokenUsed] false, and throws a plain [Error] with the message of the
    Token Manager's error. *)
Theorem fazerRequisicao_token_failure (m0 m : Mundo) (erro : Erro)
    (url method : string) (data : Payload) (retryCount : Z) :
  tokenPromise m0 = None →
  run amb (obterToken false 0) m0 = Some (Thrown erro, m) →
  run amb (fazerRequisicaoAutenticada url method data retryCount) m0
  = Some (Thrown (Error (if truthy (message erro) then message erro
                         else MSG_ERRO_COMUNICACAO)),
          registar (EvApiLog 500 false) m)
  ∧ chamadas m = chamadas m0.
Proof.
  intros Htp Hrun.
  destruct (obterToken_assente amb m0 False false 0 Htp) as (r & m' & Hrun' & Hass);
    [done|].
  rewrite Hrun in Hrun'. injection Hrun' as <- <-.
  destruct Hass as (_ & _ & Hch & Hsimples & _).
  destruct (Hsimples erro eq_refl) as [Hr Hc].
  destruct (simples_definitivo erro Hr Hc) as (Hna & Htr & Hst & Hmsg).
  split; [|done].
  rewrite fazerRequisicaoAutenticada_unfold. unfold corpoRequisicao. passo.
  rewrite run_bind, Hrun.
  rewrite (run_aoFalhar_definitivo _ _ _ _ Hna Htr).
  by rewrite Hst, Hmsg, Hr.
Qed.

(** *** Bounds that hold whatever the downstream answers *)

(** What a call started with [c0] data requests made leaves behind when
    it may send [n] requests. *)
Lemma run_aoFalhar_limite (c0 c1 k : nat) (recurse : Z → Prog (Outcome Resposta))
    (rc : Z) (erro : Erro) (m : Mundo) (r : Outcome Resposta) (m' : Mundo) :
  (∀ rc', hoare amb (λ m, tokenPromise m = None ∧ chamadas m = c1) (recurse rc')
            (λ r m', tokenPromise m' = None ∧ (c1 ≤ chamadas m' ≤ c1 + k)%nat
                     ∧ erroSimples r)) →
  tokenPromise m = None → chamadas m = c1 →
  run amb (aoFalhar recurse rc erro) m = Some (r, m') →
  tokenPromise m' = None ∧ (c1 ≤ chamadas m' ≤ c1 + k)%nat ∧ erroSimples r.
Proof.
  intros Hrec Htp Hc. unfold aoFalhar. passo.
  destruct (naoAutorizado erro).
  - passo. passo. destruct (rc <? 1).
    + passo. by apply Hrec.
    + intros [= <- <-]. mundo_simpl. split; [done|]. split; [lia|].
      by intros e [= <-].
  - destruct (transitorio erro && (rc <? MAX_RETRIES)).
    + passo. by apply Hrec.
    + intros [= <- <-]. mundo_simpl. split; [done|]. split; [lia|].
      intros e [= <-]. unfold erroFinal.
      by destruct (code_eq erro "ECONNABORTED"), (status_ge erro 500).
Qed.

Lemma hoare_corpoRequisicao_limite (c0 k : nat)
    (recurse : Z → Prog (Outcome Resposta)) (url method : string)
    (data : Payload) (rc : Z) :
  (∀ c1 rc', hoare amb (λ m, tokenPromise m = None ∧ chamadas m = c1) (recurse rc')
               (λ r m', tokenPromise m' = None ∧ (c1 ≤ chamadas m' ≤ c1 + k)%nat
                        ∧ erroSimples r)) →
  hoare amb (λ m, tokenPromise m = None ∧ chamadas m = c0)
    (corpoRequisicao recurse url method data rc)
    (λ r m', tokenPromise m' = None ∧ (c0 ≤ chamadas m' ≤ c0 + S k)%nat
             ∧ erroSimples r).
Proof.
  intros Hrec m r m' [Htp Hc]. unfold corpoRequisicao. passo. rewrite run_bind.
  destruct (obterToken_assente amb m False false 0 Htp) as (t & m1 & -> & Hass);
    [done|].
  destruct Hass as (Htp1 & _ & Hc1 & _ & _).
  destruct t as [tok|erro].
  - passo. passo.
    destruct (httpResposta amb (chamadas m1) tok data) as [resp|erro].
    + passo. intros [= <- <-]. mundo_simpl. split; [done|]. split; [lia|done].
    + intros Hrun.
      apply (run_aoFalhar_limite c0 (S c0) k) in Hrun;
        [|apply Hrec|done|mundo_simpl; lia].
      destruct Hrun as (? & ? & ?). split; [done|]. split; [lia|done].
  - intros Hrun.
    apply (run_aoFalhar_limite c0 c0 k) in Hrun; [|apply Hrec|done|lia].
    destruct Hrun as (? & ? & ?). split; [done|]. split; [lia|done].
Qed.

Lemma hoare_fazerRequisicao_rec_limite (budget : nat) :
  ∀ (c0 : nat) (url method : string) (data : Payload) (rc : Z),
    hoare amb (λ m, tokenPromise m = None ∧ chamadas m = c0)
      (fazerRequisicaoAutenticada_rec budget url method data rc)
      (λ r m', tokenPromise m' = None ∧ (c0 ≤ chamadas m' ≤ c0 + S budget)%nat
               ∧ erroSimples r).
Proof.
  induction budget as [|budget IH]; intros c0 url method data rc;
    cbn [fazerRequisicaoAutenticada_rec]; apply hoare_corpoRequisicao_limite;
    intros c1 rc'.
  - apply hoare_diverge.
  - apply IH.
Qed.

Lemma aoFalhar_termina (recurse : Z → Prog (Outcome Resposta)) (rc : Z)
    (erro : Erro) (m : Mundo) :
  tokenPromise m = None →
  (∀ m2, tokenPromise m2 = None → rc < MAX_RETRIES →
         ∃ r m', run amb (recurse (rc + 1)) m2 = Some (r, m')) →
  ∃ r m', run amb (aoFalhar recurse rc erro) m = Some (r, m').
Proof.
  intros Htp Hrec. unfold aoFalhar. passo.
  destruct (naoAutorizado erro).
  - passo. passo. destruct (rc <? 1) eqn:Hrc.
    + passo. apply Hrec; [done|]. apply Z.ltb_lt in Hrc. unfold MAX_RETRIES. lia.
    + by eexists _, _.
  - destruct (transitorio erro && (rc <? MAX_RETRIES)) eqn:Hretry.
    + passo. apply andb_true_iff in Hretry as [_ Hrc]. apply Z.ltb_lt in Hrc.
      by apply Hrec.
    + by eexists _, _.
Qed.

Lemma fazerRequisicao_rec_termina (budget : nat) :
  ∀ (url method : string) (data : Payload) (rc : Z) (m : Mundo),
    tokenPromise m = None →
    (Z.to_nat (MAX_RETRIES - rc) ≤ budget)%nat →
    ∃ r m', run amb (fazerRequisicaoAutenticada_rec budget url method data rc) m
            = Some (r, m').
Proof.
  induction budget as [|budget IH]; intros url method data rc m Htp Hb;
    cbn [fazerRequisicaoAutenticada_rec]; unfold corpoRequisicao; passo;
    rewrite run_bind;
    (destruct (obterToken_assente amb m False false 0 Htp)
       as (t & m1 & -> & (Htp1 & _)); [done|]);
    (destruct t as [tok|erro];
     [passo; passo;
      destruct (httpResposta amb (chamadas m1) tok data) as [resp|erro];
      [passo; by eexists _, _|]|]);
    apply aoFalhar_termina; try done; intros m2 Htp2 Hrc.
  all: try lia.
  all: apply IH; [done|lia].
Qed.

(** One caller alone, with no renewal running in the process: whatever
    the downstream answers, the call ends; it has sent at most
    [1 + (MAX_RETRIES - retryCount)] data requests (three from
    [retryCount = 0]); what it throws is always a plain [Error], never the
    error object of the HTTP client; and [tokenPromise] is [null]
    again. *)
Theorem fazerRequisicao_settles (m : Mundo) (url method : string)
    (data : Payload) (retryCount : Z) :
  tokenPromise m = None →
  ∃ r m', run amb (fazerRequisicaoAutenticada url method data retryCount) m
          = Some (r, m')
    ∧ tokenPromise m' = None
    ∧ (chamadas m ≤ chamadas m'
         ≤ chamadas m + S (Z.to_nat (MAX_RETRIES - retryCount)))%nat
    ∧ erroSimples r.
Proof.
  intros Htp.
  destruct (fazerRequisicao_rec_termina (Z.to_nat (MAX_RETRIES - retryCount))
              url method data retryCount m Htp) as (r & m' & Hrun); [done|].
  exists r, m'. split; [exact Hrun|].
  by apply (hoare_fazerRequisicao_rec_limite (Z.to_nat (MAX_RETRIES - retryCount))
              (chamadas m) url method data retryCount m r m').
Qed.

End ExecutorMore.

(** ** More on the fetchers of [sankhya-api.ts] *)

Section ConsultasProps.
Import Async Normalizacao Fetchers Consultas.
Context (amb : Ambiente) (js : JsBuiltins).

#[local] Arguments Cache.get : simpl never.
#[local] Arguments Cache.set : simpl never.
#[local] Arguments Cache.delete : simpl never.

Lemma executor_termina (url method : string) (data : Payload) (m : Mundo) :
  tokenPromise m = None →
  ∃ r m', run amb (Executor.fazerRequisicaoAutenticada url method data 0) m
          = Some (r, m').
Proof. intros Htp. by apply fazerRequisicao_rec_termina. Qed.

(** *** [consultarParceiros] *)

Lemma run_consultarParceiros_hit (m : Mundo) (page pageSize : Z)
    (searchName searchCode : string) (codVendedor : option Z)
    (codVendedoresEquipe : option (list Z)) (v : CacheValue) :
  Cache.get (cache m) (relogio m)
    (chaveParceiros page pageSize searchName searchCode codVendedor codVendedoresEquipe)
    = Some v →
  run amb (consultarParceiros js page pageSize searchName searchCode
             codVendedor codVendedoresEquipe) m = Some (Returned v, m).
Proof. intros Hget. unfold consultarParceiros. passo. passo. by rewrite Hget. Qed.

Lemma run_consultarParceiros_miss (m : Mundo) (page pageSize : Z)
    (searchName searchCode : string) (codVendedor : option Z)
    (codVendedoresEquipe : option (list Z)) (resp : Resposta) (m1 : Mundo) :
  let key := chaveParceiros page pageSize searchName searchCode
               codVendedor codVendedoresEquipe in
  Cache.get (cache m) (relogio m) key = None →
  run amb (Executor.fazerRequisicaoAutenticada URL_CONSULTA_SERVICO "POST"
             (payloadParceiros js searchName searchCode codVendedor codVendedoresEquipe) 0)
    m = Some (Returned resp, m1) →
  run amb (consultarParceiros js page pageSize searchName searchCode
             codVendedor codVendedoresEquipe) m
  = match responseBody resp with
    | Some {| entities := Some ents |} =>
        match entity ents with
        | Some e =>
            let pg := paginaParceiros page pageSize ents e in
            Some (Returned (CvPagina pg),
                  com_cache (Cache.set (cache m1) (relogio m1) key (CvPagina pg) (10 * 60))
                    [EvCacheSet key (CvPagina pg) (10 * 60)] m1)
        | None => Some (Returned (CvPagina (paginaVazia page pageSize)), m1)
        end
    | _ => Some (Returned (CvPagina (paginaVazia page pageSize)), m1)
    end.
Proof.
  intros key Hget Hreq. unfold consultarParceiros. passo. passo.
  fold key. rewrite Hget. rewrite run_bind, Hreq.
  destruct (responseBody resp) as [[[ents|]]|]; try done.
  destruct (entity ents) as [e|]; [|done].
  by passo.
Qed.

(** A page with rows is kept under the key of the call for ten minutes:
    the call returns it, and the same call made at any instant of the
    next 600 seconds returns it again from the store, with no token read
    and no request; at the 600th second the store has dropped it. *)
Theorem consultarParceiros_round_trip (m m1 : Mundo) (page pageSize : Z)
    (searchName searchCode : string) (codVendedor : option Z)
    (codVendedoresEquipe : option (list Z)) (resp : Resposta)
    (ents : Entities) (e : EntityField) :
  let key := chaveParceiros page pageSize searchName searchCode
               codVendedor codVendedoresEquipe in
  let call := consultarParceiros js page pageSize searchName searchCode
                codVendedor codVendedoresEquipe in
  let pg := paginaParceiros page pageSize ents e in
  Cache.get (cache m) (relogio m) key = None →
  run amb (Executor.fazerRequisicaoAutenticada URL_CONSULTA_SERVICO "POST"
             (payloadParceiros js searchName searchCode codVendedor codVendedoresEquipe) 0)
    m = Some (Returned resp, m1) →
  comLinhas ents e resp →
  ∃ m2, run amb call m = Some (Returned (CvPagina pg), m2)
    ∧ relogio m2 = relogio m1
    ∧ rastro m2 = rastro m1 ++ [EvCacheSet key (CvPagina pg) 600]
    ∧ (∀ t, relogio m1 ≤ t < relogio m1 + 600000 →
         run amb call (com_relogio t m2) = Some (Returned (CvPagina pg), com_relogio t m2))
    ∧ Cache.get (cache m2) (relogio m1 + 600000) key = None.
Proof.
  intros key call pg Hget Hreq [Hbody Hent]. subst call.
  rewrite (run_consultarParceiros_miss m page pageSize searchName searchCode
             codVendedor codVendedoresEquipe resp m1 Hget Hreq).
  rewrite Hbody, Hent. cbn zeta. fold key pg.
  eexists. split; [done|]. mundo_simpl.
  split; [done|]. split; [done|]. split.
  - intros t Ht. apply run_consultarParceiros_hit. mundo_simpl. fold key.
    rewrite get_set_janela.
    by replace (t <? relogio m1 + 10 * 60 * 1000) with true
      by (symmetry; apply Z.ltb_lt; lia).
  - rewrite get_set_janela.
    by replace (relogio m1 + 600000 <? relogio m1 + 10 * 60 * 1000) with false
      by (symmetry; apply Z.ltb_ge; lia).
Qed.

(** *** The two reference tables *)

Lemma run_consultarTipos_hit (m : Mundo) (cacheKey : string) (payload : Payload)
    (v : CacheValue) :
  Cache.get (cache m) (relogio m) cacheKey = Some v →
  run amb (consultarTipos cacheKey payload) m = Some (Returned v, m).
Proof. intros Hget. unfold consultarTipos. passo. passo. by rewrite Hget. Qed.

Lemma run_consultarTipos_miss (m : Mundo) (cacheKey : string) (payload : Payload)
    (resp : Resposta) (m1 : Mundo) :
  Cache.get (cache m) (relogio m) cacheKey = None →
  run amb (Executor.fazerRequisicaoAutenticada URL_CONSULTA_SERVICO "POST" payload 0) m
    = Some (Returned resp, m1) →
  run amb (consultarTipos cacheKey payload) m
  = match responseBody resp with
    | None => Some (Thrown TYPE_ERROR, m1)
    | Some {| entities := None |} => Some (Returned (CvLista []), m1)
    | Some {| entities := Some ents |} =>
        match entity ents with
        | None => Some (Returned (CvLista []), m1)
        | Some e =>
            let tipos := mapearSimples (fieldNames ents) e in
            Some (Returned (CvLista tipos),
                  com_cache (Cache.set (cache m1) (relogio m1) cacheKey
                               (CvLista tipos) (60 * 60))
                    [EvCacheSet cacheKey (CvLista tipos) (60 * 60)] m1)
        end
    end.
Proof.
  intros Hget Hreq. unfold consultarTipos. passo. passo.
  rewrite Hget. rewrite run_bind, Hreq.
  destruct (responseBody resp) as [[[ents|]]|]; try done.
  destruct (entity ents) as [e|]; [|done].
  by passo.
Qed.

(** The operation types and the negotiation types are kept for an hour:
    a list with rows is returned and stored, the same call made at any
    instant of the next 3600 seconds returns it from the store with no
    request, and at the 3600th second the store has dropped it. *)
Theorem consultarTipos_round_trip (m m1 : Mundo) (cacheKey : string)
    (payload : Payload) (resp : Resposta) (ents : Entities) (e : EntityField) :
  let tipos := mapearSimples (fieldNames ents) e in
  Cache.get (cache m) (relogio m) cacheKey = None →
  run amb (Executor.fazerRequisicaoAutenticada URL_CONSULTA_SERVICO "POST" payload 0) m
    = Some (Returned resp, m1) →
  comLinhas ents e resp →
  ∃ m2, run amb (consultarTipos cacheKey payload) m = Some (Returned (CvLista tipos), m2)
    ∧ relogio m2 = relogio m1
    ∧ rastro m2 = rastro m1 ++ [EvCacheSet cacheKey (CvLista tipos) 3600]
    ∧ (∀ t, relogio m1 ≤ t < relogio m1 + 3600000 →
         run amb (consultarTipos cacheKey payload) (com_relogio t m2)
         = Some (Returned (CvLista tipos), com_relogio t m2))
    ∧ Cache.get (cache m2) (relogio m1 + 3600000) cacheKey = None.
Proof.
  intros tipos Hget Hreq [Hbody Hent].
  rewrite (run_consultarTipos_miss m cacheKey payload resp m1 Hget Hreq).
  rewrite Hbody, Hent. cbn zeta. fold tipos.
  eexists. split; [done|]. mundo_simpl.
  split; [done|]. split; [done|]. split.
  - intros t Ht. apply run_consultarTipos_hit. mundo_simpl.
    rewrite get_set_janela.
    by replace (t <? relogio m1 + 60 * 60 * 1000) with true
      by (symmetry; apply Z.ltb_lt; lia).
  - rewrite get_set_janela.
    by replace (relogio m1 + 3600000 <? relogio m1 + 60 * 60 * 1000) with false
      by (symmetry; apply Z.ltb_ge; lia).
Qed.

(** An answer without rows is returned as an empty page, or an empty
    list, and is not stored: the fetcher ends in the state the request
    left, so the next call asks the downstream again. *)
Theorem fetchers_empty_not_cached (m m1 : Mundo) (resp : Resposta) :
  (∀ page pageSize searchName searchCode codVendedor codVendedoresEquipe,
     Cache.get (cache m) (relogio m)
       (chaveParceiros page pageSize searchName searchCode
          codVendedor codVendedoresEquipe) = None →
     run amb (Executor.fazerRequisicaoAutenticada URL_CONSULTA_SERVICO "POST"
                (payloadParceiros js searchName searchCode
                   codVendedor codVendedoresEquipe) 0) m = Some (Returned resp, m1) →
     responseBody resp = None ∨ semLinhas resp →
     run amb (consultarParceiros js page pageSize searchName searchCode
                codVendedor codVendedoresEquipe) m
     = Some (Returned (CvPagina (paginaVazia page pageSize)), m1))
  ∧ (∀ cacheKey payload,
       Cache.get (cache m) (relogio m) cacheKey = None →
       run amb (Executor.fazerRequisicaoAutenticada URL_CONSULTA_SERVICO "POST"
                  payload 0) m = Some (Returned resp, m1) →
       semLinhas resp →
       run amb (consultarTipos cacheKey payload) m = Some (Returned (CvLista []), m1)).
Proof.
  split.
  - intros page pageSize searchName searchCode codVendedor codVendedoresEquipe
      Hget Hreq Hvazio.
    rewrite (run_consultarParceiros_miss m page pageSize searchName searchCode
               codVendedor codVendedoresEquipe resp m1 Hget Hreq).
    unfold semLinhas in Hvazio.
    destruct (responseBody resp) as [[[ents|]]|]; try done.
    destruct Hvazio as [?|Hent]; [done|]. by rewrite Hent.
  - intros cacheKey payload Hget Hreq Hvazio.
    rewrite (run_consultarTipos_miss m cacheKey payload resp m1 Hget Hreq).
    unfold semLinhas in Hvazio.
    destruct (responseBody resp) as [[[ents|]]|]; try done.
    by rewrite Hvazio.
Qed.

(** *** [consultarComplementoParceiro] *)

(** [consultarComplementoParceiro] never throws.  One caller alone gets a
    value or [null].  When the request fails the answer is [null] and
    nothing is stored; the record of the first row is stored under the
    key of the partner for 600 seconds. *)
Theorem consultarComplementoParceiro_total (m : Mundo) (codParc : string) :
  tokenPromise m = None →
  (∃ v m', run amb (consultarComplementoParceiro codParc) m = Some (Returned v, m'))
  ∧ (∀ erro m1,
       Cache.get (cache m) (relogio m) (chaveComplemento codParc) = None →
       run amb (Executor.fazerRequisicaoAutenticada URL_CONSULTA_SERVICO "POST"
                  (payloadComplemento codParc) 0) m = Some (Thrown erro, m1) →
       run amb (consultarComplementoParceiro codParc) m = Some (Returned None, m1))
  ∧ (∀ resp m1 ents e complemento,
       Cache.get (cache m) (relogio m) (chaveComplemento codParc) = None →
       run amb (Executor.fazerRequisicaoAutenticada URL_CONSULTA_SERVICO "POST"
                  (payloadComplemento codParc) 0) m = Some (Returned resp, m1) →
       comLinhas ents e resp →
       normalizarPrimeira (fieldNames ents) e = Some complemento →
       run amb (consultarComplementoParceiro codParc) m
       = Some (Returned (Some (CvRegistro complemento)),
               com_cache (Cache.set (cache m1) (relogio m1) (chaveComplemento codParc)
                            (CvRegistro complemento) 600)
                 [EvCacheSet (chaveComplemento codParc) (CvRegistro complemento) 600]
                 m1)).
Proof.
  intros Htp. split; [|split].
  - unfold consultarComplementoParceiro. passo. passo.
    destruct (Cache.get (cache m) (relogio m) (chaveComplemento codParc)) as [v|];
      [by eexists _, _|].
    rewrite run_bind.
    destruct (executor_termina URL_CONSULTA_SERVICO "POST"
                (payloadComplemento codParc) m Htp) as (r & m1 & ->).
    destruct r as [resp|erro]; [|by eexists _, _].
    destruct (responseBody resp) as [[[ents|]]|]; try (by eexists _, _).
    destruct (entity ents) as [e|]; [|by eexists _, _].
    destruct (normalizarPrimeira (fieldNames ents) e) as [complemento|];
      [|by eexists _, _].
    passo. by eexists _, _.
  - intros erro m1 Hget Hreq. unfold consultarComplementoParceiro. passo. passo.
    rewrite Hget. by rewrite run_bind, Hreq.
  - intros resp m1 ents e complemento Hget Hreq [Hbody Hent] Hnorm.
    unfold consultarComplementoParceiro. passo. passo.
    rewrite Hget. rewrite run_bind, Hreq. rewrite Hbody, Hent, Hnorm. by passo.
Qed.

(** *** The two fetchers of order headers *)

Lemma consultarDadosModeloNota_termina (m : Mundo) (nunota : string) :
  tokenPromise m = None →
  ∃ r m' a b,
    run amb (Executor.fazerRequisicaoAutenticada URL_CONSULTA_SERVICO "POST"
               (payloadDadosModelo nunota) 0) m = Some (r, m')
    ∧ run amb (consultarDadosModeloNota nunota) m
      = Some (Returned (CvRegistro (dadosModelo a b)), m')
    ∧ (∀ erro, r = Thrown erro → a = SNull ∧ b = SNull).
Proof.
  intros Htp.
  destruct (executor_termina URL_CONSULTA_SERVICO "POST"
              (payloadDadosModelo nunota) m Htp) as (r & m1 & Hreq).
  exists r, m1. unfold consultarDadosModeloNota. rewrite run_bind, Hreq.
  destruct r as [resp|erro]; [|by exists SNull, SNull].
  destruct (responseBody resp) as [[[ents|]]|]; try (by exists SNull, SNull).
  destruct (entity ents) as [e|]; [|by exists SNull, SNull].
  destruct (normalizarPrimeira (fieldNames ents) e) as [cabecalho|];
    [|by exists SNull, SNull].
  by eexists _, _.
Qed.

Lemma consultarTipVendaPorModelo_termina (m : Mundo) (codTipOper : string) :
  tokenPromise m = None →
  ∃ r m' a b,
    run amb (Executor.fazerRequisicaoAutenticada URL_CONSULTA_SERVICO "POST"
               (payloadTipVenda codTipOper) 0) m = Some (r, m')
    ∧ run amb (consultarTipVendaPorModelo codTipOper) m
      = Some (Returned (CvRegistro (tipVenda a b)), m')
    ∧ (∀ erro, r = Thrown erro → a = SNull ∧ b = SNull).
Proof.
  intros Htp.
  destruct (executor_termina URL_CONSULTA_SERVICO "POST"
              (payloadTipVenda codTipOper) m Htp) as (r & m1 & Hreq).
  exists r, m1. unfold consultarTipVendaPorModelo. rewrite run_bind, Hreq.
  destruct r as [resp|erro]; [|by exists SNull, SNull].
  destruct (responseBody resp) as [[[ents|]]|]; try (by exists SNull, SNull).
  destruct (entity ents) as [[rawEntity|[|rawEntity rawEntities]]|];
    try (by exists SNull, SNull); by eexists _, _.
Qed.

(** [consultarDadosModeloNota] and [consultarTipVendaPorModelo] never
    throw and store nothing: one caller alone always gets a record with
    the two properties, in the state the request left, and both
    properties are [null] when the request failed. *)
Theorem fetchers_modelo_total (m : Mundo) (chave : string) :
  tokenPromise m = None →
  (∃ r m' a b,
     run amb (Executor.fazerRequisicaoAutenticada URL_CONSULTA_SERVICO "POST"
                (payloadDadosModelo chave) 0) m = Some (r, m')
     ∧ run amb (consultarDadosModeloNota chave) m
       = Some (Returned (CvRegistro (dadosModelo a b)), m')
     ∧ (∀ erro, r = Thrown erro → a = SNull ∧ b = SNull))
  ∧ (∃ r m' a b,
       run amb (Executor.fazerRequisicaoAutenticada URL_CONSULTA_SERVICO "POST"
                  (payloadTipVenda chave) 0) m = Some (r, m')
       ∧ run amb (consultarTipVendaPorModelo chave) m
         = Some (Returned (CvRegistro (tipVenda a b)), m')
       ∧ (∀ erro, r = Thrown erro → a = SNull ∧ b = SNull)).
Proof.
  intros Htp. split.
  - by apply consultarDadosModeloNota_termina.
  - by apply consultarTipVendaPorModelo_termina.
Qed.

End ConsultasProps.

(** ** More on the normalization *)

Section NormalizacaoMore.
Import Normalizacao.

(** The loop over positions that assign nothing to [name]. *)
Lemma foldl_passo_inerte (names : list string) (row : RawEntity)
    (name : string) (l : list nat) (acc : Registro) :
  (∀ j, j ∈ l → names !! j = Some name → valor_slot row j = None) →
  foldl (passo names row) acc l !! name = acc !! name.
Proof.
  revert acc. induction l as [|j l IH]; intros acc Hl; [done|].
  cbn [foldl]. rewrite IH.
  - destruct (decide (names !! j = Some name)) as [Hj|Hj].
    + rewrite (passo_lookup_here names row acc j name Hj).
      by rewrite (Hl j (list_elem_of_here _ _) Hj).
    + by apply passo_lookup_other.
  - intros j' Hj'. apply Hl. by apply list_elem_of_further.
Qed.

(** When a field name occurs more than once in the metadata, the record
    has, under that name, the value of the last position that carries
    one: later positions of the same name without a value do not erase
    it. *)
Theorem normalizar_last_wins (fieldNames : list string) (rawEntity : RawEntity)
    (i : nat) (name : string) (v : Scalar) :
  fieldNames !! i = Some name →
  valor_slot rawEntity i = Some v →
  (∀ j, (i < j)%nat → fieldNames !! j = Some name → valor_slot rawEntity j = None) →
  normalizar fieldNames rawEntity !! name = Some v.
Proof.
  intros Hi Hv Hdepois. unfold normalizar.
  assert (i < length fieldNames)%nat as Hlen by (by eapply lookup_lt_Some).
  replace (length fieldNames) with (i + S (length fieldNames - S i))%nat by lia.
  rewrite seq_app, foldl_app. cbn [seq foldl]. rewrite Nat.add_0_l.
  rewrite foldl_passo_inerte.
  - by rewrite (passo_lookup_here _ _ _ i name Hi), Hv.
  - intros j Hj. apply elem_of_seq in Hj. apply Hdepois. lia.
Qed.





End NormalizacaoMore.

(** ** Route handlers *)

Section RotasProps.
Import Async Normalizacao Fetchers Consultas Rotas.
Context (amb : Ambiente) (js : JsBuiltins).

#[local] Arguments Cache.get : simpl never.
#[local] Arguments Cache.set : simpl never.
#[local] Arguments Cache.delete : simpl never.


(** The seller filter of the partner listing.  For a seller with a code,
    the query names that code.  For a manager whose list of sellers is
    empty, was refused or could not be fetched, the query has no seller
    condition at all: it is the query of a request without a user. *)
Theorem rota_parceiros_filtro (page pageSize : Z) (searchName searchCode : string)
    (u : Usuario) (c : Z) (equipe : Equipe) :
  userCodVend u = Some c →
  (role u = "Vendedor" →
     GET_parceiros js page pageSize searchName searchCode (Some u) equipe
     = (r ← consultarParceiros js page pageSize searchName searchCode (Some c) None;
        match r with
        | Returned parceiros => mret (ok (CorpoValor parceiros))
        | Thrown erro => mret (falha erro "Erro ao buscar parceiros")
        end)
     ∧ ∃ base, criteria (payloadParceiros js searchName searchCode None None)
               = Some (String.concat " AND " base)
         ∧ criteria (payloadParceiros js searchName searchCode (Some c) None)
           = Some (String.concat " AND "
                     (base ++ ["CODVEND = " +:+ pretty c; "CODVEND IS NOT NULL"])))
  ∧ (role u = "Gerente" →
     (∀ v vs, equipe ≠ EquipeOk (v :: vs)) →
     filtrosDoUsuario (Some u) equipe = (None, Some [])
     ∧ payloadParceiros js searchName searchCode None (Some [])
       = payloadParceiros js searchName searchCode None None).
Proof.
  intros Hc. split.
  - intros Hrole. split.
    + unfold GET_parceiros, filtrosDoUsuario. rewrite Hc, Hrole. done.
    + unfold payloadParceiros. cbn [criteria].
      assert ((c =? 0) = false) as ->.
      { unfold userCodVend in Hc. destruct (codVendedor u) as [c'|]; [|done].
        destruct (c' =? 0) eqn:Hz; [done|]. by injection Hc as <-. }
      eexists. split; reflexivity.
  - intros Hrole Hequipe. split; [|done].
    unfold filtrosDoUsuario. rewrite Hc, Hrole. cbn.
    destruct equipe as [[|v vs]| |]; try done. by destruct (Hequipe v vs).
Qed.

End RotasProps.

(** ** The token and the authenticated request of [produtos-service.ts] *)

Section ProdutosProps.
Import Async Dedup Fetchers Produtos.
Context (amb : Ambiente) (js : JsBuiltins).

#[local] Arguments Cache.get : simpl never.
#[local] Arguments Cache.set : simpl never.
#[local] Arguments Cache.delete : simpl never.

(** *** Runs that stop *)

Lemma ateParar_bind_some {A B} (p : Prog A) (f : A → Prog B) (m : Mundo)
    (a : A) (m' : Mundo) :
  run amb p m = Some (a, m') →
  ateParar amb (p ≫= f) m = ateParar amb (f a) m'.
Proof.
  unfold mbind, Prog_bind. revert m.
  induction p as [a0|R op k IH|]; intros m; cbn; [by intros [= <- <-]| |done].
  destruct (handle amb op m) as [[r m1]|]; [apply IH|done].
Qed.

Lemma bloqueio_bind_some {A B} (p : Prog A) (f : A → Prog B) (m : Mundo)
    (a : A) (m' : Mundo) :
  run amb p m = Some (a, m') →
  bloqueio amb (p ≫= f) m = bloqueio amb (f a) m'.
Proof. intros Hrun. unfold bloqueio. by rewrite (ateParar_bind_some p f m a m'). Qed.

Lemma bloqueio_bind_none {A B} (p : Prog A) (f : A → Prog B) (m : Mundo) :
  run amb p m = None →
  bloqueio amb (p ≫= f) m = bloqueio amb p m.
Proof.
  unfold bloqueio, mbind, Prog_bind. revert m.
  induction p as [a0|R op k IH|]; intros m; cbn; [done| |done].
  destruct (handle amb op m) as [[r m1]|]; [apply IH|done].
Qed.

Lemma bloqueio_perform {R} (op : Op R) (m : Mundo) :
  handle amb op m = None →
  bloqueio amb (perform op) m = (aguarda (perform op), m).
Proof. intros Hh. unfold bloqueio. cbn. by rewrite Hh. Qed.

(** *** [getSankhyaToken] *)

Lemma tentativaDeLogin_truthy (resposta : Outcome LoginData) (tok : string) :
  TokenManager.tentativaDeLogin resposta = Returned tok → truthy tok = true.
Proof.
  unfold TokenManager.tentativaDeLogin.
  destruct resposta as [data|]; [|done].
  destruct (TokenManager.tokenDaResposta data) as [| |t]; try done.
  destruct (truthy t) eqn:Ht; [|done]. by intros [= <-].
Qed.

Lemma run_getSankhyaToken_memoria (m : Mundo) (g : Global) (rc : Z) (t : string) :
  emMemoria g = Some t →
  run amb (getSankhyaToken rc g) m = Some ((Returned t, g), m).
Proof.
  intros Hg. unfold getSankhyaToken.
  destruct (Z.to_nat (MAX_RETRIES_LOGIN - rc));
    cbn [getSankhyaToken_rec]; unfold corpoGetSankhyaToken; by rewrite Hg.
Qed.

Lemma run_getSankhyaToken_login (m : Mundo) (g : Global) (rc : Z) (tok : string) :
  emMemoria g = None →
  TokenManager.tentativaDeLogin (loginResposta amb (logins m)) = Returned tok →
  run amb (getSankhyaToken rc g) m
  = Some ((Returned tok, comToken tok),
          registar EvLogin (com_contadores (S (logins m)) (chamadas m) m)).
Proof.
  intros Hg Hlogin. unfold getSankhyaToken.
  destruct (Z.to_nat (MAX_RETRIES_LOGIN - rc));
    cbn [getSankhyaToken_rec]; unfold corpoGetSankhyaToken; rewrite Hg;
    passo; by rewrite Hlogin.
Qed.

(** A token obtained once is reused for good.  The login stores it in
    the module variable and hands it to the store for 18 minutes; from
    then on every call returns it at once, in whatever state and at
    whatever instant, without a login and without looking at the clock
    or at the store. *)
Theorem getSankhyaToken_memo (m : Mundo) (g : Global) (retryCount : Z)
    (tok : string) :
  emMemoria g = None →
  TokenManager.tentativaDeLogin (loginResposta amb (logins m)) = Returned tok →
  run amb (getSankhyaToken retryCount g) m
  = Some ((Returned tok, comToken tok),
          registar EvLogin (com_contadores (S (logins m)) (chamadas m) m))
  ∧ sankhya_global_token (comToken tok) = Some (tok, 1080)
  ∧ ∀ rc' m2, run amb (getSankhyaToken rc' (comToken tok)) m2
              = Some ((Returned tok, comToken tok), m2).
Proof.
  intros Hg Hlogin. split; [by apply run_getSankhyaToken_login|]. split; [done|].
  intros rc' m2. apply run_getSankhyaToken_memoria.
  unfold emMemoria, comToken. cbn.
  by rewrite (tentativaDeLogin_truthy _ _ Hlogin).
Qed.

(** What [getSankhyaToken] leaves alone. *)
Lemma getSankhyaToken_rec_quadro (budget : nat) :
  ∀ (rc : Z) (g : Global) (m : Mundo) (x : Outcome string * Global) (m' : Mundo),
    run amb (getSankhyaToken_rec budget rc g) m = Some (x, m') →
    pendingRequests m' = pendingRequests m ∧ chamadas m' = chamadas m
    ∧ cache m' = cache m ∧ respondidas m' = respondidas m.
Proof.
  induction budget as [|budget IH]; intros rc g m x m';
    cbn [getSankhyaToken_rec]; unfold corpoGetSankhyaToken;
    (destruct (emMemoria g); [by intros [= <- <-]|]); passo;
    (destruct (TokenManager.tentativaDeLogin (loginResposta amb (logins m)));
     [by intros [= <- <-]|]);
    (destruct (status_eq e 500 && (rc <? MAX_RETRIES_LOGIN));
     [|by intros [= <- <-]]); passo.
  - done.
  - intros Hrun. by apply IH in Hrun.
Qed.

Lemma run_getSankhyaToken_rec_500 (budget : nat) (rc : Z) (g : Global) (m : Mundo)
    (erro : Erro) :
  emMemoria g = None →
  loginResposta amb (logins m) = Thrown erro →
  status_eq erro 500 = true →
  rc < MAX_RETRIES_LOGIN →
  run amb (getSankhyaToken_rec (S budget) rc g) m
  = run amb (getSankhyaToken_rec budget (rc + 1) g)
      (registar (EvTimeout (RETRY_DELAY * (rc + 1)))
         (com_relogio (relogio m + Z.max 0 (RETRY_DELAY * (rc + 1)))
            (registar EvLogin (com_contadores (S (logins m)) (chamadas m) m)))).
Proof.
  intros Hg Hlogin Hst Hrc. cbn [getSankhyaToken_rec].
  unfold corpoGetSankhyaToken at 1. rewrite Hg. passo. rewrite Hlogin.
  cbn [TokenManager.tentativaDeLogin]. rewrite Hst.
  replace (rc <? MAX_RETRIES_LOGIN) with true by (symmetry; by apply Z.ltb_lt).
  cbn [andb]. by passo.
Qed.

Lemma run_getSankhyaToken_rec_desiste (budget : nat) (rc : Z) (g : Global) (m : Mundo)
    (erro : Erro) :
  emMemoria g = None →
  loginResposta amb (logins m) = Thrown erro →
  status_eq erro 500 && (rc <? MAX_RETRIES_LOGIN) = false →
  run amb (getSankhyaToken_rec budget rc g) m
  = Some ((Thrown (TokenManager.erroDeLogin erro), semToken),
          registar EvLogin (com_contadores (S (logins m)) (chamadas m) m)).
Proof.
  intros Hg Hlogin Hnao.
  destruct budget; cbn [getSankhyaToken_rec]; unfold corpoGetSankhyaToken;
    rewrite Hg; passo; rewrite Hlogin; cbn [TokenManager.tentativaDeLogin];
    by rewrite Hnao.
Qed.

(** When a login fails.  A failure other than a status 500 is not
    retried: one login, then the authentication error.  While the logins
    fail with status 500 the call retries three times, after 1000, 2000
    and 3000 ms, and then throws the unavailable-service error.  Either
    way the module variable and the store's copy are cleared. *)
Theorem getSankhyaToken_login_failure (m : Mundo) (g : Global) (erro : Erro) :
  emMemoria g = None →
  (status_eq erro 500 = false →
   loginResposta amb (logins m) = Thrown erro →
   run amb (getSankhyaToken 0 g) m
   = Some ((Thrown (TokenManager.erroDeLogin erro), semToken),
           registar EvLogin (com_contadores (S (logins m)) (chamadas m) m)))
  ∧ (status_eq erro 500 = true →
     (∀ n, loginResposta amb n = Thrown erro) →
     ∃ m', run amb (getSankhyaToken 0 g) m
           = Some ((Thrown (Error TokenManager.MSG_INDISPONIVEL), semToken), m')
       ∧ logins m' = (logins m + 4)%nat
       ∧ relogio m' = relogio m + 6000
       ∧ rastro m' = rastro m ++
           [EvLogin; EvTimeout 1000; EvLogin; EvTimeout 2000;
            EvLogin; EvTimeout 3000; EvLogin]).
Proof.
  intros Hg. split.
  - intros Hst Hlogin. apply run_getSankhyaToken_rec_desiste; [done|done|].
    by rewrite Hst.
  - intros Hst Hlogin. unfold getSankhyaToken.
    change (Z.to_nat (MAX_RETRIES_LOGIN - 0)) with 3%nat.
    rewrite (run_getSankhyaToken_rec_500 2 0 g _ erro Hg (Hlogin _) Hst)
      by (unfold MAX_RETRIES_LOGIN; lia).
    rewrite (run_getSankhyaToken_rec_500 1 (0 + 1) g _ erro Hg (Hlogin _) Hst)
      by (unfold MAX_RETRIES_LOGIN; lia).
    rewrite (run_getSankhyaToken_rec_500 0 (0 + 1 + 1) g _ erro Hg (Hlogin _) Hst)
      by (unfold MAX_RETRIES_LOGIN; lia).
    rewrite (run_getSankhyaToken_rec_desiste 0 (0 + 1 + 1 + 1) g _ erro Hg (Hlogin _))
      by (by rewrite Hst).
    eexists. split.
    { unfold TokenManager.erroDeLogin. by rewrite Hst. }
    mundo_simpl. split; [lia|]. split; [unfold RETRY_DELAY; lia|].
    rewrite <- !app_assoc. done.
Qed.

(** *** [fazerRequisicaoAutenticada] *)

Lemma bloqueio_passo {R B} (op : Op R) (f : R → Prog B) (m : Mundo) (r : R)
    (m1 : Mundo) :
  handle amb op m = Some (r, m1) →
  bloqueio amb (perform op ≫= f) m = bloqueio amb (f r) m1.
Proof. intros Hh. apply bloqueio_bind_some. by rewrite run_perform. Qed.

Lemma bloqueio_run_none {A} (p : Prog A) (m : Mundo) (q : nat) (m' : Mundo) :
  bloqueio amb p m = (Some q, m') → run amb p m = None.
Proof.
  unfold bloqueio. revert m.
  induction p as [a|R op k IH|]; intros m; cbn; [done| |done].
  destruct (handle amb op m) as [[r m1]|]; [apply IH|done].
Qed.

Lemma bloqueio_bind_preso {A B} (p : Prog A) (f : A → Prog B) (m : Mundo)
    (q : nat) (m' : Mundo) :
  bloqueio amb p m = (Some q, m') →
  bloqueio amb (p ≫= f) m = (Some q, m').
Proof.
  intros Hb. rewrite bloqueio_bind_none; [done|]. by eapply bloqueio_run_none.
Qed.

(** A call that finds its key in the table waits for the promise stored
    there. *)
Lemma bloqueio_juntar (budget : nat) (url method : string) (data : Payload)
    (rc : Z) (g : Global) (m : Mundo) (q : nat) :
  pendingRequests m !! requestKey js method url data = Some q →
  respondidas m !! q = None →
  bloqueio amb (fazerRequisicaoAutenticada_rec budget js url method data rc g) m
  = (Some q, m).
Proof.
  intros Hkey Hq.
  destruct budget; cbn [fazerRequisicaoAutenticada_rec]; unfold dedupedRequestG;
    (rewrite (bloqueio_passo (PendingGet _) _ m (Some q) m)
       by (cbn [handle]; by rewrite Hkey));
    apply bloqueio_bind_preso; apply bloqueio_perform; cbn [handle];
    by rewrite Hq.
Qed.

(** The token is there when the request is sent. *)
Lemma run_getSankhyaToken_obtem (key : string) (g : Global) (m : Mundo) (tok : string) :
  obtemToken amb g m tok →
  run amb (getSankhyaToken 0 g) (registado key m)
  = Some ((Returned tok, globalCom g tok), aoPedido key g m).
Proof.
  intros [Hg|[Hg Hlogin]]; unfold aoPedido, globalCom; rewrite Hg.
  - by apply run_getSankhyaToken_memoria.
  - by apply run_getSankhyaToken_login.
Qed.

Lemma aoPedido_campos (key : string) (g : Global) (m : Mundo) :
  pendingRequests (aoPedido key g m) = <[key := proxima m]> (pendingRequests m)
  ∧ chamadas (aoPedido key g m) = chamadas m
  ∧ cache (aoPedido key g m) = cache m
  ∧ relogio (aoPedido key g m) = relogio m
  ∧ respondidas (aoPedido key g m) = respondidas m.
Proof. unfold aoPedido. by destruct (emMemoria g). Qed.

(** The state in which the retry waits. *)
Lemma bloqueio_retry (m : Mundo) (g : Global) (url method : string)
    (data : Payload) (tok : string) (erro : Erro) :
  let key := requestKey js method url data in
  pendingRequests m !! key = None →
  semFuturo m →
  obtemToken amb g m tok →
  httpResposta amb (chamadas m) tok data = Thrown erro →
  Executor.naoAutorizado erro = true ∨ Executor.transitorio erro = true →
  ∃ m', bloqueio amb (fazerRequisicaoAutenticada js url method data 0 g) m
        = (Some (proxima m), m')
    ∧ pendingRequests m' = <[key := proxima m]> (pendingRequests m)
    ∧ respondidas m' = respondidas m
    ∧ chamadas m' = S (chamadas m)
    ∧ cache m' = cache m
    ∧ relogio m' = relogio m + (if Executor.naoAutorizado erro then 500 else 1000).
Proof.
  intros key Hkey Hfresca Htok Hresp Hretry.
  destruct (aoPedido_campos key g m) as (Hps & Hch & Hc & Hrel & Hrs).
  set (m2 := Executor.aposPedido tok url method data (aoPedido key g m)).
  set (espera := if Executor.naoAutorizado erro then 500 else 1000).
  set (m3 := registar (EvTimeout espera) (com_relogio (relogio m2 + Z.max 0 espera) m2)).
  assert (bloqueio amb (fazerRequisicaoAutenticada js url method data 0 g) m
          = (Some (proxima m), m3)) as Hb.
  { unfold fazerRequisicaoAutenticada.
    change (Z.to_nat (MAX_RETRIES - 0)) with 2%nat.
    cbn [fazerRequisicaoAutenticada_rec]. fold key. unfold dedupedRequestG.
    rewrite (bloqueio_passo (PendingGet key) _ m None m)
      by (cbn [handle]; by rewrite Hkey).
    rewrite (bloqueio_passo NewPromise _ m (proxima m)
               (com_promessas (promessas m) (S (proxima m)) m)) by done.
    rewrite (bloqueio_passo (PendingSet key (proxima m)) _ _ () (registado key m))
      by done.
    apply bloqueio_bind_preso. unfold fetcherRequisicao.
    rewrite (bloqueio_bind_some _ _ _ _ _ (run_getSankhyaToken_obtem key g m tok Htok)).
    rewrite (bloqueio_passo (AxiosRequest tok url method data) _ _
               (httpResposta amb (chamadas (aoPedido key g m)) tok data) m2) by done.
    rewrite Hch, Hresp. unfold aoFalhar.
    assert (pendingRequests m3 !! key = Some (proxima m)) as Hin.
    { subst m3 m2. unfold Executor.aposPedido. mundo_simpl. rewrite Hps.
      by rewrite lookup_insert_eq. }
    assert (respondidas m3 !! proxima m = None) as Hq.
    { subst m3 m2. unfold Executor.aposPedido. mundo_simpl. rewrite Hrs.
      by apply Hfresca. }
    subst espera. destruct (Executor.naoAutorizado erro) eqn:Hna.
    - change (0 <? 1) with true. cbn match.
      rewrite (bloqueio_passo (SetTimeout 500) _ m2 () m3) by done.
      exact (bloqueio_juntar 1 url method data (0 + 1) semToken m3 (proxima m) Hin Hq).
    - destruct Hretry as [?|Htr]; [done|]. rewrite Htr.
      change (0 <? MAX_RETRIES) with true. cbn [andb].
      rewrite (bloqueio_passo (SetTimeout (RETRY_DELAY * (0 + 1))) _ m2 () m3) by done.
      exact (bloqueio_juntar 1 url method data (0 + 1) (globalCom g tok) m3
               (proxima m) Hin Hq). }
  exists m3. split; [done|].
  subst m3 m2. unfold Executor.aposPedido. mundo_simpl.
  rewrite Hps, Hch, Hc, Hrel, Hrs. subst espera.
  repeat split. by destruct (Executor.naoAutorizado erro).
Qed.

(** The retry joins the request it belongs to, and the call never ends.
    When the data request fails with a 401 or 403, or with a transient
    error, the call sleeps and calls itself with [retryCount + 1]; that
    call computes the same key, finds the promise the first attempt
    stored, and waits for it.  That promise settles only when the first
    attempt ends, and the first attempt ends only with the call it waits
    for: after one request and one timer the call waits for its own
    promise for good.  The entry stays in the table, so every later call
    with the same method, URL and body waits for that promise too. *)
Theorem fazerRequisicao_produtos_retry_hangs (m : Mundo) (g : Global)
    (url method : string) (data : Payload) (tok : string) (erro : Erro) :
  let key := requestKey js method url data in
  pendingRequests m !! key = None →
  semFuturo m →
  obtemToken amb g m tok →
  httpResposta amb (chamadas m) tok data = Thrown erro →
  Executor.naoAutorizado erro = true ∨ Executor.transitorio erro = true →
  ∃ m', bloqueio amb (fazerRequisicaoAutenticada js url method data 0 g) m
        = (Some (proxima m), m')
    ∧ run amb (fazerRequisicaoAutenticada js url method data 0 g) m = None
    ∧ pendingRequests m' = <[key := proxima m]> (pendingRequests m)
    ∧ respondidas m' !! proxima m = None
    ∧ chamadas m' = S (chamadas m)
    ∧ cache m' = cache m
    ∧ relogio m' = relogio m + (if Executor.naoAutorizado erro then 500 else 1000)
    ∧ ∀ retryCount g',
        bloqueio amb (fazerRequisicaoAutenticada js url method data retryCount g') m'
        = (Some (proxima m), m').
Proof.
  intros key Hkey Hfresca Htok Hresp Hretry.
  destruct (bloqueio_retry m g url method data tok erro Hkey Hfresca Htok Hresp Hretry)
    as (m' & Hb & Hps & Hrs & Hch & Hc & Hrel).
  exists m'. split; [done|]. split; [by eapply bloqueio_run_none|].
  split; [done|]. split; [rewrite Hrs; by apply Hfresca|]. split; [done|].
  split; [done|]. split; [done|].
  intros retryCount g'. apply bloqueio_juntar.
  - fold key. rewrite Hps. by rewrite lookup_insert_eq.
  - rewrite Hrs. by apply Hfresca.
Qed.

(** The same through [consultarProdutos]: when the data request fails
    with a 401 or 403, or with a transient error, the caller of
    [consultarProdutos] never gets an answer, and the store is as it
    was: no page and no error entry is written under the key of the
    call.  Both entries stay in the table of pending requests. *)
Theorem consultarProdutos_retry_hangs (m : Mundo) (g : Global) (page pageSize : Z)
    (searchName searchCode : string) (tok : string) (erro : Erro) :
  let payload := payloadProdutos js searchName searchCode in
  let key := requestKey js "POST" URL_CONSULTA_SERVICO payload in
  let call := consultarProdutos js (requisicao js g) page pageSize
                searchName searchCode in
  Cache.get (cache m) (relogio m) (chaveProdutos page pageSize searchName searchCode)
    = None →
  pendingRequests m !! requestKeyProdutos js payload = None →
  pendingRequests m !! key = None →
  semFuturo m →
  obtemToken amb g m tok →
  httpResposta amb (chamadas m) tok payload = Thrown erro →
  Executor.naoAutorizado erro = true ∨ Executor.transitorio erro = true →
  ∃ m', bloqueio amb call m = (Some (S (proxima m)), m')
    ∧ run amb call m = None
    ∧ cache m' = cache m
    ∧ chamadas m' = S (chamadas m)
    ∧ pendingRequests m' !! requestKeyProdutos js payload = Some (proxima m)
    ∧ pendingRequests m' !! key = Some (S (proxima m)).
Proof.
  intros payload key call Hget Hrk Hkey Hfresca Htok Hresp Hretry.
  set (m1 := registado (requestKeyProdutos js payload) m).
  assert (key ≠ requestKeyProdutos js payload) as Hdif.
  { intros Heq. by injection Heq. }
  assert (pendingRequests m1 !! key = None) as Hkey1.
  { subst m1. unfold registado. mundo_simpl. by rewrite lookup_insert_ne. }
  assert (semFuturo m1) as Hfresca1.
  { intros p Hp. subst m1. unfold registado in *. revert Hp. mundo_simpl.
    intros Hp. apply Hfresca. lia. }
  destruct (bloqueio_retry m1 g URL_CONSULTA_SERVICO "POST" payload tok erro
              Hkey1 Hfresca1 Htok Hresp Hretry) as (m' & Hb & Hps & _ & Hch & Hc & _).
  assert (bloqueio amb call m = (Some (S (proxima m)), m')) as Hcall.
  { subst call. unfold consultarProdutos. fold payload.
    rewrite (bloqueio_passo (CacheGet _) _ m None m)
      by (cbn [handle]; by rewrite Hget).
    unfold Dedup.dedupedRequest_seq.
    rewrite (bloqueio_passo (PendingGet _) _ m None m)
      by (cbn [handle]; by rewrite Hrk).
    rewrite (bloqueio_passo NewPromise _ m (proxima m)
               (com_promessas (promessas m) (S (proxima m)) m)) by done.
    rewrite (bloqueio_passo (PendingSet _ (proxima m)) _ _ () m1) by done.
    apply bloqueio_bind_preso, bloqueio_bind_preso. unfold requisicao.
    by apply bloqueio_bind_preso. }
  exists m'. split; [done|]. split; [by eapply bloqueio_run_none|].
  split; [done|]. split; [done|]. fold key in Hps. rewrite Hps. split.
  - rewrite lookup_insert_ne by done. subst m1. unfold registado. mundo_simpl.
    by rewrite lookup_insert_eq.
  - by rewrite lookup_insert_eq.
Qed.

(** An attempt that ends without a retry clears its entry: when the
    request is answered, or fails with an error that is neither a
    401/403 nor transient, the call returns the answer's data, or throws
    the final error; its promise settles with that outcome, and the
    table of pending requests is as it was. *)
Theorem fazerRequisicao_produtos_releases (m : Mundo) (g : Global)
    (url method : string) (data : Payload) (tok : string) :
  let key := requestKey js method url data in
  pendingRequests m !! key = None →
  semFuturo m →
  obtemToken amb g m tok →
  ∃ m', run amb (fazerRequisicaoAutenticada js url method data 0 g) m
        = match httpResposta amb (chamadas m) tok data with
          | Returned resposta => Some ((Returned (r_data resposta), globalCom g tok), m')
          | Thrown erro =>
              if Executor.naoAutorizado erro || Executor.transitorio erro then None
              else Some ((Thrown (Executor.erroFinal erro), globalCom g tok), m')
          end
    ∧ pendingRequests m' = pendingRequests m
    ∧ chamadas m' = S (chamadas m)
    ∧ respondidas m' !! proxima m
      = match httpResposta amb (chamadas m) tok data with
        | Returned resposta => Some (Returned (r_data resposta))
        | Thrown erro => Some (Thrown (Executor.erroFinal erro))
        end.
Proof.
  intros key Hkey Hfresca Htok.
  destruct (aoPedido_campos key g m) as (Hps & Hch & Hc & Hrel & Hrs).
  set (m2 := Executor.aposPedido tok url method data (aoPedido key g m)).
  set (r := match httpResposta amb (chamadas m) tok data with
            | Returned resposta => Returned (r_data resposta)
            | Thrown erro => Thrown (Executor.erroFinal erro)
            end).
  exists (com_respondidas (<[proxima m := r]> (respondidas m2))
            (com_pending (pendingRequests m) m2)).
  split; [|split; [done|split]].
  2: { subst m2. unfold Executor.aposPedido. mundo_simpl. by rewrite Hch. }
  2: { mundo_simpl. rewrite lookup_insert_eq. subst r.
       by destruct (httpResposta amb (chamadas m) tok data). }
  subst r.
  destruct (httpResposta amb (chamadas m) tok data) as [resposta|erro] eqn:Hresp.
  - unfold fazerRequisicaoAutenticada.
    change (Z.to_nat (MAX_RETRIES - 0)) with 2%nat.
    cbn [fazerRequisicaoAutenticada_rec]. fold key.
    unfold dedupedRequestG, fetcherRequisicao.
    passo. rewrite Hkey. passo. passo.
    rewrite run_bind, run_bind.
    change (com_pending (<[key := proxima m]> _) _) with (registado key m).
    rewrite (run_getSankhyaToken_obtem key g m tok Htok).
    passo. rewrite Hch, Hresp. rewrite run_ret. passo. passo. fold m2.
    subst m2. unfold Executor.aposPedido. mundo_simpl.
    rewrite Hps, delete_insert_id by done. by rewrite !Hch.
  - destruct (Executor.naoAutorizado erro || Executor.transitorio erro) eqn:Hretry.
    + apply orb_true_iff in Hretry.
      destruct (bloqueio_retry m g url method data tok erro
                  Hkey Hfresca Htok Hresp Hretry) as (m' & Hb & _).
      by eapply bloqueio_run_none.
    + apply orb_false_iff in Hretry as [Hna Htr].
      unfold fazerRequisicaoAutenticada.
      change (Z.to_nat (MAX_RETRIES - 0)) with 2%nat.
      cbn [fazerRequisicaoAutenticada_rec]. fold key.
      unfold dedupedRequestG, fetcherRequisicao.
      passo. rewrite Hkey. passo. passo.
      rewrite run_bind, run_bind.
      change (com_pending (<[key := proxima m]> _) _) with (registado key m).
      rewrite (run_getSankhyaToken_obtem key g m tok Htok).
      passo. rewrite Hch, Hresp. unfold aoFalhar. rewrite Hna, Htr. cbn [andb].
      rewrite run_ret. passo. passo. fold m2.
      subst m2. unfold Executor.aposPedido. mundo_simpl.
      rewrite Hps, delete_insert_id by done. by rewrite !Hch.
Qed.

(** *** What the two fetchers of this file keep of an answer without rows *)

(** An answer without rows is stored: [consultarProdutos] keeps the empty
    page under the key of the call for an hour, and
    [consultarEstoqueProduto] the empty stock for 30 seconds.  For that
    long the same call is answered from the store, with the empty result
    and without a request. *)
Theorem produtos_empty_cached
    (requisicaoProdutos : string → string → Payload → Prog (Outcome Resposta))
    (m m1 : Mundo) (resp : Resposta) :
  responseBody resp = None ∨ Consultas.semLinhas resp →
  (∀ page pageSize searchName searchCode,
     let key := chaveProdutos page pageSize searchName searchCode in
     let payload := payloadProdutos js searchName searchCode in
     let call := consultarProdutos js requisicaoProdutos page pageSize
                   searchName searchCode in
     Cache.get (cache m) (relogio m) key = None →
     pendingRequests m !! requestKeyProdutos js payload = None →
     run amb (requisicaoProdutos URL_CONSULTA_SERVICO "POST" payload)
       (registado (requestKeyProdutos js payload) m)
       = Some (Returned resp, m1) →
     ∃ m2, run amb call m = Some (Returned (CvPagina (paginaVazia page pageSize)), m2)
       ∧ rastro m2 = rastro m1 ++
           [EvCacheSet key (CvPagina (paginaVazia page pageSize)) 3600]
       ∧ ∀ t, relogio m1 ≤ t < relogio m1 + 3600000 →
           run amb call (com_relogio t m2)
           = Some (Returned (CvPagina (paginaVazia page pageSize)), com_relogio t m2))
  ∧ (∀ codProd searchLocal,
       let key := chaveEstoque codProd searchLocal in
       let call := consultarEstoqueProduto js requisicaoProdutos codProd searchLocal in
       Cache.get (cache m) (relogio m) key = None →
       run amb (requisicaoProdutos URL_CONSULTA_SERVICO "POST"
                  (payloadEstoque js codProd searchLocal)) m = Some (Returned resp, m1) →
       ∃ m2, run amb call m = Some (Returned (CvEstoque estoqueVazio), m2)
         ∧ rastro m2 = rastro m1 ++
             [EvLogApiRequest false; EvCacheSet key (CvEstoque estoqueVazio) 30]
         ∧ ∀ t, relogio m1 ≤ t < relogio m1 + 30000 →
             run amb call (com_relogio t m2)
             = Some (Returned (CvEstoque estoqueVazio), com_relogio t m2)).
Proof.
  intros Hvazio. split.
  - intros page pageSize searchName searchCode key payload call Hget Hrk Hreq.
    set (v := CvPagina (paginaVazia page pageSize)).
    set (m2 := com_liquidadas (<[proxima m := Returned v]> (liquidadas m1))
                 (com_pending (delete (requestKeyProdutos js payload) (pendingRequests m1))
                    (com_cache (Cache.set (cache m1) (relogio m1) key v 3600)
                       [EvCacheSet key v 3600] m1))).
    exists m2. split; [|split; [done|]].
    + subst call. unfold consultarProdutos. fold payload key. passo. rewrite Hget.
      unfold Dedup.dedupedRequest_seq. passo. rewrite Hrk. passo. passo.
      rewrite run_bind, run_bind.
      change (com_pending _ _) with (registado (requestKeyProdutos js payload) m).
      rewrite Hreq.
      assert (run amb (_ ← perform (CacheSet key v (60 * 60 * 1)); mret (Returned v)) m1
              = Some (Returned v, com_cache (Cache.set (cache m1) (relogio m1) key v 3600)
                                    [EvCacheSet key v 3600] m1)) as Hset
        by (by passo).
      unfold Consultas.semLinhas in Hvazio.
      destruct (responseBody resp) as [[[ents|]]|].
      * destruct Hvazio as [?|Hent]; [done|]. rewrite Hent. fold v.
        rewrite Hset. passo. by passo.
      * fold v. rewrite Hset. passo. by passo.
      * fold v. rewrite Hset. passo. by passo.
    + intros t Ht. subst call. unfold consultarProdutos. fold payload key. passo.
      subst m2. mundo_simpl. rewrite get_set_janela.
      by replace (t <? relogio m1 + 3600 * 1000) with true
        by (symmetry; apply Z.ltb_lt; lia).
  - intros codProd searchLocal key call Hget Hreq.
    set (v := CvEstoque estoqueVazio).
    set (m2 := com_cache (Cache.set (cache (registar (EvLogApiRequest false) m1))
                            (relogio m1) key v 30)
                 [EvCacheSet key v 30] (registar (EvLogApiRequest false) m1)).
    exists m2. split; [|split].
    + subst call. unfold consultarEstoqueProduto. fold key. passo. rewrite Hget.
      rewrite run_bind, Hreq. passo.
      unfold Consultas.semLinhas in Hvazio.
      destruct (responseBody resp) as [[[ents|]]|].
      * destruct Hvazio as [?|Hent]; [done|]. rewrite Hent. by passo.
      * by passo.
      * by passo.
    + subst m2. mundo_simpl. by rewrite <- app_assoc.
    + intros t Ht. subst call. unfold consultarEstoqueProduto. fold key. passo.
      subst m2. mundo_simpl. rewrite get_set_janela.
      by replace (t <? relogio m1 + 30 * 1000) with true
        by (symmetry; apply Z.ltb_lt; lia).
Qed.

End ProdutosProps.

(** ** The further properties on concrete states *)

Section MoreExamples.
Import Async Normalizacao TokenManager TokenAtual Executor Fetchers Consultas Rotas
  Exemplos Casos.


Lemma obterToken_settles_witness :
  ∃ r m', run amb_ok (obterToken false 0) mundo0 = Some (r, m')
    ∧ tokenPromise m' = None
    ∧ (logins mundo0 ≤ logins m' ≤ logins mundo0 + 4)%nat
    ∧ chamadas m' = chamadas mundo0
    ∧ erroSimples r.
Proof. exact (obterToken_settles amb_ok mundo0 false 0 eq_refl). Defined.

Lemma obterToken_releases_lock_witness :
  cache (finalDe (run amb_ok (obterToken false 0) mundo0) mundo0) !! LOCK_KEY = None.
Proof.
  apply (obterToken_releases_lock amb_ok mundo0 false 0 (Returned "tok0")
           (finalDe (run amb_ok (obterToken false 0) mundo0) mundo0)).
  - reflexivity.
  - vm_compute. reflexivity.
  - left. reflexivity.
Defined.

Lemma obterToken_fast_path_witness :
  run amb_ok (obterToken false 0) mundo_com_token
  = Some (Returned "antigo", mundo_com_token).
Proof.
  apply (obterToken_fast_path amb_ok mundo_com_token credencial_boa 0).
  - vm_compute. reflexivity.
  - reflexivity.
  - vm_compute. reflexivity.
Defined.


Lemma obterTokenAtual_agrees_witness :
  run amb_ok (obterToken false 0) mundo_com_token
  = Some (Returned "antigo", mundo_com_token).
Proof.
  apply (proj1 (obterTokenAtual_agrees amb_ok mundo_com_token mundo_com_token
                  status_bom 0 ltac:(vm_compute; reflexivity))
           "antigo" eq_refl eq_refl).
Defined.

Lemma invalidarToken_forces_login_witness :
  ∃ m', run amb_ok (invalidarToken ≫= λ _, obterToken false 0) mundo_com_token
        = Some (Returned "tok0", m')
    ∧ logins m' = 1%nat.
Proof.
  destruct (invalidarToken_forces_login amb_ok mundo_com_token "tok0" eq_refl eq_refl)
    as (m' & Hrun & Hl & _).
  exists m'. split; [exact Hrun|exact Hl].
Defined.

Lemma fazerRequisicao_single_attempt_witness :
  run amb_ok (fazerRequisicaoAutenticada "u" "POST" dados 0) mundo_com_token
  = Some (Returned (r_data respostaVazia),
          registar (EvApiLog 200 true)
            (aposPedido "antigo" "u" "POST" dados mundo_com_token)).
Proof.
  exact (fazerRequisicao_single_attempt amb_ok mundo_com_token mundo_com_token
           "antigo" "u" "POST" dados 0 ltac:(vm_compute; reflexivity)).
Defined.

Lemma fazerRequisicao_token_failure_witness :
  let m := finalDe (run (amb_login_falha 401) (obterToken false 0) mundo0) mundo0 in
  run (amb_login_falha 401) (fazerRequisicaoAutenticada "u" "POST" dados 0) mundo0
  = Some (Thrown (Error "Falha na autenticação Sankhya: Request failed with status code 401"),
          registar (EvApiLog 500 false) m)
  ∧ chamadas m = 0%nat.
Proof.
  exact (fazerRequisicao_token_failure (amb_login_falha 401) mundo0
           (finalDe (run (amb_login_falha 401) (obterToken false 0) mundo0) mundo0)
           (Error "Falha na autenticação Sankhya: Request failed with status code 401")
           "u" "POST" dados 0 eq_refl ltac:(vm_compute; reflexivity)).
Defined.

Lemma fazerRequisicao_settles_witness :
  ∃ r m', run (amb_falha (erroHttp 500))
            (fazerRequisicaoAutenticada "u" "POST" dados 0) mundo0 = Some (r, m')
    ∧ tokenPromise m' = None
    ∧ (chamadas mundo0 ≤ chamadas m' ≤ chamadas mundo0 + 3)%nat
    ∧ erroSimples r.
Proof.
  exact (fazerRequisicao_settles (amb_falha (erroHttp 500)) mundo0 "u" "POST" dados 0
           eq_refl).
Defined.

Lemma consultarParceiros_round_trip_witness :
  let key := chaveParceiros 1 50 "" "" None None in
  let pg := paginaParceiros 1 50 tres_entidades tres_linhas in
  ∃ m2, run amb_linhas (consultarParceiros js0 1 50 "" "" None None) mundo_com_token
        = Some (Returned (CvPagina pg), m2)
    ∧ run amb_linhas (consultarParceiros js0 1 50 "" "" None None)
        (com_relogio 1599999 m2)
      = Some (Returned (CvPagina pg), com_relogio 1599999 m2)
    ∧ Cache.get (cache m2) 1600000 key = None.
Proof.
  cbv zeta.
  destruct (consultarParceiros_round_trip amb_linhas js0 mundo_com_token
              (finalDe (run amb_linhas
                          (fazerRequisicaoAutenticada URL_CONSULTA_SERVICO "POST"
                             (payloadParceiros js0 "" "" None None) 0)
                          mundo_com_token) mundo_com_token)
              1 50 "" "" None None tres_produtos tres_entidades tres_linhas
              ltac:(vm_compute; reflexivity) ltac:(vm_compute; reflexivity)
              (conj eq_refl eq_refl))
    as (m2 & Hrun & _ & _ & Hhit & Hfim).
  exists m2. split; [exact Hrun|]. split; [|exact Hfim].
  apply Hhit. vm_compute. split; [discriminate|reflexivity].
Defined.

Lemma consultarTipos_round_trip_witness :
  ∃ m2, run amb_linhas consultarTiposOperacao mundo_com_token
        = Some (Returned (CvLista (mapearSimples ["CODPROD"; "DESCRPROD"] tres_linhas)),
                m2)
    ∧ Cache.get (cache m2) 4600000 "tipos:operacao:all" = None.
Proof.
  destruct (consultarTipos_round_trip amb_linhas mundo_com_token
              (finalDe (run amb_linhas
                          (fazerRequisicaoAutenticada URL_CONSULTA_SERVICO "POST"
                             (payloadTipos "TipoOperacao" "CODTIPOPER, DESCROPER, ATIVO"
                                "DESCROPER ASC") 0)
                          mundo_com_token) mundo_com_token)
              "tipos:operacao:all"
              (payloadTipos "TipoOperacao" "CODTIPOPER, DESCROPER, ATIVO" "DESCROPER ASC")
              tres_produtos tres_entidades tres_linhas
              ltac:(vm_compute; reflexivity) ltac:(vm_compute; reflexivity)
              (conj eq_refl eq_refl))
    as (m2 & Hrun & _ & _ & _ & Hfim).
  exists m2. split; [exact Hrun|exact Hfim].
Defined.

Lemma fetchers_empty_not_cached_witness :
  let m1 := finalDe (run amb_ok
                       (fazerRequisicaoAutenticada URL_CONSULTA_SERVICO "POST"
                          (payloadParceiros js0 "" "" None None) 0)
                       mundo_com_token) mundo_com_token in
  run amb_ok (consultarParceiros js0 1 50 "" "" None None) mundo_com_token
  = Some (Returned (CvPagina (paginaVazia 1 50)), m1)
  ∧ cache m1 = cache mundo_com_token.
Proof.
  cbv zeta. split; [|vm_compute; reflexivity].
  apply (proj1 (fetchers_empty_not_cached amb_ok js0 mundo_com_token
                  (finalDe (run amb_ok
                              (fazerRequisicaoAutenticada URL_CONSULTA_SERVICO "POST"
                                 (payloadParceiros js0 "" "" None None) 0)
                              mundo_com_token) mundo_com_token)
                  (r_data respostaVazia))
           1 50 "" "" None None).
  - vm_compute. reflexivity.
  - vm_compute. reflexivity.
  - left. reflexivity.
Defined.

Lemma consultarComplementoParceiro_total_witness :
  ∃ v m', run amb_ok (consultarComplementoParceiro "1") mundo0 = Some (Returned v, m').
Proof.
  exact (proj1 (consultarComplementoParceiro_total amb_ok mundo0 "1" eq_refl)).
Defined.

Lemma fetchers_modelo_total_witness :
  ∃ r m' a b,
    run amb_ok (fazerRequisicaoAutenticada URL_CONSULTA_SERVICO "POST"
                  (payloadDadosModelo "1") 0) mundo0 = Some (r, m')
    ∧ run amb_ok (consultarDadosModeloNota "1") mundo0
      = Some (Returned (CvRegistro (dadosModelo a b)), m')
    ∧ (∀ erro, r = Thrown erro → a = SNull ∧ b = SNull).
Proof. exact (proj1 (fetchers_modelo_total amb_ok mundo0 "1" eq_refl)). Defined.

Lemma normalizar_last_wins_witness :
  normalizar nomes_repetidos linha_repetida !! "NOME" = Some (SStr "segundo").
Proof.
  apply (normalizar_last_wins nomes_repetidos linha_repetida 1 "NOME" (SStr "segundo")).
  - reflexivity.
  - vm_compute. reflexivity.
  - intros [|[|j]] Hj Hl; [lia|lia|]. vm_compute in Hl. discriminate Hl.
Defined.


Lemma rota_parceiros_filtro_witness :
  filtrosDoUsuario (Some gerente9) EquipeFalhou = (None, Some [])
  ∧ payloadParceiros js0 "ana" "" None (Some [])
    = payloadParceiros js0 "ana" "" None None.
Proof.
  apply (proj2 (rota_parceiros_filtro js0 1 50 "ana" "" gerente9 9 EquipeFalhou
                  eq_refl)).
  - reflexivity.
  - intros v vs. discriminate.
Defined.

End MoreExamples.

Section ProdutosExamples.
Import Async Fetchers Produtos Exemplos Casos.

Lemma getSankhyaToken_memo_witness :
  run amb_ok (getSankhyaToken 0 semToken) mundo0
  = Some ((Returned "tok0", comToken "tok0"),
          registar EvLogin (com_contadores 1 0 mundo0))
  ∧ sankhya_global_token (comToken "tok0") = Some ("tok0", 1080)
  ∧ ∀ rc' m2, run amb_ok (getSankhyaToken rc' (comToken "tok0")) m2
              = Some ((Returned "tok0", comToken "tok0"), m2).
Proof.
  exact (getSankhyaToken_memo amb_ok mundo0 semToken 0 "tok0" eq_refl eq_refl).
Defined.

Lemma getSankhyaToken_login_failure_witness :
  ∃ m', run (amb_login_falha 500) (getSankhyaToken 0 semToken) mundo0
        = Some ((Thrown (Error TokenManager.MSG_INDISPONIVEL), semToken), m')
    ∧ logins m' = 4%nat
    ∧ relogio m' = 7000.
Proof.
  destruct (proj2 (getSankhyaToken_login_failure (amb_login_falha 500) mundo0 semToken
                     (erroHttp 500) eq_refl) eq_refl (λ _, eq_refl))
    as (m' & Hrun & Hl & Hrel & _).
  exists m'. split; [exact Hrun|]. split; [exact Hl|exact Hrel].
Defined.

Lemma fazerRequisicao_produtos_retry_hangs_witness :
  ∃ m', bloqueio amb_sessao_expirada
          (fazerRequisicaoAutenticada js0 "u" "POST" dados 0 (comToken "antigo")) mundo0
        = (Some 0%nat, m')
    ∧ run amb_sessao_expirada
        (fazerRequisicaoAutenticada js0 "u" "POST" dados 0 (comToken "antigo")) mundo0
      = None
    ∧ pendingRequests m' = {["POST:u:{}" := 0%nat]}
    ∧ chamadas m' = 1%nat
    ∧ relogio m' = 1500.
Proof.
  destruct (fazerRequisicao_produtos_retry_hangs amb_sessao_expirada js0 mundo0
              (comToken "antigo") "u" "POST" dados "antigo" (erroHttp 401)
              eq_refl (λ _ _, eq_refl) (or_introl eq_refl) eq_refl (or_introl eq_refl))
    as (m' & Hb & Hrun & Hps & _ & Hch & _ & Hrel & _).
  exists m'. split; [exact Hb|]. split; [exact Hrun|]. split; [exact Hps|].
  split; [exact Hch|exact Hrel].
Defined.

Lemma consultarProdutos_retry_hangs_witness :
  run amb_sessao_expirada
    (consultarProdutos js0 (requisicao js0 (comToken "antigo")) 1 50 "" "") mundo0
  = None
  ∧ cache (ondeParou (consultarProdutos js0 (requisicao js0 (comToken "antigo")) 1 50 "" "")
             amb_sessao_expirada mundo0) = ∅.
Proof.
  destruct (consultarProdutos_retry_hangs amb_sessao_expirada js0 mundo0
              (comToken "antigo") 1 50 "" "" "antigo" (erroHttp 401)
              eq_refl eq_refl eq_refl (λ _ _, eq_refl)
              (or_introl eq_refl) eq_refl (or_introl eq_refl))
    as (m' & Hb & Hrun & Hc & _).
  split; [exact Hrun|]. unfold ondeParou. rewrite Hb. exact Hc.
Defined.

Lemma fazerRequisicao_produtos_releases_witness :
  ∃ m', run amb_ok (fazerRequisicaoAutenticada js0 "u" "POST" dados 0 semToken) mundo0
        = Some ((Returned (r_data respostaVazia), comToken "tok0"), m')
    ∧ pendingRequests m' = ∅
    ∧ chamadas m' = 1%nat.
Proof.
  destruct (fazerRequisicao_produtos_releases amb_ok js0 mundo0 semToken "u" "POST" dados
              "tok0" eq_refl (λ _ _, eq_refl) (or_intror (conj eq_refl eq_refl)))
    as (m' & Hrun & Hps & Hch & _).
  exists m'. split; [exact Hrun|]. split; [exact Hps|exact Hch].
Defined.

Lemma produtos_empty_cached_witness :
  ∃ m2, run amb_ok (consultarEstoqueProduto js0 requisicao_sem_corpo "10" "") mundo0
        = Some (Returned (CvEstoque estoqueVazio), m2)
    ∧ rastro m2 = [EvLogApiRequest false;
                   EvCacheSet (chaveEstoque "10" "") (CvEstoque estoqueVazio) 30].
Proof.
  destruct (proj2 (produtos_empty_cached amb_ok js0 requisicao_sem_corpo mundo0 mundo0
                     sem_corpo (or_introl eq_refl)) "10" "" eq_refl eq_refl)
    as (m2 & Hrun & Hr & _).
  exists m2. split; [exact Hrun|exact Hr].
Defined.

End ProdutosExamples.
